(** * File-indexing bot: metadata index, MIME classifier and owner search

    A shallow embedding of [bot.py]: the MIME classifier
    [get_file_type_hint], the upload handler [handle_file] and the search
    handler [search_files], over the process-wide dictionary
    [FILE_DATABASE].

    Modelling conventions.
    - A Python [str] is the [string] of its UTF-8 bytes.  [str.lower] and
      [str.upper] are the interpreter's: an ASCII string is converted byte
      by byte, any other code point by code point through the case
      mappings of the Unicode database, with the final-sigma rule.
    - The dictionary [FILE_DATABASE] is an association list in iteration
      order: assigning to a key that is present replaces the value in
      place, assigning to a new key appends at the end.
    - The sender of a message is taken as given: [message.from_user.id]
      and [update.effective_user.id] are the numeric id the transport
      supplies.  The words of a command ([context.args]) are a list of
      strings.
    - The handlers are state-passing functions: they take the dictionary
      and return the reply sent to the user together with the dictionary
      afterwards.  Replies keep the values interpolated into the message
      text as structured fields. *)

From Stdlib Require Import Strings.String Strings.Ascii.
From Stdlib Require Import Lists.List.
From Stdlib Require Import ZArith NArith Arith Bool Lia.
Import ListNotations.

Local Open Scope string_scope.
Local Open Scope list_scope.

(** ** UTF-8 *)

(** A Python [str] is a sequence of code points.  A [string] stands for
    the [str] whose UTF-8 encoding it is (a surrogate code point is encoded
    like any other); equality, concatenation, containment and splitting at
    an ASCII character act on the encodings as they act on the [str]
    values.  Case conversion works on the code points. *)
Module Utf8.

(** A continuation byte [10xxxxxx]. *)
Definition is_continuation (b : ascii) : bool :=
  let n := N_of_ascii b in ((0x80 <=? n) && (n <=? 0xBF))%N.

Definition payload (b : ascii) : N := (N_of_ascii b - 0x80)%N.

(** The code points a well-formed byte sequence encodes; [None] for a
    sequence that is the encoding of no [str]. *)
Fixpoint decode (s : string) : option (list N) :=
  match s with
  | EmptyString => Some []
  | String b0 s1 =>
      let n0 := N_of_ascii b0 in
      if (n0 <? 0x80)%N then option_map (cons n0) (decode s1)
      else if (n0 <? 0xC0)%N then None
      else if (n0 <? 0xE0)%N then
        match s1 with
        | String b1 s2 =>
            let c := ((n0 - 0xC0) * 0x40 + payload b1)%N in
            if is_continuation b1 && (0x80 <=? c)%N
            then option_map (cons c) (decode s2) else None
        | _ => None
        end
      else if (n0 <? 0xF0)%N then
        match s1 with
        | String b1 (String b2 s3) =>
            let c := ((n0 - 0xE0) * 0x1000 + payload b1 * 0x40 + payload b2)%N in
            if is_continuation b1 && is_continuation b2 && (0x800 <=? c)%N
            then option_map (cons c) (decode s3) else None
        | _ => None
        end
      else if (n0 <? 0xF8)%N then
        match s1 with
        | String b1 (String b2 (String b3 s4)) =>
            let c := ((n0 - 0xF0) * 0x40000 + payload b1 * 0x1000
                      + payload b2 * 0x40 + payload b3)%N in
            if is_continuation b1 && is_continuation b2 && is_continuation b3
               && (0x10000 <=? c)%N && (c <=? 0x10FFFF)%N
            then option_map (cons c) (decode s4) else None
        | _ => None
        end
      else None
  end.

(** The UTF-8 bytes of one code point. *)
Definition encode_char (c : N) : string :=
  if (c <? 0x80)%N then String (ascii_of_N c) EmptyString
  else if (c <? 0x800)%N then
    String (ascii_of_N (0xC0 + c / 0x40))
      (String (ascii_of_N (0x80 + c mod 0x40)) EmptyString)
  else if (c <? 0x10000)%N then
    String (ascii_of_N (0xE0 + c / 0x1000))
      (String (ascii_of_N (0x80 + (c / 0x40) mod 0x40))
         (String (ascii_of_N (0x80 + c mod 0x40)) EmptyString))
  else
    String (ascii_of_N (0xF0 + c / 0x40000))
      (String (ascii_of_N (0x80 + (c / 0x1000) mod 0x40))
         (String (ascii_of_N (0x80 + (c / 0x40) mod 0x40))
            (String (ascii_of_N (0x80 + c mod 0x40)) EmptyString))).

Fixpoint encode (cs : list N) : string :=
  match cs with
  | [] => EmptyString
  | c :: cs' => (encode_char c ++ encode cs')%string
  end.

End Utf8.

(** ** The Unicode case data of the interpreter *)

(** The case mappings and case properties that [str.lower] and [str.upper]
    read from the interpreter's Unicode database (Unicode 14.0, as carried
    by CPython 3.11), as tables sorted by code point. *)
Module Unicode.

(** Search of a table sorted by code point. *)
Fixpoint lookup (table : list (N * list N)) (c : N) : option (list N) :=
  match table with
  | [] => None
  | (k, v) :: rest =>
      if (k =? c)%N then Some v
      else if (c <? k)%N then None
      else lookup rest c
  end.

Fixpoint in_ranges (ranges : list (N * N)) (c : N) : bool :=
  match ranges with
  | [] => false
  | (lo, hi) :: rest =>
      if (c <? lo)%N then false
      else if (c <=? hi)%N then true
      else in_ranges rest c
  end.

(** The code points with a lower-case mapping other than themselves. *)
Definition lower_table : list (N * list N) :=
  [
    (0x41, [0x61]); (0x42, [0x62]); (0x43, [0x63]); (0x44, [0x64]);
    (0x45, [0x65]); (0x46, [0x66]); (0x47, [0x67]); (0x48, [0x68]);
    (0x49, [0x69]); (0x4A, [0x6A]); (0x4B, [0x6B]); (0x4C, [0x6C]);
    (0x4D, [0x6D]); (0x4E, [0x6E]); (0x4F, [0x6F]); (0x50, [0x70]);
    (0x51, [0x71]); (0x52, [0x72]); (0x53, [0x73]); (0x54, [0x74]);
    (0x55, [0x75]); (0x56, [0x76]); (0x57, [0x77]); (0x58, [0x78]);
    (0x59, [0x79]); (0x5A, [0x7A]); (0xC0, [0xE0]); (0xC1, [0xE1]);
    (0xC2, [0xE2]); (0xC3, [0xE3]); (0xC4, [0xE4]); (0xC5, [0xE5]);
    (0xC6, [0xE6]); (0xC7, [0xE7]); (0xC8, [0xE8]); (0xC9, [0xE9]);
    (0xCA, [0xEA]); (0xCB, [0xEB]); (0xCC, [0xEC]); (0xCD, [0xED]);
    (0xCE, [0xEE]); (0xCF, [0xEF]); (0xD0, [0xF0]); (0xD1, [0xF1]);
    (0xD2, [0xF2]); (0xD3, [0xF3]); (0xD4, [0xF4]); (0xD5, [0xF5]);
    (0xD6, [0xF6]); (0xD8, [0xF8]); (0xD9, [0xF9]); (0xDA, [0xFA]);
    (0xDB, [0xFB]); (0xDC, [0xFC]); (0xDD, [0xFD]); (0xDE, [0xFE]);
    (0x100, [0x101]); (0x102, [0x103]); (0x104, [0x105]); (0x106, [0x107]);
    (0x108, [0x109]); (0x10A, [0x10B]); (0x10C, [0x10D]); (0x10E, [0x10F]);
    (0x110, [0x111]); (0x112, [0x113]); (0x114, [0x115]); (0x116, [0x117]);
    (0x118, [0x119]); (0x11A, [0x11B]); (0x11C, [0x11D]); (0x11E, [0x11F]);
    (0x120, [0x121]); (0x122, [0x123]); (0x124, [0x125]); (0x126, [0x127]);
    (0x128, [0x129]); (0x12A, [0x12B]); (0x12C, [0x12D]); (0x12E, [0x12F]);
    (0x130, [0x69; 0x307]); (0x132, [0x133]); (0x134, [0x135]); (0x136, [0x137]);
    (0x139, [0x13A]); (0x13B, [0x13C]); (0x13D, [0x13E]); (0x13F, [0x140]);
    (0x141, [0x142]); (0x143, [0x144]); (0x145, [0x146]); (0x147, [0x148]);
    (0x14A, [0x14B]); (0x14C, [0x14D]); (0x14E, [0x14F]); (0x150, [0x151]);
    (0x152, [0x153]); (0x154, [0x155]); (0x156, [0x157]); (0x158, [0x159]);
    (0x15A, [0x15B]); (0x15C, [0x15D]); (0x15E, [0x15F]); (0x160, [0x161]);
    (0x162, [0x163]); (0x164, [0x165]); (0x166, [0x167]); (0x168, [0x169]);
    (0x16A, [0x16B]); (0x16C, [0x16D]); (0x16E, [0x16F]); (0x170, [0x171]);
    (0x172, [0x173]); (0x174, [0x175]); (0x176, [0x177]); (0x178, [0xFF]);
    (0x179, [0x17A]); (0x17B, [0x17C]); (0x17D, [0x17E]); (0x181, [0x253]);
    (0x182, [0x183]); (0x184, [0x185]); (0x186, [0x254]); (0x187, [0x188]);
    (0x189, [0x256]); (0x18A, [0x257]); (0x18B, [0x18C]); (0x18E, [0x1DD]);
    (0x18F, [0x259]); (0x190, [0x25B]); (0x191, [0x192]); (0x193, [0x260]);
    (0x194, [0x263]); (0x196, [0x269]); (0x197, [0x268]); (0x198, [0x199]);
    (0x19C, [0x26F]); (0x19D, [0x272]); (0x19F, [0x275]); (0x1A0, [0x1A1]);
    (0x1A2, [0x1A3]); (0x1A4, [0x1A5]); (0x1A6, [0x280]); (0x1A7, [0x1A8]);
    (0x1A9, [0x283]); (0x1AC, [0x1AD]); (0x1AE, [0x288]); (0x1AF, [0x1B0]);
    (0x1B1, [0x28A]); (0x1B2, [0x28B]); (0x1B3, [0x1B4]); (0x1B5, [0x1B6]);
    (0x1B7, [0x292]); (0x1B8, [0x1B9]); (0x1BC, [0x1BD]); (0x1C4, [0x1C6]);
    (0x1C5, [0x1C6]); (0x1C7, [0x1C9]); (0x1C8, [0x1C9]); (0x1CA, [0x1CC]);
    (0x1CB, [0x1CC]); (0x1CD, [0x1CE]); (0x1CF, [0x1D0]); (0x1D1, [0x1D2]);
    (0x1D3, [0x1D4]); (0x1D5, [0x1D6]); (0x1D7, [0x1D8]); (0x1D9, [0x1DA]);
    (0x1DB, [0x1DC]); (0x1DE, [0x1DF]); (0x1E0, [0x1E1]); (0x1E2, [0x1E3]);
    (0x1E4, [0x1E5]); (0x1E6, [0x1E7]); (0x1E8, [0x1E9]); (0x1EA, [0x1EB]);
    (0x1EC, [0x1ED]); (0x1EE, [0x1EF]); (0x1F1, [0x1F3]); (0x1F2, [0x1F3]);
    (0x1F4, [0x1F5]); (0x1F6, [0x195]); (0x1F7, [0x1BF]); (0x1F8, [0x1F9]);
    (0x1FA, [0x1FB]); (0x1FC, [0x1FD]); (0x1FE, [0x1FF]); (0x200, [0x201]);
    (0x202, [0x203]); (0x204, [0x205]); (0x206, [0x207]); (0x208, [0x209]);
    (0x20A, [0x20B]); (0x20C, [0x20D]); (0x20E, [0x20F]); (0x210, [0x211]);
    (0x212, [0x213]); (0x214, [0x215]); (0x216, [0x217]); (0x218, [0x219]);
    (0x21A, [0x21B]); (0x21C, [0x21D]); (0x21E, [0x21F]); (0x220, [0x19E]);
    (0x222, [0x223]); (0x224, [0x225]); (0x226, [0x227]); (0x228, [0x229]);
    (0x22A, [0x22B]); (0x22C, [0x22D]); (0x22E, [0x22F]); (0x230, [0x231]);
    (0x232, [0x233]); (0x23A, [0x2C65]); (0x23B, [0x23C]); (0x23D, [0x19A]);
    (0x23E, [0x2C66]); (0x241, [0x242]); (0x243, [0x180]); (0x244, [0x289]);
    (0x245, [0x28C]); (0x246, [0x247]); (0x248, [0x249]); (0x24A, [0x24B]);
    (0x24C, [0x24D]); (0x24E, [0x24F]); (0x370, [0x371]); (0x372, [0x373]);
    (0x376, [0x377]); (0x37F, [0x3F3]); (0x386, [0x3AC]); (0x388, [0x3AD]);
    (0x389, [0x3AE]); (0x38A, [0x3AF]); (0x38C, [0x3CC]); (0x38E, [0x3CD]);
    (0x38F, [0x3CE]); (0x391, [0x3B1]); (0x392, [0x3B2]); (0x393, [0x3B3]);
    (0x394, [0x3B4]); (0x395, [0x3B5]); (0x396, [0x3B6]); (0x397, [0x3B7]);
    (0x398, [0x3B8]); (0x399, [0x3B9]); (0x39A, [0x3BA]); (0x39B, [0x3BB]);
    (0x39C, [0x3BC]); (0x39D, [0x3BD]); (0x39E, [0x3BE]); (0x39F, [0x3BF]);
    (0x3A0, [0x3C0]); (0x3A1, [0x3C1]); (0x3A3, [0x3C3]); (0x3A4, [0x3C4]);
    (0x3A5, [0x3C5]); (0x3A6, [0x3C6]); (0x3A7, [0x3C7]); (0x3A8, [0x3C8]);
    (0x3A9, [0x3C9]); (0x3AA, [0x3CA]); (0x3AB, [0x3CB]); (0x3CF, [0x3D7]);
    (0x3D8, [0x3D9]); (0x3DA, [0x3DB]); (0x3DC, [0x3DD]); (0x3DE, [0x3DF]);
    (0x3E0, [0x3E1]); (0x3E2, [0x3E3]); (0x3E4, [0x3E5]); (0x3E6, [0x3E7]);
    (0x3E8, [0x3E9]); (0x3EA, [0x3EB]); (0x3EC, [0x3ED]); (0x3EE, [0x3EF]);
    (0x3F4, [0x3B8]); (0x3F7, [0x3F8]); (0x3F9, [0x3F2]); (0x3FA, [0x3FB]);
    (0x3FD, [0x37B]); (0x3FE, [0x37C]); (0x3FF, [0x37D]); (0x400, [0x450]);
    (0x401, [0x451]); (0x402, [0x452]); (0x403, [0x453]); (0x404, [0x454]);
    (0x405, [0x455]); (0x406, [0x456]); (0x407, [0x457]); (0x408, [0x458]);
    (0x409, [0x459]); (0x40A, [0x45A]); (0x40B, [0x45B]); (0x40C, [0x45C]);
    (0x40D, [0x45D]); (0x40E, [0x45E]); (0x40F, [0x45F]); (0x410, [0x430]);
    (0x411, [0x431]); (0x412, [0x432]); (0x413, [0x433]); (0x414, [0x434]);
    (0x415, [0x435]); (0x416, [0x436]); (0x417, [0x437]); (0x418, [0x438]);
    (0x419, [0x439]); (0x41A, [0x43A]); (0x41B, [0x43B]); (0x41C, [0x43C]);
    (0x41D, [0x43D]); (0x41E, [0x43E]); (0x41F, [0x43F]); (0x420, [0x440]);
    (0x421, [0x441]); (0x422, [0x442]); (0x423, [0x443]); (0x424, [0x444]);
    (0x425, [0x445]); (0x426, [0x446]); (0x427, [0x447]); (0x428, [0x448]);
    (0x429, [0x449]); (0x42A, [0x44A]); (0x42B, [0x44B]); (0x42C, [0x44C]);
    (0x42D, [0x44D]); (0x42E, [0x44E]); (0x42F, [0x44F]); (0x460, [0x461]);
    (0x462, [0x463]); (0x464, [0x465]); (0x466, [0x467]); (0x468, [0x469]);
    (0x46A, [0x46B]); (0x46C, [0x46D]); (0x46E, [0x46F]); (0x470, [0x471]);
    (0x472, [0x473]); (0x474, [0x475]); (0x476, [0x477]); (0x478, [0x479]);
    (0x47A, [0x47B]); (0x47C, [0x47D]); (0x47E, [0x47F]); (0x480, [0x481]);
    (0x48A, [0x48B]); (0x48C, [0x48D]); (0x48E, [0x48F]); (0x490, [0x491]);
    (0x492, [0x493]); (0x494, [0x495]); (0x496, [0x497]); (0x498, [0x499]);
    (0x49A, [0x49B]); (0x49C, [0x49D]); (0x49E, [0x49F]); (0x4A0, [0x4A1]);
    (0x4A2, [0x4A3]); (0x4A4, [0x4A5]); (0x4A6, [0x4A7]); (0x4A8, [0x4A9]);
    (0x4AA, [0x4AB]); (0x4AC, [0x4AD]); (0x4AE, [0x4AF]); (0x4B0, [0x4B1]);
    (0x4B2, [0x4B3]); (0x4B4, [0x4B5]); (0x4B6, [0x4B7]); (0x4B8, [0x4B9]);
    (0x4BA, [0x4BB]); (0x4BC, [0x4BD]); (0x4BE, [0x4BF]); (0x4C0, [0x4CF]);
    (0x4C1, [0x4C2]); (0x4C3, [0x4C4]); (0x4C5, [0x4C6]); (0x4C7, [0x4C8]);
    (0x4C9, [0x4CA]); (0x4CB, [0x4CC]); (0x4CD, [0x4CE]); (0x4D0, [0x4D1]);
    (0x4D2, [0x4D3]); (0x4D4, [0x4D5]); (0x4D6, [0x4D7]); (0x4D8, [0x4D9]);
    (0x4DA, [0x4DB]); (0x4DC, [0x4DD]); (0x4DE, [0x4DF]); (0x4E0, [0x4E1]);
    (0x4E2, [0x4E3]); (0x4E4, [0x4E5]); (0x4E6, [0x4E7]); (0x4E8, [0x4E9]);
    (0x4EA, [0x4EB]); (0x4EC, [0x4ED]); (0x4EE, [0x4EF]); (0x4F0, [0x4F1]);
    (0x4F2, [0x4F3]); (0x4F4, [0x4F5]); (0x4F6, [0x4F7]); (0x4F8, [0x4F9]);
    (0x4FA, [0x4FB]); (0x4FC, [0x4FD]); (0x4FE, [0x4FF]); (0x500, [0x501]);
    (0x502, [0x503]); (0x504, [0x505]); (0x506, [0x507]); (0x508, [0x509]);
    (0x50A, [0x50B]); (0x50C, [0x50D]); (0x50E, [0x50F]); (0x510, [0x511]);
    (0x512, [0x513]); (0x514, [0x515]); (0x516, [0x517]); (0x518, [0x519]);
    (0x51A, [0x51B]); (0x51C, [0x51D]); (0x51E, [0x51F]); (0x520, [0x521]);
    (0x522, [0x523]); (0x524, [0x525]); (0x526, [0x527]); (0x528, [0x529]);
    (0x52A, [0x52B]); (0x52C, [0x52D]); (0x52E, [0x52F]); (0x531, [0x561]);
    (0x532, [0x562]); (0x533, [0x563]); (0x534, [0x564]); (0x535, [0x565]);
    (0x536, [0x566]); (0x537, [0x567]); (0x538, [0x568]); (0x539, [0x569]);
    (0x53A, [0x56A]); (0x53B, [0x56B]); (0x53C, [0x56C]); (0x53D, [0x56D]);
    (0x53E, [0x56E]); (0x53F, [0x56F]); (0x540, [0x570]); (0x541, [0x571]);
    (0x542, [0x572]); (0x543, [0x573]); (0x544, [0x574]); (0x545, [0x575]);
    (0x546, [0x576]); (0x547, [0x577]); (0x548, [0x578]); (0x549, [0x579]);
    (0x54A, [0x57A]); (0x54B, [0x57B]); (0x54C, [0x57C]); (0x54D, [0x57D]);
    (0x54E, [0x57E]); (0x54F, [0x57F]); (0x550, [0x580]); (0x551, [0x581]);
    (0x552, [0x582]); (0x553, [0x583]); (0x554, [0x584]); (0x555, [0x585]);
    (0x556, [0x586]); (0x10A0, [0x2D00]); (0x10A1, [0x2D01]); (0x10A2, [0x2D02]);
    (0x10A3, [0x2D03]); (0x10A4, [0x2D04]); (0x10A5, [0x2D05]); (0x10A6, [0x2D06]);
    (0x10A7, [0x2D07]); (0x10A8, [0x2D08]); (0x10A9, [0x2D09]); (0x10AA, [0x2D0A]);
    (0x10AB, [0x2D0B]); (0x10AC, [0x2D0C]); (0x10AD, [0x2D0D]); (0x10AE, [0x2D0E]);
    (0x10AF, [0x2D0F]); (0x10B0, [0x2D10]); (0x10B1, [0x2D11]); (0x10B2, [0x2D12]);
    (0x10B3, [0x2D13]); (0x10B4, [0x2D14]); (0x10B5, [0x2D15]); (0x10B6, [0x2D16]);
    (0x10B7, [0x2D17]); (0x10B8, [0x2D18]); (0x10B9, [0x2D19]); (0x10BA, [0x2D1A]);
    (0x10BB, [0x2D1B]); (0x10BC, [0x2D1C]); (0x10BD, [0x2D1D]); (0x10BE, [0x2D1E]);
    (0x10BF, [0x2D1F]); (0x10C0, [0x2D20]); (0x10C1, [0x2D21]); (0x10C2, [0x2D22]);
    (0x10C3, [0x2D23]); (0x10C4, [0x2D24]); (0x10C5, [0x2D25]); (0x10C7, [0x2D27]);
    (0x10CD, [0x2D2D]); (0x13A0, [0xAB70]); (0x13A1, [0xAB71]); (0x13A2, [0xAB72]);
    (0x13A3, [0xAB73]); (0x13A4, [0xAB74]); (0x13A5, [0xAB75]); (0x13A6, [0xAB76]);
    (0x13A7, [0xAB77]); (0x13A8, [0xAB78]); (0x13A9, [0xAB79]); (0x13AA, [0xAB7A]);
    (0x13AB, [0xAB7B]); (0x13AC, [0xAB7C]); (0x13AD, [0xAB7D]); (0x13AE, [0xAB7E]);
    (0x13AF, [0xAB7F]); (0x13B0, [0xAB80]); (0x13B1, [0xAB81]); (0x13B2, [0xAB82]);
    (0x13B3, [0xAB83]); (0x13B4, [0xAB84]); (0x13B5, [0xAB85]); (0x13B6, [0xAB86]);
    (0x13B7, [0xAB87]); (0x13B8, [0xAB88]); (0x13B9, [0xAB89]); (0x13BA, [0xAB8A]);
    (0x13BB, [0xAB8B]); (0x13BC, [0xAB8C]); (0x13BD, [0xAB8D]); (0x13BE, [0xAB8E]);
    (0x13BF, [0xAB8F]); (0x13C0, [0xAB90]); (0x13C1, [0xAB91]); (0x13C2, [0xAB92]);
    (0x13C3, [0xAB93]); (0x13C4, [0xAB94]); (0x13C5, [0xAB95]); (0x13C6, [0xAB96]);
    (0x13C7, [0xAB97]); (0x13C8, [0xAB98]); (0x13C9, [0xAB99]); (0x13CA, [0xAB9A]);
    (0x13CB, [0xAB9B]); (0x13CC, [0xAB9C]); (0x13CD, [0xAB9D]); (0x13CE, [0xAB9E]);
    (0x13CF, [0xAB9F]); (0x13D0, [0xABA0]); (0x13D1, [0xABA1]); (0x13D2, [0xABA2]);
    (0x13D3, [0xABA3]); (0x13D4, [0xABA4]); (0x13D5, [0xABA5]); (0x13D6, [0xABA6]);
    (0x13D7, [0xABA7]); (0x13D8, [0xABA8]); (0x13D9, [0xABA9]); (0x13DA, [0xABAA]);
    (0x13DB, [0xABAB]); (0x13DC, [0xABAC]); (0x13DD, [0xABAD]); (0x13DE, [0xABAE]);
    (0x13DF, [0xABAF]); (0x13E0, [0xABB0]); (0x13E1, [0xABB1]); (0x13E2, [0xABB2]);
    (0x13E3, [0xABB3]); (0x13E4, [0xABB4]); (0x13E5, [0xABB5]); (0x13E6, [0xABB6]);
    (0x13E7, [0xABB7]); (0x13E8, [0xABB8]); (0x13E9, [0xABB9]); (0x13EA, [0xABBA]);
    (0x13EB, [0xABBB]); (0x13EC, [0xABBC]); (0x13ED, [0xABBD]); (0x13EE, [0xABBE]);
    (0x13EF, [0xABBF]); (0x13F0, [0x13F8]); (0x13F1, [0x13F9]); (0x13F2, [0x13FA]);
    (0x13F3, [0x13FB]); (0x13F4, [0x13FC]); (0x13F5, [0x13FD]); (0x1C90, [0x10D0]);
    (0x1C91, [0x10D1]); (0x1C92, [0x10D2]); (0x1C93, [0x10D3]); (0x1C94, [0x10D4]);
    (0x1C95, [0x10D5]); (0x1C96, [0x10D6]); (0x1C97, [0x10D7]); (0x1C98, [0x10D8]);
    (0x1C99, [0x10D9]); (0x1C9A, [0x10DA]); (0x1C9B, [0x10DB]); (0x1C9C, [0x10DC]);
    (0x1C9D, [0x10DD]); (0x1C9E, [0x10DE]); (0x1C9F, [0x10DF]); (0x1CA0, [0x10E0]);
    (0x1CA1, [0x10E1]); (0x1CA2, [0x10E2]); (0x1CA3, [0x10E3]); (0x1CA4, [0x10E4]);
    (0x1CA5, [0x10E5]); (0x1CA6, [0x10E6]); (0x1CA7, [0x10E7]); (0x1CA8, [0x10E8]);
    (0x1CA9, [0x10E9]); (0x1CAA, [0x10EA]); (0x1CAB, [0x10EB]); (0x1CAC, [0x10EC]);
    (0x1CAD, [0x10ED]); (0x1CAE, [0x10EE]); (0x1CAF, [0x10EF]); (0x1CB0, [0x10F0]);
    (0x1CB1, [0x10F1]); (0x1CB2, [0x10F2]); (0x1CB3, [0x10F3]); (0x1CB4, [0x10F4]);
    (0x1CB5, [0x10F5]); (0x1CB6, [0x10F6]); (0x1CB7, [0x10F7]); (0x1CB8, [0x10F8]);
    (0x1CB9, [0x10F9]); (0x1CBA, [0x10FA]); (0x1CBD, [0x10FD]); (0x1CBE, [0x10FE]);
    (0x1CBF, [0x10FF]); (0x1E00, [0x1E01]); (0x1E02, [0x1E03]); (0x1E04, [0x1E05]);
    (0x1E06, [0x1E07]); (0x1E08, [0x1E09]); (0x1E0A, [0x1E0B]); (0x1E0C, [0x1E0D]);
    (0x1E0E, [0x1E0F]); (0x1E10, [0x1E11]); (0x1E12, [0x1E13]); (0x1E14, [0x1E15]);
    (0x1E16, [0x1E17]); (0x1E18, [0x1E19]); (0x1E1A, [0x1E1B]); (0x1E1C, [0x1E1D]);
    (0x1E1E, [0x1E1F]); (0x1E20, [0x1E21]); (0x1E22, [0x1E23]); (0x1E24, [0x1E25]);
    (0x1E26, [0x1E27]); (0x1E28, [0x1E29]); (0x1E2A, [0x1E2B]); (0x1E2C, [0x1E2D]);
    (0x1E2E, [0x1E2F]); (0x1E30, [0x1E31]); (0x1E32, [0x1E33]); (0x1E34, [0x1E35]);
    (0x1E36, [0x1E37]); (0x1E38, [0x1E39]); (0x1E3A, [0x1E3B]); (0x1E3C, [0x1E3D]);
    (0x1E3E, [0x1E3F]); (0x1E40, [0x1E41]); (0x1E42, [0x1E43]); (0x1E44, [0x1E45]);
    (0x1E46, [0x1E47]); (0x1E48, [0x1E49]); (0x1E4A, [0x1E4B]); (0x1E4C, [0x1E4D]);
    (0x1E4E, [0x1E4F]); (0x1E50, [0x1E51]); (0x1E52, [0x1E53]); (0x1E54, [0x1E55]);
    (0x1E56, [0x1E57]); (0x1E58, [0x1E59]); (0x1E5A, [0x1E5B]); (0x1E5C, [0x1E5D]);
    (0x1E5E, [0x1E5F]); (0x1E60, [0x1E61]); (0x1E62, [0x1E63]); (0x1E64, [0x1E65]);
    (0x1E66, [0x1E67]); (0x1E68, [0x1E69]); (0x1E6A, [0x1E6B]); (0x1E6C, [0x1E6D]);
    (0x1E6E, [0x1E6F]); (0x1E70, [0x1E71]); (0x1E72, [0x1E73]); (0x1E74, [0x1E75]);
    (0x1E76, [0x1E77]); (0x1E78, [0x1E79]); (0x1E7A, [0x1E7B]); (0x1E7C, [0x1E7D]);
    (0x1E7E, [0x1E7F]); (0x1E80, [0x1E81]); (0x1E82, [0x1E83]); (0x1E84, [0x1E85]);
    (0x1E86, [0x1E87]); (0x1E88, [0x1E89]); (0x1E8A, [0x1E8B]); (0x1E8C, [0x1E8D]);
    (0x1E8E, [0x1E8F]); (0x1E90, [0x1E91]); (0x1E92, [0x1E93]); (0x1E94, [0x1E95]);
    (0x1E9E, [0xDF]); (0x1EA0, [0x1EA1]); (0x1EA2, [0x1EA3]); (0x1EA4, [0x1EA5]);
    (0x1EA6, [0x1EA7]); (0x1EA8, [0x1EA9]); (0x1EAA, [0x1EAB]); (0x1EAC, [0x1EAD]);
    (0x1EAE, [0x1EAF]); (0x1EB0, [0x1EB1]); (0x1EB2, [0x1EB3]); (0x1EB4, [0x1EB5]);
    (0x1EB6, [0x1EB7]); (0x1EB8, [0x1EB9]); (0x1EBA, [0x1EBB]); (0x1EBC, [0x1EBD]);
    (0x1EBE, [0x1EBF]); (0x1EC0, [0x1EC1]); (0x1EC2, [0x1EC3]); (0x1EC4, [0x1EC5]);
    (0x1EC6, [0x1EC7]); (0x1EC8, [0x1EC9]); (0x1ECA, [0x1ECB]); (0x1ECC, [0x1ECD]);
    (0x1ECE, [0x1ECF]); (0x1ED0, [0x1ED1]); (0x1ED2, [0x1ED3]); (0x1ED4, [0x1ED5]);
    (0x1ED6, [0x1ED7]); (0x1ED8, [0x1ED9]); (0x1EDA, [0x1EDB]); (0x1EDC, [0x1EDD]);
    (0x1EDE, [0x1EDF]); (0x1EE0, [0x1EE1]); (0x1EE2, [0x1EE3]); (0x1EE4, [0x1EE5]);
    (0x1EE6, [0x1EE7]); (0x1EE8, [0x1EE9]); (0x1EEA, [0x1EEB]); (0x1EEC, [0x1EED]);
    (0x1EEE, [0x1EEF]); (0x1EF0, [0x1EF1]); (0x1EF2, [0x1EF3]); (0x1EF4, [0x1EF5]);
    (0x1EF6, [0x1EF7]); (0x1EF8, [0x1EF9]); (0x1EFA, [0x1EFB]); (0x1EFC, [0x1EFD]);
    (0x1EFE, [0x1EFF]); (0x1F08, [0x1F00]); (0x1F09, [0x1F01]); (0x1F0A, [0x1F02]);
    (0x1F0B, [0x1F03]); (0x1F0C, [0x1F04]); (0x1F0D, [0x1F05]); (0x1F0E, [0x1F06]);
    (0x1F0F, [0x1F07]); (0x1F18, [0x1F10]); (0x1F19, [0x1F11]); (0x1F1A, [0x1F12]);
    (0x1F1B, [0x1F13]); (0x1F1C, [0x1F14]); (0x1F1D, [0x1F15]); (0x1F28, [0x1F20]);
    (0x1F29, [0x1F21]); (0x1F2A, [0x1F22]); (0x1F2B, [0x1F23]); (0x1F2C, [0x1F24]);
    (0x1F2D, [0x1F25]); (0x1F2E, [0x1F26]); (0x1F2F, [0x1F27]); (0x1F38, [0x1F30]);
    (0x1F39, [0x1F31]); (0x1F3A, [0x1F32]); (0x1F3B, [0x1F33]); (0x1F3C, [0x1F34]);
    (0x1F3D, [0x1F35]); (0x1F3E, [0x1F36]); (0x1F3F, [0x1F37]); (0x1F48, [0x1F40]);
    (0x1F49, [0x1F41]); (0x1F4A, [0x1F42]); (0x1F4B, [0x1F43]); (0x1F4C, [0x1F44]);
    (0x1F4D, [0x1F45]); (0x1F59, [0x1F51]); (0x1F5B, [0x1F53]); (0x1F5D, [0x1F55]);
    (0x1F5F, [0x1F57]); (0x1F68, [0x1F60]); (0x1F69, [0x1F61]); (0x1F6A, [0x1F62]);
    (0x1F6B, [0x1F63]); (0x1F6C, [0x1F64]); (0x1F6D, [0x1F65]); (0x1F6E, [0x1F66]);
    (0x1F6F, [0x1F67]); (0x1F88, [0x1F80]); (0x1F89, [0x1F81]); (0x1F8A, [0x1F82]);
    (0x1F8B, [0x1F83]); (0x1F8C, [0x1F84]); (0x1F8D, [0x1F85]); (0x1F8E, [0x1F86]);
    (0x1F8F, [0x1F87]); (0x1F98, [0x1F90]); (0x1F99, [0x1F91]); (0x1F9A, [0x1F92]);
    (0x1F9B, [0x1F93]); (0x1F9C, [0x1F94]); (0x1F9D, [0x1F95]); (0x1F9E, [0x1F96]);
    (0x1F9F, [0x1F97]); (0x1FA8, [0x1FA0]); (0x1FA9, [0x1FA1]); (0x1FAA, [0x1FA2]);
    (0x1FAB, [0x1FA3]); (0x1FAC, [0x1FA4]); (0x1FAD, [0x1FA5]); (0x1FAE, [0x1FA6]);
    (0x1FAF, [0x1FA7]); (0x1FB8, [0x1FB0]); (0x1FB9, [0x1FB1]); (0x1FBA, [0x1F70]);
    (0x1FBB, [0x1F71]); (0x1FBC, [0x1FB3]); (0x1FC8, [0x1F72]); (0x1FC9, [0x1F73]);
    (0x1FCA, [0x1F74]); (0x1FCB, [0x1F75]); (0x1FCC, [0x1FC3]); (0x1FD8, [0x1FD0]);
    (0x1FD9, [0x1FD1]); (0x1FDA, [0x1F76]); (0x1FDB, [0x1F77]); (0x1FE8, [0x1FE0]);
    (0x1FE9, [0x1FE1]); (0x1FEA, [0x1F7A]); (0x1FEB, [0x1F7B]); (0x1FEC, [0x1FE5]);
    (0x1FF8, [0x1F78]); (0x1FF9, [0x1F79]); (0x1FFA, [0x1F7C]); (0x1FFB, [0x1F7D]);
    (0x1FFC, [0x1FF3]); (0x2126, [0x3C9]); (0x212A, [0x6B]); (0x212B, [0xE5]);
    (0x2132, [0x214E]); (0x2160, [0x2170]); (0x2161, [0x2171]); (0x2162, [0x2172]);
    (0x2163, [0x2173]); (0x2164, [0x2174]); (0x2165, [0x2175]); (0x2166, [0x2176]);
    (0x2167, [0x2177]); (0x2168, [0x2178]); (0x2169, [0x2179]); (0x216A, [0x217A]);
    (0x216B, [0x217B]); (0x216C, [0x217C]); (0x216D, [0x217D]); (0x216E, [0x217E]);
    (0x216F, [0x217F]); (0x2183, [0x2184]); (0x24B6, [0x24D0]); (0x24B7, [0x24D1]);
    (0x24B8, [0x24D2]); (0x24B9, [0x24D3]); (0x24BA, [0x24D4]); (0x24BB, [0x24D5]);
    (0x24BC, [0x24D6]); (0x24BD, [0x24D7]); (0x24BE, [0x24D8]); (0x24BF, [0x24D9]);
    (0x24C0, [0x24DA]); (0x24C1, [0x24DB]); (0x24C2, [0x24DC]); (0x24C3, [0x24DD]);
    (0x24C4, [0x24DE]); (0x24C5, [0x24DF]); (0x24C6, [0x24E0]); (0x24C7, [0x24E1]);
    (0x24C8, [0x24E2]); (0x24C9, [0x24E3]); (0x24CA, [0x24E4]); (0x24CB, [0x24E5]);
    (0x24CC, [0x24E6]); (0x24CD, [0x24E7]); (0x24CE, [0x24E8]); (0x24CF, [0x24E9]);
    (0x2C00, [0x2C30]); (0x2C01, [0x2C31]); (0x2C02, [0x2C32]); (0x2C03, [0x2C33]);
    (0x2C04, [0x2C34]); (0x2C05, [0x2C35]); (0x2C06, [0x2C36]); (0x2C07, [0x2C37]);
    (0x2C08, [0x2C38]); (0x2C09, [0x2C39]); (0x2C0A, [0x2C3A]); (0x2C0B, [0x2C3B]);
    (0x2C0C, [0x2C3C]); (0x2C0D, [0x2C3D]); (0x2C0E, [0x2C3E]); (0x2C0F, [0x2C3F]);
    (0x2C10, [0x2C40]); (0x2C11, [0x2C41]); (0x2C12, [0x2C42]); (0x2C13, [0x2C43]);
    (0x2C14, [0x2C44]); (0x2C15, [0x2C45]); (0x2C16, [0x2C46]); (0x2C17, [0x2C47]);
    (0x2C18, [0x2C48]); (0x2C19, [0x2C49]); (0x2C1A, [0x2C4A]); (0x2C1B, [0x2C4B]);
    (0x2C1C, [0x2C4C]); (0x2C1D, [0x2C4D]); (0x2C1E, [0x2C4E]); (0x2C1F, [0x2C4F]);
    (0x2C20, [0x2C50]); (0x2C21, [0x2C51]); (0x2C22, [0x2C52]); (0x2C23, [0x2C53]);
    (0x2C24, [0x2C54]); (0x2C25, [0x2C55]); (0x2C26, [0x2C56]); (0x2C27, [0x2C57]);
    (0x2C28, [0x2C58]); (0x2C29, [0x2C59]); (0x2C2A, [0x2C5A]); (0x2C2B, [0x2C5B]);
    (0x2C2C, [0x2C5C]); (0x2C2D, [0x2C5D]); (0x2C2E, [0x2C5E]); (0x2C2F, [0x2C5F]);
    (0x2C60, [0x2C61]); (0x2C62, [0x26B]); (0x2C63, [0x1D7D]); (0x2C64, [0x27D]);
    (0x2C67, [0x2C68]); (0x2C69, [0x2C6A]); (0x2C6B, [0x2C6C]); (0x2C6D, [0x251]);
    (0x2C6E, [0x271]); (0x2C6F, [0x250]); (0x2C70, [0x252]); (0x2C72, [0x2C73]);
    (0x2C75, [0x2C76]); (0x2C7E, [0x23F]); (0x2C7F, [0x240]); (0x2C80, [0x2C81]);
    (0x2C82, [0x2C83]); (0x2C84, [0x2C85]); (0x2C86, [0x2C87]); (0x2C88, [0x2C89]);
    (0x2C8A, [0x2C8B]); (0x2C8C, [0x2C8D]); (0x2C8E, [0x2C8F]); (0x2C90, [0x2C91]);
    (0x2C92, [0x2C93]); (0x2C94, [0x2C95]); (0x2C96, [0x2C97]); (0x2C98, [0x2C99]);
    (0x2C9A, [0x2C9B]); (0x2C9C, [0x2C9D]); (0x2C9E, [0x2C9F]); (0x2CA0, [0x2CA1]);
    (0x2CA2, [0x2CA3]); (0x2CA4, [0x2CA5]); (0x2CA6, [0x2CA7]); (0x2CA8, [0x2CA9]);
    (0x2CAA, [0x2CAB]); (0x2CAC, [0x2CAD]); (0x2CAE, [0x2CAF]); (0x2CB0, [0x2CB1]);
    (0x2CB2, [0x2CB3]); (0x2CB4, [0x2CB5]); (0x2CB6, [0x2CB7]); (0x2CB8, [0x2CB9]);
    (0x2CBA, [0x2CBB]); (0x2CBC, [0x2CBD]); (0x2CBE, [0x2CBF]); (0x2CC0, [0x2CC1]);
    (0x2CC2, [0x2CC3]); (0x2CC4, [0x2CC5]); (0x2CC6, [0x2CC7]); (0x2CC8, [0x2CC9]);
    (0x2CCA, [0x2CCB]); (0x2CCC, [0x2CCD]); (0x2CCE, [0x2CCF]); (0x2CD0, [0x2CD1]);
    (0x2CD2, [0x2CD3]); (0x2CD4, [0x2CD5]); (0x2CD6, [0x2CD7]); (0x2CD8, [0x2CD9]);
    (0x2CDA, [0x2CDB]); (0x2CDC, [0x2CDD]); (0x2CDE, [0x2CDF]); (0x2CE0, [0x2CE1]);
    (0x2CE2, [0x2CE3]); (0x2CEB, [0x2CEC]); (0x2CED, [0x2CEE]); (0x2CF2, [0x2CF3]);
    (0xA640, [0xA641]); (0xA642, [0xA643]); (0xA644, [0xA645]); (0xA646, [0xA647]);
    (0xA648, [0xA649]); (0xA64A, [0xA64B]); (0xA64C, [0xA64D]); (0xA64E, [0xA64F]);
    (0xA650, [0xA651]); (0xA652, [0xA653]); (0xA654, [0xA655]); (0xA656, [0xA657]);
    (0xA658, [0xA659]); (0xA65A, [0xA65B]); (0xA65C, [0xA65D]); (0xA65E, [0xA65F]);
    (0xA660, [0xA661]); (0xA662, [0xA663]); (0xA664, [0xA665]); (0xA666, [0xA667]);
    (0xA668, [0xA669]); (0xA66A, [0xA66B]); (0xA66C, [0xA66D]); (0xA680, [0xA681]);
    (0xA682, [0xA683]); (0xA684, [0xA685]); (0xA686, [0xA687]); (0xA688, [0xA689]);
    (0xA68A, [0xA68B]); (0xA68C, [0xA68D]); (0xA68E, [0xA68F]); (0xA690, [0xA691]);
    (0xA692, [0xA693]); (0xA694, [0xA695]); (0xA696, [0xA697]); (0xA698, [0xA699]);
    (0xA69A, [0xA69B]); (0xA722, [0xA723]); (0xA724, [0xA725]); (0xA726, [0xA727]);
    (0xA728, [0xA729]); (0xA72A, [0xA72B]); (0xA72C, [0xA72D]); (0xA72E, [0xA72F]);
    (0xA732, [0xA733]); (0xA734, [0xA735]); (0xA736, [0xA737]); (0xA738, [0xA739]);
    (0xA73A, [0xA73B]); (0xA73C, [0xA73D]); (0xA73E, [0xA73F]); (0xA740, [0xA741]);
    (0xA742, [0xA743]); (0xA744, [0xA745]); (0xA746, [0xA747]); (0xA748, [0xA749]);
    (0xA74A, [0xA74B]); (0xA74C, [0xA74D]); (0xA74E, [0xA74F]); (0xA750, [0xA751]);
    (0xA752, [0xA753]); (0xA754, [0xA755]); (0xA756, [0xA757]); (0xA758, [0xA759]);
    (0xA75A, [0xA75B]); (0xA75C, [0xA75D]); (0xA75E, [0xA75F]); (0xA760, [0xA761]);
    (0xA762, [0xA763]); (0xA764, [0xA765]); (0xA766, [0xA767]); (0xA768, [0xA769]);
    (0xA76A, [0xA76B]); (0xA76C, [0xA76D]); (0xA76E, [0xA76F]); (0xA779, [0xA77A]);
    (0xA77B, [0xA77C]); (0xA77D, [0x1D79]); (0xA77E, [0xA77F]); (0xA780, [0xA781]);
    (0xA782, [0xA783]); (0xA784, [0xA785]); (0xA786, [0xA787]); (0xA78B, [0xA78C]);
    (0xA78D, [0x265]); (0xA790, [0xA791]); (0xA792, [0xA793]); (0xA796, [0xA797]);
    (0xA798, [0xA799]); (0xA79A, [0xA79B]); (0xA79C, [0xA79D]); (0xA79E, [0xA79F]);
    (0xA7A0, [0xA7A1]); (0xA7A2, [0xA7A3]); (0xA7A4, [0xA7A5]); (0xA7A6, [0xA7A7]);
    (0xA7A8, [0xA7A9]); (0xA7AA, [0x266]); (0xA7AB, [0x25C]); (0xA7AC, [0x261]);
    (0xA7AD, [0x26C]); (0xA7AE, [0x26A]); (0xA7B0, [0x29E]); (0xA7B1, [0x287]);
    (0xA7B2, [0x29D]); (0xA7B3, [0xAB53]); (0xA7B4, [0xA7B5]); (0xA7B6, [0xA7B7]);
    (0xA7B8, [0xA7B9]); (0xA7BA, [0xA7BB]); (0xA7BC, [0xA7BD]); (0xA7BE, [0xA7BF]);
    (0xA7C0, [0xA7C1]); (0xA7C2, [0xA7C3]); (0xA7C4, [0xA794]); (0xA7C5, [0x282]);
    (0xA7C6, [0x1D8E]); (0xA7C7, [0xA7C8]); (0xA7C9, [0xA7CA]); (0xA7D0, [0xA7D1]);
    (0xA7D6, [0xA7D7]); (0xA7D8, [0xA7D9]); (0xA7F5, [0xA7F6]); (0xFF21, [0xFF41]);
    (0xFF22, [0xFF42]); (0xFF23, [0xFF43]); (0xFF24, [0xFF44]); (0xFF25, [0xFF45]);
    (0xFF26, [0xFF46]); (0xFF27, [0xFF47]); (0xFF28, [0xFF48]); (0xFF29, [0xFF49]);
    (0xFF2A, [0xFF4A]); (0xFF2B, [0xFF4B]); (0xFF2C, [0xFF4C]); (0xFF2D, [0xFF4D]);
    (0xFF2E, [0xFF4E]); (0xFF2F, [0xFF4F]); (0xFF30, [0xFF50]); (0xFF31, [0xFF51]);
    (0xFF32, [0xFF52]); (0xFF33, [0xFF53]); (0xFF34, [0xFF54]); (0xFF35, [0xFF55]);
    (0xFF36, [0xFF56]); (0xFF37, [0xFF57]); (0xFF38, [0xFF58]); (0xFF39, [0xFF59]);
    (0xFF3A, [0xFF5A]); (0x10400, [0x10428]); (0x10401, [0x10429]); (0x10402, [0x1042A]);
    (0x10403, [0x1042B]); (0x10404, [0x1042C]); (0x10405, [0x1042D]); (0x10406, [0x1042E]);
    (0x10407, [0x1042F]); (0x10408, [0x10430]); (0x10409, [0x10431]); (0x1040A, [0x10432]);
    (0x1040B, [0x10433]); (0x1040C, [0x10434]); (0x1040D, [0x10435]); (0x1040E, [0x10436]);
    (0x1040F, [0x10437]); (0x10410, [0x10438]); (0x10411, [0x10439]); (0x10412, [0x1043A]);
    (0x10413, [0x1043B]); (0x10414, [0x1043C]); (0x10415, [0x1043D]); (0x10416, [0x1043E]);
    (0x10417, [0x1043F]); (0x10418, [0x10440]); (0x10419, [0x10441]); (0x1041A, [0x10442]);
    (0x1041B, [0x10443]); (0x1041C, [0x10444]); (0x1041D, [0x10445]); (0x1041E, [0x10446]);
    (0x1041F, [0x10447]); (0x10420, [0x10448]); (0x10421, [0x10449]); (0x10422, [0x1044A]);
    (0x10423, [0x1044B]); (0x10424, [0x1044C]); (0x10425, [0x1044D]); (0x10426, [0x1044E]);
    (0x10427, [0x1044F]); (0x104B0, [0x104D8]); (0x104B1, [0x104D9]); (0x104B2, [0x104DA]);
    (0x104B3, [0x104DB]); (0x104B4, [0x104DC]); (0x104B5, [0x104DD]); (0x104B6, [0x104DE]);
    (0x104B7, [0x104DF]); (0x104B8, [0x104E0]); (0x104B9, [0x104E1]); (0x104BA, [0x104E2]);
    (0x104BB, [0x104E3]); (0x104BC, [0x104E4]); (0x104BD, [0x104E5]); (0x104BE, [0x104E6]);
    (0x104BF, [0x104E7]); (0x104C0, [0x104E8]); (0x104C1, [0x104E9]); (0x104C2, [0x104EA]);
    (0x104C3, [0x104EB]); (0x104C4, [0x104EC]); (0x104C5, [0x104ED]); (0x104C6, [0x104EE]);
    (0x104C7, [0x104EF]); (0x104C8, [0x104F0]); (0x104C9, [0x104F1]); (0x104CA, [0x104F2]);
    (0x104CB, [0x104F3]); (0x104CC, [0x104F4]); (0x104CD, [0x104F5]); (0x104CE, [0x104F6]);
    (0x104CF, [0x104F7]); (0x104D0, [0x104F8]); (0x104D1, [0x104F9]); (0x104D2, [0x104FA]);
    (0x104D3, [0x104FB]); (0x10570, [0x10597]); (0x10571, [0x10598]); (0x10572, [0x10599]);
    (0x10573, [0x1059A]); (0x10574, [0x1059B]); (0x10575, [0x1059C]); (0x10576, [0x1059D]);
    (0x10577, [0x1059E]); (0x10578, [0x1059F]); (0x10579, [0x105A0]); (0x1057A, [0x105A1]);
    (0x1057C, [0x105A3]); (0x1057D, [0x105A4]); (0x1057E, [0x105A5]); (0x1057F, [0x105A6]);
    (0x10580, [0x105A7]); (0x10581, [0x105A8]); (0x10582, [0x105A9]); (0x10583, [0x105AA]);
    (0x10584, [0x105AB]); (0x10585, [0x105AC]); (0x10586, [0x105AD]); (0x10587, [0x105AE]);
    (0x10588, [0x105AF]); (0x10589, [0x105B0]); (0x1058A, [0x105B1]); (0x1058C, [0x105B3]);
    (0x1058D, [0x105B4]); (0x1058E, [0x105B5]); (0x1058F, [0x105B6]); (0x10590, [0x105B7]);
    (0x10591, [0x105B8]); (0x10592, [0x105B9]); (0x10594, [0x105BB]); (0x10595, [0x105BC]);
    (0x10C80, [0x10CC0]); (0x10C81, [0x10CC1]); (0x10C82, [0x10CC2]); (0x10C83, [0x10CC3]);
    (0x10C84, [0x10CC4]); (0x10C85, [0x10CC5]); (0x10C86, [0x10CC6]); (0x10C87, [0x10CC7]);
    (0x10C88, [0x10CC8]); (0x10C89, [0x10CC9]); (0x10C8A, [0x10CCA]); (0x10C8B, [0x10CCB]);
    (0x10C8C, [0x10CCC]); (0x10C8D, [0x10CCD]); (0x10C8E, [0x10CCE]); (0x10C8F, [0x10CCF]);
    (0x10C90, [0x10CD0]); (0x10C91, [0x10CD1]); (0x10C92, [0x10CD2]); (0x10C93, [0x10CD3]);
    (0x10C94, [0x10CD4]); (0x10C95, [0x10CD5]); (0x10C96, [0x10CD6]); (0x10C97, [0x10CD7]);
    (0x10C98, [0x10CD8]); (0x10C99, [0x10CD9]); (0x10C9A, [0x10CDA]); (0x10C9B, [0x10CDB]);
    (0x10C9C, [0x10CDC]); (0x10C9D, [0x10CDD]); (0x10C9E, [0x10CDE]); (0x10C9F, [0x10CDF]);
    (0x10CA0, [0x10CE0]); (0x10CA1, [0x10CE1]); (0x10CA2, [0x10CE2]); (0x10CA3, [0x10CE3]);
    (0x10CA4, [0x10CE4]); (0x10CA5, [0x10CE5]); (0x10CA6, [0x10CE6]); (0x10CA7, [0x10CE7]);
    (0x10CA8, [0x10CE8]); (0x10CA9, [0x10CE9]); (0x10CAA, [0x10CEA]); (0x10CAB, [0x10CEB]);
    (0x10CAC, [0x10CEC]); (0x10CAD, [0x10CED]); (0x10CAE, [0x10CEE]); (0x10CAF, [0x10CEF]);
    (0x10CB0, [0x10CF0]); (0x10CB1, [0x10CF1]); (0x10CB2, [0x10CF2]); (0x118A0, [0x118C0]);
    (0x118A1, [0x118C1]); (0x118A2, [0x118C2]); (0x118A3, [0x118C3]); (0x118A4, [0x118C4]);
    (0x118A5, [0x118C5]); (0x118A6, [0x118C6]); (0x118A7, [0x118C7]); (0x118A8, [0x118C8]);
    (0x118A9, [0x118C9]); (0x118AA, [0x118CA]); (0x118AB, [0x118CB]); (0x118AC, [0x118CC]);
    (0x118AD, [0x118CD]); (0x118AE, [0x118CE]); (0x118AF, [0x118CF]); (0x118B0, [0x118D0]);
    (0x118B1, [0x118D1]); (0x118B2, [0x118D2]); (0x118B3, [0x118D3]); (0x118B4, [0x118D4]);
    (0x118B5, [0x118D5]); (0x118B6, [0x118D6]); (0x118B7, [0x118D7]); (0x118B8, [0x118D8]);
    (0x118B9, [0x118D9]); (0x118BA, [0x118DA]); (0x118BB, [0x118DB]); (0x118BC, [0x118DC]);
    (0x118BD, [0x118DD]); (0x118BE, [0x118DE]); (0x118BF, [0x118DF]); (0x16E40, [0x16E60]);
    (0x16E41, [0x16E61]); (0x16E42, [0x16E62]); (0x16E43, [0x16E63]); (0x16E44, [0x16E64]);
    (0x16E45, [0x16E65]); (0x16E46, [0x16E66]); (0x16E47, [0x16E67]); (0x16E48, [0x16E68]);
    (0x16E49, [0x16E69]); (0x16E4A, [0x16E6A]); (0x16E4B, [0x16E6B]); (0x16E4C, [0x16E6C]);
    (0x16E4D, [0x16E6D]); (0x16E4E, [0x16E6E]); (0x16E4F, [0x16E6F]); (0x16E50, [0x16E70]);
    (0x16E51, [0x16E71]); (0x16E52, [0x16E72]); (0x16E53, [0x16E73]); (0x16E54, [0x16E74]);
    (0x16E55, [0x16E75]); (0x16E56, [0x16E76]); (0x16E57, [0x16E77]); (0x16E58, [0x16E78]);
    (0x16E59, [0x16E79]); (0x16E5A, [0x16E7A]); (0x16E5B, [0x16E7B]); (0x16E5C, [0x16E7C]);
    (0x16E5D, [0x16E7D]); (0x16E5E, [0x16E7E]); (0x16E5F, [0x16E7F]); (0x1E900, [0x1E922]);
    (0x1E901, [0x1E923]); (0x1E902, [0x1E924]); (0x1E903, [0x1E925]); (0x1E904, [0x1E926]);
    (0x1E905, [0x1E927]); (0x1E906, [0x1E928]); (0x1E907, [0x1E929]); (0x1E908, [0x1E92A]);
    (0x1E909, [0x1E92B]); (0x1E90A, [0x1E92C]); (0x1E90B, [0x1E92D]); (0x1E90C, [0x1E92E]);
    (0x1E90D, [0x1E92F]); (0x1E90E, [0x1E930]); (0x1E90F, [0x1E931]); (0x1E910, [0x1E932]);
    (0x1E911, [0x1E933]); (0x1E912, [0x1E934]); (0x1E913, [0x1E935]); (0x1E914, [0x1E936]);
    (0x1E915, [0x1E937]); (0x1E916, [0x1E938]); (0x1E917, [0x1E939]); (0x1E918, [0x1E93A]);
    (0x1E919, [0x1E93B]); (0x1E91A, [0x1E93C]); (0x1E91B, [0x1E93D]); (0x1E91C, [0x1E93E]);
    (0x1E91D, [0x1E93F]); (0x1E91E, [0x1E940]); (0x1E91F, [0x1E941]); (0x1E920, [0x1E942]);
    (0x1E921, [0x1E943])
  ]%N.

(** The code points with an upper-case mapping other than themselves. *)
Definition upper_table : list (N * list N) :=
  [
    (0x61, [0x41]); (0x62, [0x42]); (0x63, [0x43]); (0x64, [0x44]);
    (0x65, [0x45]); (0x66, [0x46]); (0x67, [0x47]); (0x68, [0x48]);
    (0x69, [0x49]); (0x6A, [0x4A]); (0x6B, [0x4B]); (0x6C, [0x4C]);
    (0x6D, [0x4D]); (0x6E, [0x4E]); (0x6F, [0x4F]); (0x70, [0x50]);
    (0x71, [0x51]); (0x72, [0x52]); (0x73, [0x53]); (0x74, [0x54]);
    (0x75, [0x55]); (0x76, [0x56]); (0x77, [0x57]); (0x78, [0x58]);
    (0x79, [0x59]); (0x7A, [0x5A]); (0xB5, [0x39C]); (0xDF, [0x53; 0x53]);
    (0xE0, [0xC0]); (0xE1, [0xC1]); (0xE2, [0xC2]); (0xE3, [0xC3]);
    (0xE4, [0xC4]); (0xE5, [0xC5]); (0xE6, [0xC6]); (0xE7, [0xC7]);
    (0xE8, [0xC8]); (0xE9, [0xC9]); (0xEA, [0xCA]); (0xEB, [0xCB]);
    (0xEC, [0xCC]); (0xED, [0xCD]); (0xEE, [0xCE]); (0xEF, [0xCF]);
    (0xF0, [0xD0]); (0xF1, [0xD1]); (0xF2, [0xD2]); (0xF3, [0xD3]);
    (0xF4, [0xD4]); (0xF5, [0xD5]); (0xF6, [0xD6]); (0xF8, [0xD8]);
    (0xF9, [0xD9]); (0xFA, [0xDA]); (0xFB, [0xDB]); (0xFC, [0xDC]);
    (0xFD, [0xDD]); (0xFE, [0xDE]); (0xFF, [0x178]); (0x101, [0x100]);
    (0x103, [0x102]); (0x105, [0x104]); (0x107, [0x106]); (0x109, [0x108]);
    (0x10B, [0x10A]); (0x10D, [0x10C]); (0x10F, [0x10E]); (0x111, [0x110]);
    (0x113, [0x112]); (0x115, [0x114]); (0x117, [0x116]); (0x119, [0x118]);
    (0x11B, [0x11A]); (0x11D, [0x11C]); (0x11F, [0x11E]); (0x121, [0x120]);
    (0x123, [0x122]); (0x125, [0x124]); (0x127, [0x126]); (0x129, [0x128]);
    (0x12B, [0x12A]); (0x12D, [0x12C]); (0x12F, [0x12E]); (0x131, [0x49]);
    (0x133, [0x132]); (0x135, [0x134]); (0x137, [0x136]); (0x13A, [0x139]);
    (0x13C, [0x13B]); (0x13E, [0x13D]); (0x140, [0x13F]); (0x142, [0x141]);
    (0x144, [0x143]); (0x146, [0x145]); (0x148, [0x147]); (0x149, [0x2BC; 0x4E]);
    (0x14B, [0x14A]); (0x14D, [0x14C]); (0x14F, [0x14E]); (0x151, [0x150]);
    (0x153, [0x152]); (0x155, [0x154]); (0x157, [0x156]); (0x159, [0x158]);
    (0x15B, [0x15A]); (0x15D, [0x15C]); (0x15F, [0x15E]); (0x161, [0x160]);
    (0x163, [0x162]); (0x165, [0x164]); (0x167, [0x166]); (0x169, [0x168]);
    (0x16B, [0x16A]); (0x16D, [0x16C]); (0x16F, [0x16E]); (0x171, [0x170]);
    (0x173, [0x172]); (0x175, [0x174]); (0x177, [0x176]); (0x17A, [0x179]);
    (0x17C, [0x17B]); (0x17E, [0x17D]); (0x17F, [0x53]); (0x180, [0x243]);
    (0x183, [0x182]); (0x185, [0x184]); (0x188, [0x187]); (0x18C, [0x18B]);
    (0x192, [0x191]); (0x195, [0x1F6]); (0x199, [0x198]); (0x19A, [0x23D]);
    (0x19E, [0x220]); (0x1A1, [0x1A0]); (0x1A3, [0x1A2]); (0x1A5, [0x1A4]);
    (0x1A8, [0x1A7]); (0x1AD, [0x1AC]); (0x1B0, [0x1AF]); (0x1B4, [0x1B3]);
    (0x1B6, [0x1B5]); (0x1B9, [0x1B8]); (0x1BD, [0x1BC]); (0x1BF, [0x1F7]);
    (0x1C5, [0x1C4]); (0x1C6, [0x1C4]); (0x1C8, [0x1C7]); (0x1C9, [0x1C7]);
    (0x1CB, [0x1CA]); (0x1CC, [0x1CA]); (0x1CE, [0x1CD]); (0x1D0, [0x1CF]);
    (0x1D2, [0x1D1]); (0x1D4, [0x1D3]); (0x1D6, [0x1D5]); (0x1D8, [0x1D7]);
    (0x1DA, [0x1D9]); (0x1DC, [0x1DB]); (0x1DD, [0x18E]); (0x1DF, [0x1DE]);
    (0x1E1, [0x1E0]); (0x1E3, [0x1E2]); (0x1E5, [0x1E4]); (0x1E7, [0x1E6]);
    (0x1E9, [0x1E8]); (0x1EB, [0x1EA]); (0x1ED, [0x1EC]); (0x1EF, [0x1EE]);
    (0x1F0, [0x4A; 0x30C]); (0x1F2, [0x1F1]); (0x1F3, [0x1F1]); (0x1F5, [0x1F4]);
    (0x1F9, [0x1F8]); (0x1FB, [0x1FA]); (0x1FD, [0x1FC]); (0x1FF, [0x1FE]);
    (0x201, [0x200]); (0x203, [0x202]); (0x205, [0x204]); (0x207, [0x206]);
    (0x209, [0x208]); (0x20B, [0x20A]); (0x20D, [0x20C]); (0x20F, [0x20E]);
    (0x211, [0x210]); (0x213, [0x212]); (0x215, [0x214]); (0x217, [0x216]);
    (0x219, [0x218]); (0x21B, [0x21A]); (0x21D, [0x21C]); (0x21F, [0x21E]);
    (0x223, [0x222]); (0x225, [0x224]); (0x227, [0x226]); (0x229, [0x228]);
    (0x22B, [0x22A]); (0x22D, [0x22C]); (0x22F, [0x22E]); (0x231, [0x230]);
    (0x233, [0x232]); (0x23C, [0x23B]); (0x23F, [0x2C7E]); (0x240, [0x2C7F]);
    (0x242, [0x241]); (0x247, [0x246]); (0x249, [0x248]); (0x24B, [0x24A]);
    (0x24D, [0x24C]); (0x24F, [0x24E]); (0x250, [0x2C6F]); (0x251, [0x2C6D]);
    (0x252, [0x2C70]); (0x253, [0x181]); (0x254, [0x186]); (0x256, [0x189]);
    (0x257, [0x18A]); (0x259, [0x18F]); (0x25B, [0x190]); (0x25C, [0xA7AB]);
    (0x260, [0x193]); (0x261, [0xA7AC]); (0x263, [0x194]); (0x265, [0xA78D]);
    (0x266, [0xA7AA]); (0x268, [0x197]); (0x269, [0x196]); (0x26A, [0xA7AE]);
    (0x26B, [0x2C62]); (0x26C, [0xA7AD]); (0x26F, [0x19C]); (0x271, [0x2C6E]);
    (0x272, [0x19D]); (0x275, [0x19F]); (0x27D, [0x2C64]); (0x280, [0x1A6]);
    (0x282, [0xA7C5]); (0x283, [0x1A9]); (0x287, [0xA7B1]); (0x288, [0x1AE]);
    (0x289, [0x244]); (0x28A, [0x1B1]); (0x28B, [0x1B2]); (0x28C, [0x245]);
    (0x292, [0x1B7]); (0x29D, [0xA7B2]); (0x29E, [0xA7B0]); (0x345, [0x399]);
    (0x371, [0x370]); (0x373, [0x372]); (0x377, [0x376]); (0x37B, [0x3FD]);
    (0x37C, [0x3FE]); (0x37D, [0x3FF]); (0x390, [0x399; 0x308; 0x301]); (0x3AC, [0x386]);
    (0x3AD, [0x388]); (0x3AE, [0x389]); (0x3AF, [0x38A]); (0x3B0, [0x3A5; 0x308; 0x301]);
    (0x3B1, [0x391]); (0x3B2, [0x392]); (0x3B3, [0x393]); (0x3B4, [0x394]);
    (0x3B5, [0x395]); (0x3B6, [0x396]); (0x3B7, [0x397]); (0x3B8, [0x398]);
    (0x3B9, [0x399]); (0x3BA, [0x39A]); (0x3BB, [0x39B]); (0x3BC, [0x39C]);
    (0x3BD, [0x39D]); (0x3BE, [0x39E]); (0x3BF, [0x39F]); (0x3C0, [0x3A0]);
    (0x3C1, [0x3A1]); (0x3C2, [0x3A3]); (0x3C3, [0x3A3]); (0x3C4, [0x3A4]);
    (0x3C5, [0x3A5]); (0x3C6, [0x3A6]); (0x3C7, [0x3A7]); (0x3C8, [0x3A8]);
    (0x3C9, [0x3A9]); (0x3CA, [0x3AA]); (0x3CB, [0x3AB]); (0x3CC, [0x38C]);
    (0x3CD, [0x38E]); (0x3CE, [0x38F]); (0x3D0, [0x392]); (0x3D1, [0x398]);
    (0x3D5, [0x3A6]); (0x3D6, [0x3A0]); (0x3D7, [0x3CF]); (0x3D9, [0x3D8]);
    (0x3DB, [0x3DA]); (0x3DD, [0x3DC]); (0x3DF, [0x3DE]); (0x3E1, [0x3E0]);
    (0x3E3, [0x3E2]); (0x3E5, [0x3E4]); (0x3E7, [0x3E6]); (0x3E9, [0x3E8]);
    (0x3EB, [0x3EA]); (0x3ED, [0x3EC]); (0x3EF, [0x3EE]); (0x3F0, [0x39A]);
    (0x3F1, [0x3A1]); (0x3F2, [0x3F9]); (0x3F3, [0x37F]); (0x3F5, [0x395]);
    (0x3F8, [0x3F7]); (0x3FB, [0x3FA]); (0x430, [0x410]); (0x431, [0x411]);
    (0x432, [0x412]); (0x433, [0x413]); (0x434, [0x414]); (0x435, [0x415]);
    (0x436, [0x416]); (0x437, [0x417]); (0x438, [0x418]); (0x439, [0x419]);
    (0x43A, [0x41A]); (0x43B, [0x41B]); (0x43C, [0x41C]); (0x43D, [0x41D]);
    (0x43E, [0x41E]); (0x43F, [0x41F]); (0x440, [0x420]); (0x441, [0x421]);
    (0x442, [0x422]); (0x443, [0x423]); (0x444, [0x424]); (0x445, [0x425]);
    (0x446, [0x426]); (0x447, [0x427]); (0x448, [0x428]); (0x449, [0x429]);
    (0x44A, [0x42A]); (0x44B, [0x42B]); (0x44C, [0x42C]); (0x44D, [0x42D]);
    (0x44E, [0x42E]); (0x44F, [0x42F]); (0x450, [0x400]); (0x451, [0x401]);
    (0x452, [0x402]); (0x453, [0x403]); (0x454, [0x404]); (0x455, [0x405]);
    (0x456, [0x406]); (0x457, [0x407]); (0x458, [0x408]); (0x459, [0x409]);
    (0x45A, [0x40A]); (0x45B, [0x40B]); (0x45C, [0x40C]); (0x45D, [0x40D]);
    (0x45E, [0x40E]); (0x45F, [0x40F]); (0x461, [0x460]); (0x463, [0x462]);
    (0x465, [0x464]); (0x467, [0x466]); (0x469, [0x468]); (0x46B, [0x46A]);
    (0x46D, [0x46C]); (0x46F, [0x46E]); (0x471, [0x470]); (0x473, [0x472]);
    (0x475, [0x474]); (0x477, [0x476]); (0x479, [0x478]); (0x47B, [0x47A]);
    (0x47D, [0x47C]); (0x47F, [0x47E]); (0x481, [0x480]); (0x48B, [0x48A]);
    (0x48D, [0x48C]); (0x48F, [0x48E]); (0x491, [0x490]); (0x493, [0x492]);
    (0x495, [0x494]); (0x497, [0x496]); (0x499, [0x498]); (0x49B, [0x49A]);
    (0x49D, [0x49C]); (0x49F, [0x49E]); (0x4A1, [0x4A0]); (0x4A3, [0x4A2]);
    (0x4A5, [0x4A4]); (0x4A7, [0x4A6]); (0x4A9, [0x4A8]); (0x4AB, [0x4AA]);
    (0x4AD, [0x4AC]); (0x4AF, [0x4AE]); (0x4B1, [0x4B0]); (0x4B3, [0x4B2]);
    (0x4B5, [0x4B4]); (0x4B7, [0x4B6]); (0x4B9, [0x4B8]); (0x4BB, [0x4BA]);
    (0x4BD, [0x4BC]); (0x4BF, [0x4BE]); (0x4C2, [0x4C1]); (0x4C4, [0x4C3]);
    (0x4C6, [0x4C5]); (0x4C8, [0x4C7]); (0x4CA, [0x4C9]); (0x4CC, [0x4CB]);
    (0x4CE, [0x4CD]); (0x4CF, [0x4C0]); (0x4D1, [0x4D0]); (0x4D3, [0x4D2]);
    (0x4D5, [0x4D4]); (0x4D7, [0x4D6]); (0x4D9, [0x4D8]); (0x4DB, [0x4DA]);
    (0x4DD, [0x4DC]); (0x4DF, [0x4DE]); (0x4E1, [0x4E0]); (0x4E3, [0x4E2]);
    (0x4E5, [0x4E4]); (0x4E7, [0x4E6]); (0x4E9, [0x4E8]); (0x4EB, [0x4EA]);
    (0x4ED, [0x4EC]); (0x4EF, [0x4EE]); (0x4F1, [0x4F0]); (0x4F3, [0x4F2]);
    (0x4F5, [0x4F4]); (0x4F7, [0x4F6]); (0x4F9, [0x4F8]); (0x4FB, [0x4FA]);
    (0x4FD, [0x4FC]); (0x4FF, [0x4FE]); (0x501, [0x500]); (0x503, [0x502]);
    (0x505, [0x504]); (0x507, [0x506]); (0x509, [0x508]); (0x50B, [0x50A]);
    (0x50D, [0x50C]); (0x50F, [0x50E]); (0x511, [0x510]); (0x513, [0x512]);
    (0x515, [0x514]); (0x517, [0x516]); (0x519, [0x518]); (0x51B, [0x51A]);
    (0x51D, [0x51C]); (0x51F, [0x51E]); (0x521, [0x520]); (0x523, [0x522]);
    (0x525, [0x524]); (0x527, [0x526]); (0x529, [0x528]); (0x52B, [0x52A]);
    (0x52D, [0x52C]); (0x52F, [0x52E]); (0x561, [0x531]); (0x562, [0x532]);
    (0x563, [0x533]); (0x564, [0x534]); (0x565, [0x535]); (0x566, [0x536]);
    (0x567, [0x537]); (0x568, [0x538]); (0x569, [0x539]); (0x56A, [0x53A]);
    (0x56B, [0x53B]); (0x56C, [0x53C]); (0x56D, [0x53D]); (0x56E, [0x53E]);
    (0x56F, [0x53F]); (0x570, [0x540]); (0x571, [0x541]); (0x572, [0x542]);
    (0x573, [0x543]); (0x574, [0x544]); (0x575, [0x545]); (0x576, [0x546]);
    (0x577, [0x547]); (0x578, [0x548]); (0x579, [0x549]); (0x57A, [0x54A]);
    (0x57B, [0x54B]); (0x57C, [0x54C]); (0x57D, [0x54D]); (0x57E, [0x54E]);
    (0x57F, [0x54F]); (0x580, [0x550]); (0x581, [0x551]); (0x582, [0x552]);
    (0x583, [0x553]); (0x584, [0x554]); (0x585, [0x555]); (0x586, [0x556]);
    (0x587, [0x535; 0x552]); (0x10D0, [0x1C90]); (0x10D1, [0x1C91]); (0x10D2, [0x1C92]);
    (0x10D3, [0x1C93]); (0x10D4, [0x1C94]); (0x10D5, [0x1C95]); (0x10D6, [0x1C96]);
    (0x10D7, [0x1C97]); (0x10D8, [0x1C98]); (0x10D9, [0x1C99]); (0x10DA, [0x1C9A]);
    (0x10DB, [0x1C9B]); (0x10DC, [0x1C9C]); (0x10DD, [0x1C9D]); (0x10DE, [0x1C9E]);
    (0x10DF, [0x1C9F]); (0x10E0, [0x1CA0]); (0x10E1, [0x1CA1]); (0x10E2, [0x1CA2]);
    (0x10E3, [0x1CA3]); (0x10E4, [0x1CA4]); (0x10E5, [0x1CA5]); (0x10E6, [0x1CA6]);
    (0x10E7, [0x1CA7]); (0x10E8, [0x1CA8]); (0x10E9, [0x1CA9]); (0x10EA, [0x1CAA]);
    (0x10EB, [0x1CAB]); (0x10EC, [0x1CAC]); (0x10ED, [0x1CAD]); (0x10EE, [0x1CAE]);
    (0x10EF, [0x1CAF]); (0x10F0, [0x1CB0]); (0x10F1, [0x1CB1]); (0x10F2, [0x1CB2]);
    (0x10F3, [0x1CB3]); (0x10F4, [0x1CB4]); (0x10F5, [0x1CB5]); (0x10F6, [0x1CB6]);
    (0x10F7, [0x1CB7]); (0x10F8, [0x1CB8]); (0x10F9, [0x1CB9]); (0x10FA, [0x1CBA]);
    (0x10FD, [0x1CBD]); (0x10FE, [0x1CBE]); (0x10FF, [0x1CBF]); (0x13F8, [0x13F0]);
    (0x13F9, [0x13F1]); (0x13FA, [0x13F2]); (0x13FB, [0x13F3]); (0x13FC, [0x13F4]);
    (0x13FD, [0x13F5]); (0x1C80, [0x412]); (0x1C81, [0x414]); (0x1C82, [0x41E]);
    (0x1C83, [0x421]); (0x1C84, [0x422]); (0x1C85, [0x422]); (0x1C86, [0x42A]);
    (0x1C87, [0x462]); (0x1C88, [0xA64A]); (0x1D79, [0xA77D]); (0x1D7D, [0x2C63]);
    (0x1D8E, [0xA7C6]); (0x1E01, [0x1E00]); (0x1E03, [0x1E02]); (0x1E05, [0x1E04]);
    (0x1E07, [0x1E06]); (0x1E09, [0x1E08]); (0x1E0B, [0x1E0A]); (0x1E0D, [0x1E0C]);
    (0x1E0F, [0x1E0E]); (0x1E11, [0x1E10]); (0x1E13, [0x1E12]); (0x1E15, [0x1E14]);
    (0x1E17, [0x1E16]); (0x1E19, [0x1E18]); (0x1E1B, [0x1E1A]); (0x1E1D, [0x1E1C]);
    (0x1E1F, [0x1E1E]); (0x1E21, [0x1E20]); (0x1E23, [0x1E22]); (0x1E25, [0x1E24]);
    (0x1E27, [0x1E26]); (0x1E29, [0x1E28]); (0x1E2B, [0x1E2A]); (0x1E2D, [0x1E2C]);
    (0x1E2F, [0x1E2E]); (0x1E31, [0x1E30]); (0x1E33, [0x1E32]); (0x1E35, [0x1E34]);
    (0x1E37, [0x1E36]); (0x1E39, [0x1E38]); (0x1E3B, [0x1E3A]); (0x1E3D, [0x1E3C]);
    (0x1E3F, [0x1E3E]); (0x1E41, [0x1E40]); (0x1E43, [0x1E42]); (0x1E45, [0x1E44]);
    (0x1E47, [0x1E46]); (0x1E49, [0x1E48]); (0x1E4B, [0x1E4A]); (0x1E4D, [0x1E4C]);
    (0x1E4F, [0x1E4E]); (0x1E51, [0x1E50]); (0x1E53, [0x1E52]); (0x1E55, [0x1E54]);
    (0x1E57, [0x1E56]); (0x1E59, [0x1E58]); (0x1E5B, [0x1E5A]); (0x1E5D, [0x1E5C]);
    (0x1E5F, [0x1E5E]); (0x1E61, [0x1E60]); (0x1E63, [0x1E62]); (0x1E65, [0x1E64]);
    (0x1E67, [0x1E66]); (0x1E69, [0x1E68]); (0x1E6B, [0x1E6A]); (0x1E6D, [0x1E6C]);
    (0x1E6F, [0x1E6E]); (0x1E71, [0x1E70]); (0x1E73, [0x1E72]); (0x1E75, [0x1E74]);
    (0x1E77, [0x1E76]); (0x1E79, [0x1E78]); (0x1E7B, [0x1E7A]); (0x1E7D, [0x1E7C]);
    (0x1E7F, [0x1E7E]); (0x1E81, [0x1E80]); (0x1E83, [0x1E82]); (0x1E85, [0x1E84]);
    (0x1E87, [0x1E86]); (0x1E89, [0x1E88]); (0x1E8B, [0x1E8A]); (0x1E8D, [0x1E8C]);
    (0x1E8F, [0x1E8E]); (0x1E91, [0x1E90]); (0x1E93, [0x1E92]); (0x1E95, [0x1E94]);
    (0x1E96, [0x48; 0x331]); (0x1E97, [0x54; 0x308]); (0x1E98, [0x57; 0x30A]); (0x1E99, [0x59; 0x30A]);
    (0x1E9A, [0x41; 0x2BE]); (0x1E9B, [0x1E60]); (0x1EA1, [0x1EA0]); (0x1EA3, [0x1EA2]);
    (0x1EA5, [0x1EA4]); (0x1EA7, [0x1EA6]); (0x1EA9, [0x1EA8]); (0x1EAB, [0x1EAA]);
    (0x1EAD, [0x1EAC]); (0x1EAF, [0x1EAE]); (0x1EB1, [0x1EB0]); (0x1EB3, [0x1EB2]);
    (0x1EB5, [0x1EB4]); (0x1EB7, [0x1EB6]); (0x1EB9, [0x1EB8]); (0x1EBB, [0x1EBA]);
    (0x1EBD, [0x1EBC]); (0x1EBF, [0x1EBE]); (0x1EC1, [0x1EC0]); (0x1EC3, [0x1EC2]);
    (0x1EC5, [0x1EC4]); (0x1EC7, [0x1EC6]); (0x1EC9, [0x1EC8]); (0x1ECB, [0x1ECA]);
    (0x1ECD, [0x1ECC]); (0x1ECF, [0x1ECE]); (0x1ED1, [0x1ED0]); (0x1ED3, [0x1ED2]);
    (0x1ED5, [0x1ED4]); (0x1ED7, [0x1ED6]); (0x1ED9, [0x1ED8]); (0x1EDB, [0x1EDA]);
    (0x1EDD, [0x1EDC]); (0x1EDF, [0x1EDE]); (0x1EE1, [0x1EE0]); (0x1EE3, [0x1EE2]);
    (0x1EE5, [0x1EE4]); (0x1EE7, [0x1EE6]); (0x1EE9, [0x1EE8]); (0x1EEB, [0x1EEA]);
    (0x1EED, [0x1EEC]); (0x1EEF, [0x1EEE]); (0x1EF1, [0x1EF0]); (0x1EF3, [0x1EF2]);
    (0x1EF5, [0x1EF4]); (0x1EF7, [0x1EF6]); (0x1EF9, [0x1EF8]); (0x1EFB, [0x1EFA]);
    (0x1EFD, [0x1EFC]); (0x1EFF, [0x1EFE]); (0x1F00, [0x1F08]); (0x1F01, [0x1F09]);
    (0x1F02, [0x1F0A]); (0x1F03, [0x1F0B]); (0x1F04, [0x1F0C]); (0x1F05, [0x1F0D]);
    (0x1F06, [0x1F0E]); (0x1F07, [0x1F0F]); (0x1F10, [0x1F18]); (0x1F11, [0x1F19]);
    (0x1F12, [0x1F1A]); (0x1F13, [0x1F1B]); (0x1F14, [0x1F1C]); (0x1F15, [0x1F1D]);
    (0x1F20, [0x1F28]); (0x1F21, [0x1F29]); (0x1F22, [0x1F2A]); (0x1F23, [0x1F2B]);
    (0x1F24, [0x1F2C]); (0x1F25, [0x1F2D]); (0x1F26, [0x1F2E]); (0x1F27, [0x1F2F]);
    (0x1F30, [0x1F38]); (0x1F31, [0x1F39]); (0x1F32, [0x1F3A]); (0x1F33, [0x1F3B]);
    (0x1F34, [0x1F3C]); (0x1F35, [0x1F3D]); (0x1F36, [0x1F3E]); (0x1F37, [0x1F3F]);
    (0x1F40, [0x1F48]); (0x1F41, [0x1F49]); (0x1F42, [0x1F4A]); (0x1F43, [0x1F4B]);
    (0x1F44, [0x1F4C]); (0x1F45, [0x1F4D]); (0x1F50, [0x3A5; 0x313]); (0x1F51, [0x1F59]);
    (0x1F52, [0x3A5; 0x313; 0x300]); (0x1F53, [0x1F5B]); (0x1F54, [0x3A5; 0x313; 0x301]); (0x1F55, [0x1F5D]);
    (0x1F56, [0x3A5; 0x313; 0x342]); (0x1F57, [0x1F5F]); (0x1F60, [0x1F68]); (0x1F61, [0x1F69]);
    (0x1F62, [0x1F6A]); (0x1F63, [0x1F6B]); (0x1F64, [0x1F6C]); (0x1F65, [0x1F6D]);
    (0x1F66, [0x1F6E]); (0x1F67, [0x1F6F]); (0x1F70, [0x1FBA]); (0x1F71, [0x1FBB]);
    (0x1F72, [0x1FC8]); (0x1F73, [0x1FC9]); (0x1F74, [0x1FCA]); (0x1F75, [0x1FCB]);
    (0x1F76, [0x1FDA]); (0x1F77, [0x1FDB]); (0x1F78, [0x1FF8]); (0x1F79, [0x1FF9]);
    (0x1F7A, [0x1FEA]); (0x1F7B, [0x1FEB]); (0x1F7C, [0x1FFA]); (0x1F7D, [0x1FFB]);
    (0x1F80, [0x1F08; 0x399]); (0x1F81, [0x1F09; 0x399]); (0x1F82, [0x1F0A; 0x399]); (0x1F83, [0x1F0B; 0x399]);
    (0x1F84, [0x1F0C; 0x399]); (0x1F85, [0x1F0D; 0x399]); (0x1F86, [0x1F0E; 0x399]); (0x1F87, [0x1F0F; 0x399]);
    (0x1F88, [0x1F08; 0x399]); (0x1F89, [0x1F09; 0x399]); (0x1F8A, [0x1F0A; 0x399]); (0x1F8B, [0x1F0B; 0x399]);
    (0x1F8C, [0x1F0C; 0x399]); (0x1F8D, [0x1F0D; 0x399]); (0x1F8E, [0x1F0E; 0x399]); (0x1F8F, [0x1F0F; 0x399]);
    (0x1F90, [0x1F28; 0x399]); (0x1F91, [0x1F29; 0x399]); (0x1F92, [0x1F2A; 0x399]); (0x1F93, [0x1F2B; 0x399]);
    (0x1F94, [0x1F2C; 0x399]); (0x1F95, [0x1F2D; 0x399]); (0x1F96, [0x1F2E; 0x399]); (0x1F97, [0x1F2F; 0x399]);
    (0x1F98, [0x1F28; 0x399]); (0x1F99, [0x1F29; 0x399]); (0x1F9A, [0x1F2A; 0x399]); (0x1F9B, [0x1F2B; 0x399]);
    (0x1F9C, [0x1F2C; 0x399]); (0x1F9D, [0x1F2D; 0x399]); (0x1F9E, [0x1F2E; 0x399]); (0x1F9F, [0x1F2F; 0x399]);
    (0x1FA0, [0x1F68; 0x399]); (0x1FA1, [0x1F69; 0x399]); (0x1FA2, [0x1F6A; 0x399]); (0x1FA3, [0x1F6B; 0x399]);
    (0x1FA4, [0x1F6C; 0x399]); (0x1FA5, [0x1F6D; 0x399]); (0x1FA6, [0x1F6E; 0x399]); (0x1FA7, [0x1F6F; 0x399]);
    (0x1FA8, [0x1F68; 0x399]); (0x1FA9, [0x1F69; 0x399]); (0x1FAA, [0x1F6A; 0x399]); (0x1FAB, [0x1F6B; 0x399]);
    (0x1FAC, [0x1F6C; 0x399]); (0x1FAD, [0x1F6D; 0x399]); (0x1FAE, [0x1F6E; 0x399]); (0x1FAF, [0x1F6F; 0x399]);
    (0x1FB0, [0x1FB8]); (0x1FB1, [0x1FB9]); (0x1FB2, [0x1FBA; 0x399]); (0x1FB3, [0x391; 0x399]);
    (0x1FB4, [0x386; 0x399]); (0x1FB6, [0x391; 0x342]); (0x1FB7, [0x391; 0x342; 0x399]); (0x1FBC, [0x391; 0x399]);
    (0x1FBE, [0x399]); (0x1FC2, [0x1FCA; 0x399]); (0x1FC3, [0x397; 0x399]); (0x1FC4, [0x389; 0x399]);
    (0x1FC6, [0x397; 0x342]); (0x1FC7, [0x397; 0x342; 0x399]); (0x1FCC, [0x397; 0x399]); (0x1FD0, [0x1FD8]);
    (0x1FD1, [0x1FD9]); (0x1FD2, [0x399; 0x308; 0x300]); (0x1FD3, [0x399; 0x308; 0x301]); (0x1FD6, [0x399; 0x342]);
    (0x1FD7, [0x399; 0x308; 0x342]); (0x1FE0, [0x1FE8]); (0x1FE1, [0x1FE9]); (0x1FE2, [0x3A5; 0x308; 0x300]);
    (0x1FE3, [0x3A5; 0x308; 0x301]); (0x1FE4, [0x3A1; 0x313]); (0x1FE5, [0x1FEC]); (0x1FE6, [0x3A5; 0x342]);
    (0x1FE7, [0x3A5; 0x308; 0x342]); (0x1FF2, [0x1FFA; 0x399]); (0x1FF3, [0x3A9; 0x399]); (0x1FF4, [0x38F; 0x399]);
    (0x1FF6, [0x3A9; 0x342]); (0x1FF7, [0x3A9; 0x342; 0x399]); (0x1FFC, [0x3A9; 0x399]); (0x214E, [0x2132]);
    (0x2170, [0x2160]); (0x2171, [0x2161]); (0x2172, [0x2162]); (0x2173, [0x2163]);
    (0x2174, [0x2164]); (0x2175, [0x2165]); (0x2176, [0x2166]); (0x2177, [0x2167]);
    (0x2178, [0x2168]); (0x2179, [0x2169]); (0x217A, [0x216A]); (0x217B, [0x216B]);
    (0x217C, [0x216C]); (0x217D, [0x216D]); (0x217E, [0x216E]); (0x217F, [0x216F]);
    (0x2184, [0x2183]); (0x24D0, [0x24B6]); (0x24D1, [0x24B7]); (0x24D2, [0x24B8]);
    (0x24D3, [0x24B9]); (0x24D4, [0x24BA]); (0x24D5, [0x24BB]); (0x24D6, [0x24BC]);
    (0x24D7, [0x24BD]); (0x24D8, [0x24BE]); (0x24D9, [0x24BF]); (0x24DA, [0x24C0]);
    (0x24DB, [0x24C1]); (0x24DC, [0x24C2]); (0x24DD, [0x24C3]); (0x24DE, [0x24C4]);
    (0x24DF, [0x24C5]); (0x24E0, [0x24C6]); (0x24E1, [0x24C7]); (0x24E2, [0x24C8]);
    (0x24E3, [0x24C9]); (0x24E4, [0x24CA]); (0x24E5, [0x24CB]); (0x24E6, [0x24CC]);
    (0x24E7, [0x24CD]); (0x24E8, [0x24CE]); (0x24E9, [0x24CF]); (0x2C30, [0x2C00]);
    (0x2C31, [0x2C01]); (0x2C32, [0x2C02]); (0x2C33, [0x2C03]); (0x2C34, [0x2C04]);
    (0x2C35, [0x2C05]); (0x2C36, [0x2C06]); (0x2C37, [0x2C07]); (0x2C38, [0x2C08]);
    (0x2C39, [0x2C09]); (0x2C3A, [0x2C0A]); (0x2C3B, [0x2C0B]); (0x2C3C, [0x2C0C]);
    (0x2C3D, [0x2C0D]); (0x2C3E, [0x2C0E]); (0x2C3F, [0x2C0F]); (0x2C40, [0x2C10]);
    (0x2C41, [0x2C11]); (0x2C42, [0x2C12]); (0x2C43, [0x2C13]); (0x2C44, [0x2C14]);
    (0x2C45, [0x2C15]); (0x2C46, [0x2C16]); (0x2C47, [0x2C17]); (0x2C48, [0x2C18]);
    (0x2C49, [0x2C19]); (0x2C4A, [0x2C1A]); (0x2C4B, [0x2C1B]); (0x2C4C, [0x2C1C]);
    (0x2C4D, [0x2C1D]); (0x2C4E, [0x2C1E]); (0x2C4F, [0x2C1F]); (0x2C50, [0x2C20]);
    (0x2C51, [0x2C21]); (0x2C52, [0x2C22]); (0x2C53, [0x2C23]); (0x2C54, [0x2C24]);
    (0x2C55, [0x2C25]); (0x2C56, [0x2C26]); (0x2C57, [0x2C27]); (0x2C58, [0x2C28]);
    (0x2C59, [0x2C29]); (0x2C5A, [0x2C2A]); (0x2C5B, [0x2C2B]); (0x2C5C, [0x2C2C]);
    (0x2C5D, [0x2C2D]); (0x2C5E, [0x2C2E]); (0x2C5F, [0x2C2F]); (0x2C61, [0x2C60]);
    (0x2C65, [0x23A]); (0x2C66, [0x23E]); (0x2C68, [0x2C67]); (0x2C6A, [0x2C69]);
    (0x2C6C, [0x2C6B]); (0x2C73, [0x2C72]); (0x2C76, [0x2C75]); (0x2C81, [0x2C80]);
    (0x2C83, [0x2C82]); (0x2C85, [0x2C84]); (0x2C87, [0x2C86]); (0x2C89, [0x2C88]);
    (0x2C8B, [0x2C8A]); (0x2C8D, [0x2C8C]); (0x2C8F, [0x2C8E]); (0x2C91, [0x2C90]);
    (0x2C93, [0x2C92]); (0x2C95, [0x2C94]); (0x2C97, [0x2C96]); (0x2C99, [0x2C98]);
    (0x2C9B, [0x2C9A]); (0x2C9D, [0x2C9C]); (0x2C9F, [0x2C9E]); (0x2CA1, [0x2CA0]);
    (0x2CA3, [0x2CA2]); (0x2CA5, [0x2CA4]); (0x2CA7, [0x2CA6]); (0x2CA9, [0x2CA8]);
    (0x2CAB, [0x2CAA]); (0x2CAD, [0x2CAC]); (0x2CAF, [0x2CAE]); (0x2CB1, [0x2CB0]);
    (0x2CB3, [0x2CB2]); (0x2CB5, [0x2CB4]); (0x2CB7, [0x2CB6]); (0x2CB9, [0x2CB8]);
    (0x2CBB, [0x2CBA]); (0x2CBD, [0x2CBC]); (0x2CBF, [0x2CBE]); (0x2CC1, [0x2CC0]);
    (0x2CC3, [0x2CC2]); (0x2CC5, [0x2CC4]); (0x2CC7, [0x2CC6]); (0x2CC9, [0x2CC8]);
    (0x2CCB, [0x2CCA]); (0x2CCD, [0x2CCC]); (0x2CCF, [0x2CCE]); (0x2CD1, [0x2CD0]);
    (0x2CD3, [0x2CD2]); (0x2CD5, [0x2CD4]); (0x2CD7, [0x2CD6]); (0x2CD9, [0x2CD8]);
    (0x2CDB, [0x2CDA]); (0x2CDD, [0x2CDC]); (0x2CDF, [0x2CDE]); (0x2CE1, [0x2CE0]);
    (0x2CE3, [0x2CE2]); (0x2CEC, [0x2CEB]); (0x2CEE, [0x2CED]); (0x2CF3, [0x2CF2]);
    (0x2D00, [0x10A0]); (0x2D01, [0x10A1]); (0x2D02, [0x10A2]); (0x2D03, [0x10A3]);
    (0x2D04, [0x10A4]); (0x2D05, [0x10A5]); (0x2D06, [0x10A6]); (0x2D07, [0x10A7]);
    (0x2D08, [0x10A8]); (0x2D09, [0x10A9]); (0x2D0A, [0x10AA]); (0x2D0B, [0x10AB]);
    (0x2D0C, [0x10AC]); (0x2D0D, [0x10AD]); (0x2D0E, [0x10AE]); (0x2D0F, [0x10AF]);
    (0x2D10, [0x10B0]); (0x2D11, [0x10B1]); (0x2D12, [0x10B2]); (0x2D13, [0x10B3]);
    (0x2D14, [0x10B4]); (0x2D15, [0x10B5]); (0x2D16, [0x10B6]); (0x2D17, [0x10B7]);
    (0x2D18, [0x10B8]); (0x2D19, [0x10B9]); (0x2D1A, [0x10BA]); (0x2D1B, [0x10BB]);
    (0x2D1C, [0x10BC]); (0x2D1D, [0x10BD]); (0x2D1E, [0x10BE]); (0x2D1F, [0x10BF]);
    (0x2D20, [0x10C0]); (0x2D21, [0x10C1]); (0x2D22, [0x10C2]); (0x2D23, [0x10C3]);
    (0x2D24, [0x10C4]); (0x2D25, [0x10C5]); (0x2D27, [0x10C7]); (0x2D2D, [0x10CD]);
    (0xA641, [0xA640]); (0xA643, [0xA642]); (0xA645, [0xA644]); (0xA647, [0xA646]);
    (0xA649, [0xA648]); (0xA64B, [0xA64A]); (0xA64D, [0xA64C]); (0xA64F, [0xA64E]);
    (0xA651, [0xA650]); (0xA653, [0xA652]); (0xA655, [0xA654]); (0xA657, [0xA656]);
    (0xA659, [0xA658]); (0xA65B, [0xA65A]); (0xA65D, [0xA65C]); (0xA65F, [0xA65E]);
    (0xA661, [0xA660]); (0xA663, [0xA662]); (0xA665, [0xA664]); (0xA667, [0xA666]);
    (0xA669, [0xA668]); (0xA66B, [0xA66A]); (0xA66D, [0xA66C]); (0xA681, [0xA680]);
    (0xA683, [0xA682]); (0xA685, [0xA684]); (0xA687, [0xA686]); (0xA689, [0xA688]);
    (0xA68B, [0xA68A]); (0xA68D, [0xA68C]); (0xA68F, [0xA68E]); (0xA691, [0xA690]);
    (0xA693, [0xA692]); (0xA695, [0xA694]); (0xA697, [0xA696]); (0xA699, [0xA698]);
    (0xA69B, [0xA69A]); (0xA723, [0xA722]); (0xA725, [0xA724]); (0xA727, [0xA726]);
    (0xA729, [0xA728]); (0xA72B, [0xA72A]); (0xA72D, [0xA72C]); (0xA72F, [0xA72E]);
    (0xA733, [0xA732]); (0xA735, [0xA734]); (0xA737, [0xA736]); (0xA739, [0xA738]);
    (0xA73B, [0xA73A]); (0xA73D, [0xA73C]); (0xA73F, [0xA73E]); (0xA741, [0xA740]);
    (0xA743, [0xA742]); (0xA745, [0xA744]); (0xA747, [0xA746]); (0xA749, [0xA748]);
    (0xA74B, [0xA74A]); (0xA74D, [0xA74C]); (0xA74F, [0xA74E]); (0xA751, [0xA750]);
    (0xA753, [0xA752]); (0xA755, [0xA754]); (0xA757, [0xA756]); (0xA759, [0xA758]);
    (0xA75B, [0xA75A]); (0xA75D, [0xA75C]); (0xA75F, [0xA75E]); (0xA761, [0xA760]);
    (0xA763, [0xA762]); (0xA765, [0xA764]); (0xA767, [0xA766]); (0xA769, [0xA768]);
    (0xA76B, [0xA76A]); (0xA76D, [0xA76C]); (0xA76F, [0xA76E]); (0xA77A, [0xA779]);
    (0xA77C, [0xA77B]); (0xA77F, [0xA77E]); (0xA781, [0xA780]); (0xA783, [0xA782]);
    (0xA785, [0xA784]); (0xA787, [0xA786]); (0xA78C, [0xA78B]); (0xA791, [0xA790]);
    (0xA793, [0xA792]); (0xA794, [0xA7C4]); (0xA797, [0xA796]); (0xA799, [0xA798]);
    (0xA79B, [0xA79A]); (0xA79D, [0xA79C]); (0xA79F, [0xA79E]); (0xA7A1, [0xA7A0]);
    (0xA7A3, [0xA7A2]); (0xA7A5, [0xA7A4]); (0xA7A7, [0xA7A6]); (0xA7A9, [0xA7A8]);
    (0xA7B5, [0xA7B4]); (0xA7B7, [0xA7B6]); (0xA7B9, [0xA7B8]); (0xA7BB, [0xA7BA]);
    (0xA7BD, [0xA7BC]); (0xA7BF, [0xA7BE]); (0xA7C1, [0xA7C0]); (0xA7C3, [0xA7C2]);
    (0xA7C8, [0xA7C7]); (0xA7CA, [0xA7C9]); (0xA7D1, [0xA7D0]); (0xA7D7, [0xA7D6]);
    (0xA7D9, [0xA7D8]); (0xA7F6, [0xA7F5]); (0xAB53, [0xA7B3]); (0xAB70, [0x13A0]);
    (0xAB71, [0x13A1]); (0xAB72, [0x13A2]); (0xAB73, [0x13A3]); (0xAB74, [0x13A4]);
    (0xAB75, [0x13A5]); (0xAB76, [0x13A6]); (0xAB77, [0x13A7]); (0xAB78, [0x13A8]);
    (0xAB79, [0x13A9]); (0xAB7A, [0x13AA]); (0xAB7B, [0x13AB]); (0xAB7C, [0x13AC]);
    (0xAB7D, [0x13AD]); (0xAB7E, [0x13AE]); (0xAB7F, [0x13AF]); (0xAB80, [0x13B0]);
    (0xAB81, [0x13B1]); (0xAB82, [0x13B2]); (0xAB83, [0x13B3]); (0xAB84, [0x13B4]);
    (0xAB85, [0x13B5]); (0xAB86, [0x13B6]); (0xAB87, [0x13B7]); (0xAB88, [0x13B8]);
    (0xAB89, [0x13B9]); (0xAB8A, [0x13BA]); (0xAB8B, [0x13BB]); (0xAB8C, [0x13BC]);
    (0xAB8D, [0x13BD]); (0xAB8E, [0x13BE]); (0xAB8F, [0x13BF]); (0xAB90, [0x13C0]);
    (0xAB91, [0x13C1]); (0xAB92, [0x13C2]); (0xAB93, [0x13C3]); (0xAB94, [0x13C4]);
    (0xAB95, [0x13C5]); (0xAB96, [0x13C6]); (0xAB97, [0x13C7]); (0xAB98, [0x13C8]);
    (0xAB99, [0x13C9]); (0xAB9A, [0x13CA]); (0xAB9B, [0x13CB]); (0xAB9C, [0x13CC]);
    (0xAB9D, [0x13CD]); (0xAB9E, [0x13CE]); (0xAB9F, [0x13CF]); (0xABA0, [0x13D0]);
    (0xABA1, [0x13D1]); (0xABA2, [0x13D2]); (0xABA3, [0x13D3]); (0xABA4, [0x13D4]);
    (0xABA5, [0x13D5]); (0xABA6, [0x13D6]); (0xABA7, [0x13D7]); (0xABA8, [0x13D8]);
    (0xABA9, [0x13D9]); (0xABAA, [0x13DA]); (0xABAB, [0x13DB]); (0xABAC, [0x13DC]);
    (0xABAD, [0x13DD]); (0xABAE, [0x13DE]); (0xABAF, [0x13DF]); (0xABB0, [0x13E0]);
    (0xABB1, [0x13E1]); (0xABB2, [0x13E2]); (0xABB3, [0x13E3]); (0xABB4, [0x13E4]);
    (0xABB5, [0x13E5]); (0xABB6, [0x13E6]); (0xABB7, [0x13E7]); (0xABB8, [0x13E8]);
    (0xABB9, [0x13E9]); (0xABBA, [0x13EA]); (0xABBB, [0x13EB]); (0xABBC, [0x13EC]);
    (0xABBD, [0x13ED]); (0xABBE, [0x13EE]); (0xABBF, [0x13EF]); (0xFB00, [0x46; 0x46]);
    (0xFB01, [0x46; 0x49]); (0xFB02, [0x46; 0x4C]); (0xFB03, [0x46; 0x46; 0x49]); (0xFB04, [0x46; 0x46; 0x4C]);
    (0xFB05, [0x53; 0x54]); (0xFB06, [0x53; 0x54]); (0xFB13, [0x544; 0x546]); (0xFB14, [0x544; 0x535]);
    (0xFB15, [0x544; 0x53B]); (0xFB16, [0x54E; 0x546]); (0xFB17, [0x544; 0x53D]); (0xFF41, [0xFF21]);
    (0xFF42, [0xFF22]); (0xFF43, [0xFF23]); (0xFF44, [0xFF24]); (0xFF45, [0xFF25]);
    (0xFF46, [0xFF26]); (0xFF47, [0xFF27]); (0xFF48, [0xFF28]); (0xFF49, [0xFF29]);
    (0xFF4A, [0xFF2A]); (0xFF4B, [0xFF2B]); (0xFF4C, [0xFF2C]); (0xFF4D, [0xFF2D]);
    (0xFF4E, [0xFF2E]); (0xFF4F, [0xFF2F]); (0xFF50, [0xFF30]); (0xFF51, [0xFF31]);
    (0xFF52, [0xFF32]); (0xFF53, [0xFF33]); (0xFF54, [0xFF34]); (0xFF55, [0xFF35]);
    (0xFF56, [0xFF36]); (0xFF57, [0xFF37]); (0xFF58, [0xFF38]); (0xFF59, [0xFF39]);
    (0xFF5A, [0xFF3A]); (0x10428, [0x10400]); (0x10429, [0x10401]); (0x1042A, [0x10402]);
    (0x1042B, [0x10403]); (0x1042C, [0x10404]); (0x1042D, [0x10405]); (0x1042E, [0x10406]);
    (0x1042F, [0x10407]); (0x10430, [0x10408]); (0x10431, [0x10409]); (0x10432, [0x1040A]);
    (0x10433, [0x1040B]); (0x10434, [0x1040C]); (0x10435, [0x1040D]); (0x10436, [0x1040E]);
    (0x10437, [0x1040F]); (0x10438, [0x10410]); (0x10439, [0x10411]); (0x1043A, [0x10412]);
    (0x1043B, [0x10413]); (0x1043C, [0x10414]); (0x1043D, [0x10415]); (0x1043E, [0x10416]);
    (0x1043F, [0x10417]); (0x10440, [0x10418]); (0x10441, [0x10419]); (0x10442, [0x1041A]);
    (0x10443, [0x1041B]); (0x10444, [0x1041C]); (0x10445, [0x1041D]); (0x10446, [0x1041E]);
    (0x10447, [0x1041F]); (0x10448, [0x10420]); (0x10449, [0x10421]); (0x1044A, [0x10422]);
    (0x1044B, [0x10423]); (0x1044C, [0x10424]); (0x1044D, [0x10425]); (0x1044E, [0x10426]);
    (0x1044F, [0x10427]); (0x104D8, [0x104B0]); (0x104D9, [0x104B1]); (0x104DA, [0x104B2]);
    (0x104DB, [0x104B3]); (0x104DC, [0x104B4]); (0x104DD, [0x104B5]); (0x104DE, [0x104B6]);
    (0x104DF, [0x104B7]); (0x104E0, [0x104B8]); (0x104E1, [0x104B9]); (0x104E2, [0x104BA]);
    (0x104E3, [0x104BB]); (0x104E4, [0x104BC]); (0x104E5, [0x104BD]); (0x104E6, [0x104BE]);
    (0x104E7, [0x104BF]); (0x104E8, [0x104C0]); (0x104E9, [0x104C1]); (0x104EA, [0x104C2]);
    (0x104EB, [0x104C3]); (0x104EC, [0x104C4]); (0x104ED, [0x104C5]); (0x104EE, [0x104C6]);
    (0x104EF, [0x104C7]); (0x104F0, [0x104C8]); (0x104F1, [0x104C9]); (0x104F2, [0x104CA]);
    (0x104F3, [0x104CB]); (0x104F4, [0x104CC]); (0x104F5, [0x104CD]); (0x104F6, [0x104CE]);
    (0x104F7, [0x104CF]); (0x104F8, [0x104D0]); (0x104F9, [0x104D1]); (0x104FA, [0x104D2]);
    (0x104FB, [0x104D3]); (0x10597, [0x10570]); (0x10598, [0x10571]); (0x10599, [0x10572]);
    (0x1059A, [0x10573]); (0x1059B, [0x10574]); (0x1059C, [0x10575]); (0x1059D, [0x10576]);
    (0x1059E, [0x10577]); (0x1059F, [0x10578]); (0x105A0, [0x10579]); (0x105A1, [0x1057A]);
    (0x105A3, [0x1057C]); (0x105A4, [0x1057D]); (0x105A5, [0x1057E]); (0x105A6, [0x1057F]);
    (0x105A7, [0x10580]); (0x105A8, [0x10581]); (0x105A9, [0x10582]); (0x105AA, [0x10583]);
    (0x105AB, [0x10584]); (0x105AC, [0x10585]); (0x105AD, [0x10586]); (0x105AE, [0x10587]);
    (0x105AF, [0x10588]); (0x105B0, [0x10589]); (0x105B1, [0x1058A]); (0x105B3, [0x1058C]);
    (0x105B4, [0x1058D]); (0x105B5, [0x1058E]); (0x105B6, [0x1058F]); (0x105B7, [0x10590]);
    (0x105B8, [0x10591]); (0x105B9, [0x10592]); (0x105BB, [0x10594]); (0x105BC, [0x10595]);
    (0x10CC0, [0x10C80]); (0x10CC1, [0x10C81]); (0x10CC2, [0x10C82]); (0x10CC3, [0x10C83]);
    (0x10CC4, [0x10C84]); (0x10CC5, [0x10C85]); (0x10CC6, [0x10C86]); (0x10CC7, [0x10C87]);
    (0x10CC8, [0x10C88]); (0x10CC9, [0x10C89]); (0x10CCA, [0x10C8A]); (0x10CCB, [0x10C8B]);
    (0x10CCC, [0x10C8C]); (0x10CCD, [0x10C8D]); (0x10CCE, [0x10C8E]); (0x10CCF, [0x10C8F]);
    (0x10CD0, [0x10C90]); (0x10CD1, [0x10C91]); (0x10CD2, [0x10C92]); (0x10CD3, [0x10C93]);
    (0x10CD4, [0x10C94]); (0x10CD5, [0x10C95]); (0x10CD6, [0x10C96]); (0x10CD7, [0x10C97]);
    (0x10CD8, [0x10C98]); (0x10CD9, [0x10C99]); (0x10CDA, [0x10C9A]); (0x10CDB, [0x10C9B]);
    (0x10CDC, [0x10C9C]); (0x10CDD, [0x10C9D]); (0x10CDE, [0x10C9E]); (0x10CDF, [0x10C9F]);
    (0x10CE0, [0x10CA0]); (0x10CE1, [0x10CA1]); (0x10CE2, [0x10CA2]); (0x10CE3, [0x10CA3]);
    (0x10CE4, [0x10CA4]); (0x10CE5, [0x10CA5]); (0x10CE6, [0x10CA6]); (0x10CE7, [0x10CA7]);
    (0x10CE8, [0x10CA8]); (0x10CE9, [0x10CA9]); (0x10CEA, [0x10CAA]); (0x10CEB, [0x10CAB]);
    (0x10CEC, [0x10CAC]); (0x10CED, [0x10CAD]); (0x10CEE, [0x10CAE]); (0x10CEF, [0x10CAF]);
    (0x10CF0, [0x10CB0]); (0x10CF1, [0x10CB1]); (0x10CF2, [0x10CB2]); (0x118C0, [0x118A0]);
    (0x118C1, [0x118A1]); (0x118C2, [0x118A2]); (0x118C3, [0x118A3]); (0x118C4, [0x118A4]);
    (0x118C5, [0x118A5]); (0x118C6, [0x118A6]); (0x118C7, [0x118A7]); (0x118C8, [0x118A8]);
    (0x118C9, [0x118A9]); (0x118CA, [0x118AA]); (0x118CB, [0x118AB]); (0x118CC, [0x118AC]);
    (0x118CD, [0x118AD]); (0x118CE, [0x118AE]); (0x118CF, [0x118AF]); (0x118D0, [0x118B0]);
    (0x118D1, [0x118B1]); (0x118D2, [0x118B2]); (0x118D3, [0x118B3]); (0x118D4, [0x118B4]);
    (0x118D5, [0x118B5]); (0x118D6, [0x118B6]); (0x118D7, [0x118B7]); (0x118D8, [0x118B8]);
    (0x118D9, [0x118B9]); (0x118DA, [0x118BA]); (0x118DB, [0x118BB]); (0x118DC, [0x118BC]);
    (0x118DD, [0x118BD]); (0x118DE, [0x118BE]); (0x118DF, [0x118BF]); (0x16E60, [0x16E40]);
    (0x16E61, [0x16E41]); (0x16E62, [0x16E42]); (0x16E63, [0x16E43]); (0x16E64, [0x16E44]);
    (0x16E65, [0x16E45]); (0x16E66, [0x16E46]); (0x16E67, [0x16E47]); (0x16E68, [0x16E48]);
    (0x16E69, [0x16E49]); (0x16E6A, [0x16E4A]); (0x16E6B, [0x16E4B]); (0x16E6C, [0x16E4C]);
    (0x16E6D, [0x16E4D]); (0x16E6E, [0x16E4E]); (0x16E6F, [0x16E4F]); (0x16E70, [0x16E50]);
    (0x16E71, [0x16E51]); (0x16E72, [0x16E52]); (0x16E73, [0x16E53]); (0x16E74, [0x16E54]);
    (0x16E75, [0x16E55]); (0x16E76, [0x16E56]); (0x16E77, [0x16E57]); (0x16E78, [0x16E58]);
    (0x16E79, [0x16E59]); (0x16E7A, [0x16E5A]); (0x16E7B, [0x16E5B]); (0x16E7C, [0x16E5C]);
    (0x16E7D, [0x16E5D]); (0x16E7E, [0x16E5E]); (0x16E7F, [0x16E5F]); (0x1E922, [0x1E900]);
    (0x1E923, [0x1E901]); (0x1E924, [0x1E902]); (0x1E925, [0x1E903]); (0x1E926, [0x1E904]);
    (0x1E927, [0x1E905]); (0x1E928, [0x1E906]); (0x1E929, [0x1E907]); (0x1E92A, [0x1E908]);
    (0x1E92B, [0x1E909]); (0x1E92C, [0x1E90A]); (0x1E92D, [0x1E90B]); (0x1E92E, [0x1E90C]);
    (0x1E92F, [0x1E90D]); (0x1E930, [0x1E90E]); (0x1E931, [0x1E90F]); (0x1E932, [0x1E910]);
    (0x1E933, [0x1E911]); (0x1E934, [0x1E912]); (0x1E935, [0x1E913]); (0x1E936, [0x1E914]);
    (0x1E937, [0x1E915]); (0x1E938, [0x1E916]); (0x1E939, [0x1E917]); (0x1E93A, [0x1E918]);
    (0x1E93B, [0x1E919]); (0x1E93C, [0x1E91A]); (0x1E93D, [0x1E91B]); (0x1E93E, [0x1E91C]);
    (0x1E93F, [0x1E91D]); (0x1E940, [0x1E91E]); (0x1E941, [0x1E91F]); (0x1E942, [0x1E920]);
    (0x1E943, [0x1E921])
  ]%N.

(** The code points with the property Cased. *)
Definition cased_ranges : list (N * N) :=
  [
    (0x41, 0x5A); (0x61, 0x7A); (0xAA, 0xAA); (0xB5, 0xB5); (0xBA, 0xBA); (0xC0, 0xD6);
    (0xD8, 0xF6); (0xF8, 0x1BA); (0x1BC, 0x1BF); (0x1C4, 0x293); (0x295, 0x2B8); (0x2C0, 0x2C1);
    (0x2E0, 0x2E4); (0x345, 0x345); (0x370, 0x373); (0x376, 0x377); (0x37A, 0x37D); (0x37F, 0x37F);
    (0x386, 0x386); (0x388, 0x38A); (0x38C, 0x38C); (0x38E, 0x3A1); (0x3A3, 0x3F5); (0x3F7, 0x481);
    (0x48A, 0x52F); (0x531, 0x556); (0x560, 0x588); (0x10A0, 0x10C5); (0x10C7, 0x10C7); (0x10CD, 0x10CD);
    (0x10D0, 0x10FA); (0x10FD, 0x10FF); (0x13A0, 0x13F5); (0x13F8, 0x13FD); (0x1C80, 0x1C88); (0x1C90, 0x1CBA);
    (0x1CBD, 0x1CBF); (0x1D00, 0x1DBF); (0x1E00, 0x1F15); (0x1F18, 0x1F1D); (0x1F20, 0x1F45); (0x1F48, 0x1F4D);
    (0x1F50, 0x1F57); (0x1F59, 0x1F59); (0x1F5B, 0x1F5B); (0x1F5D, 0x1F5D); (0x1F5F, 0x1F7D); (0x1F80, 0x1FB4);
    (0x1FB6, 0x1FBC); (0x1FBE, 0x1FBE); (0x1FC2, 0x1FC4); (0x1FC6, 0x1FCC); (0x1FD0, 0x1FD3); (0x1FD6, 0x1FDB);
    (0x1FE0, 0x1FEC); (0x1FF2, 0x1FF4); (0x1FF6, 0x1FFC); (0x2071, 0x2071); (0x207F, 0x207F); (0x2090, 0x209C);
    (0x2102, 0x2102); (0x2107, 0x2107); (0x210A, 0x2113); (0x2115, 0x2115); (0x2119, 0x211D); (0x2124, 0x2124);
    (0x2126, 0x2126); (0x2128, 0x2128); (0x212A, 0x212D); (0x212F, 0x2134); (0x2139, 0x2139); (0x213C, 0x213F);
    (0x2145, 0x2149); (0x214E, 0x214E); (0x2160, 0x217F); (0x2183, 0x2184); (0x24B6, 0x24E9); (0x2C00, 0x2CE4);
    (0x2CEB, 0x2CEE); (0x2CF2, 0x2CF3); (0x2D00, 0x2D25); (0x2D27, 0x2D27); (0x2D2D, 0x2D2D); (0xA640, 0xA66D);
    (0xA680, 0xA69D); (0xA722, 0xA787); (0xA78B, 0xA78E); (0xA790, 0xA7CA); (0xA7D0, 0xA7D1); (0xA7D3, 0xA7D3);
    (0xA7D5, 0xA7D9); (0xA7F5, 0xA7F6); (0xA7F8, 0xA7FA); (0xAB30, 0xAB5A); (0xAB5C, 0xAB68); (0xAB70, 0xABBF);
    (0xFB00, 0xFB06); (0xFB13, 0xFB17); (0xFF21, 0xFF3A); (0xFF41, 0xFF5A); (0x10400, 0x1044F); (0x104B0, 0x104D3);
    (0x104D8, 0x104FB); (0x10570, 0x1057A); (0x1057C, 0x1058A); (0x1058C, 0x10592); (0x10594, 0x10595); (0x10597, 0x105A1);
    (0x105A3, 0x105B1); (0x105B3, 0x105B9); (0x105BB, 0x105BC); (0x10780, 0x10780); (0x10783, 0x10785); (0x10787, 0x107B0);
    (0x107B2, 0x107BA); (0x10C80, 0x10CB2); (0x10CC0, 0x10CF2); (0x118A0, 0x118DF); (0x16E40, 0x16E7F); (0x1D400, 0x1D454);
    (0x1D456, 0x1D49C); (0x1D49E, 0x1D49F); (0x1D4A2, 0x1D4A2); (0x1D4A5, 0x1D4A6); (0x1D4A9, 0x1D4AC); (0x1D4AE, 0x1D4B9);
    (0x1D4BB, 0x1D4BB); (0x1D4BD, 0x1D4C3); (0x1D4C5, 0x1D505); (0x1D507, 0x1D50A); (0x1D50D, 0x1D514); (0x1D516, 0x1D51C);
    (0x1D51E, 0x1D539); (0x1D53B, 0x1D53E); (0x1D540, 0x1D544); (0x1D546, 0x1D546); (0x1D54A, 0x1D550); (0x1D552, 0x1D6A5);
    (0x1D6A8, 0x1D6C0); (0x1D6C2, 0x1D6DA); (0x1D6DC, 0x1D6FA); (0x1D6FC, 0x1D714); (0x1D716, 0x1D734); (0x1D736, 0x1D74E);
    (0x1D750, 0x1D76E); (0x1D770, 0x1D788); (0x1D78A, 0x1D7A8); (0x1D7AA, 0x1D7C2); (0x1D7C4, 0x1D7CB); (0x1DF00, 0x1DF09);
    (0x1DF0B, 0x1DF1E); (0x1E900, 0x1E943); (0x1F130, 0x1F149); (0x1F150, 0x1F169); (0x1F170, 0x1F189)
  ]%N.

(** The code points with the property Case_Ignorable. *)
Definition case_ignorable_ranges : list (N * N) :=
  [
    (0x27, 0x27); (0x2E, 0x2E); (0x3A, 0x3A); (0x5E, 0x5E); (0x60, 0x60); (0xA8, 0xA8);
    (0xAD, 0xAD); (0xAF, 0xAF); (0xB4, 0xB4); (0xB7, 0xB8); (0x2B0, 0x36F); (0x374, 0x375);
    (0x37A, 0x37A); (0x384, 0x385); (0x387, 0x387); (0x483, 0x489); (0x559, 0x559); (0x55F, 0x55F);
    (0x591, 0x5BD); (0x5BF, 0x5BF); (0x5C1, 0x5C2); (0x5C4, 0x5C5); (0x5C7, 0x5C7); (0x5F4, 0x5F4);
    (0x600, 0x605); (0x610, 0x61A); (0x61C, 0x61C); (0x640, 0x640); (0x64B, 0x65F); (0x670, 0x670);
    (0x6D6, 0x6DD); (0x6DF, 0x6E8); (0x6EA, 0x6ED); (0x70F, 0x70F); (0x711, 0x711); (0x730, 0x74A);
    (0x7A6, 0x7B0); (0x7EB, 0x7F5); (0x7FA, 0x7FA); (0x7FD, 0x7FD); (0x816, 0x82D); (0x859, 0x85B);
    (0x888, 0x888); (0x890, 0x891); (0x898, 0x89F); (0x8C9, 0x902); (0x93A, 0x93A); (0x93C, 0x93C);
    (0x941, 0x948); (0x94D, 0x94D); (0x951, 0x957); (0x962, 0x963); (0x971, 0x971); (0x981, 0x981);
    (0x9BC, 0x9BC); (0x9C1, 0x9C4); (0x9CD, 0x9CD); (0x9E2, 0x9E3); (0x9FE, 0x9FE); (0xA01, 0xA02);
    (0xA3C, 0xA3C); (0xA41, 0xA42); (0xA47, 0xA48); (0xA4B, 0xA4D); (0xA51, 0xA51); (0xA70, 0xA71);
    (0xA75, 0xA75); (0xA81, 0xA82); (0xABC, 0xABC); (0xAC1, 0xAC5); (0xAC7, 0xAC8); (0xACD, 0xACD);
    (0xAE2, 0xAE3); (0xAFA, 0xAFF); (0xB01, 0xB01); (0xB3C, 0xB3C); (0xB3F, 0xB3F); (0xB41, 0xB44);
    (0xB4D, 0xB4D); (0xB55, 0xB56); (0xB62, 0xB63); (0xB82, 0xB82); (0xBC0, 0xBC0); (0xBCD, 0xBCD);
    (0xC00, 0xC00); (0xC04, 0xC04); (0xC3C, 0xC3C); (0xC3E, 0xC40); (0xC46, 0xC48); (0xC4A, 0xC4D);
    (0xC55, 0xC56); (0xC62, 0xC63); (0xC81, 0xC81); (0xCBC, 0xCBC); (0xCBF, 0xCBF); (0xCC6, 0xCC6);
    (0xCCC, 0xCCD); (0xCE2, 0xCE3); (0xD00, 0xD01); (0xD3B, 0xD3C); (0xD41, 0xD44); (0xD4D, 0xD4D);
    (0xD62, 0xD63); (0xD81, 0xD81); (0xDCA, 0xDCA); (0xDD2, 0xDD4); (0xDD6, 0xDD6); (0xE31, 0xE31);
    (0xE34, 0xE3A); (0xE46, 0xE4E); (0xEB1, 0xEB1); (0xEB4, 0xEBC); (0xEC6, 0xEC6); (0xEC8, 0xECD);
    (0xF18, 0xF19); (0xF35, 0xF35); (0xF37, 0xF37); (0xF39, 0xF39); (0xF71, 0xF7E); (0xF80, 0xF84);
    (0xF86, 0xF87); (0xF8D, 0xF97); (0xF99, 0xFBC); (0xFC6, 0xFC6); (0x102D, 0x1030); (0x1032, 0x1037);
    (0x1039, 0x103A); (0x103D, 0x103E); (0x1058, 0x1059); (0x105E, 0x1060); (0x1071, 0x1074); (0x1082, 0x1082);
    (0x1085, 0x1086); (0x108D, 0x108D); (0x109D, 0x109D); (0x10FC, 0x10FC); (0x135D, 0x135F); (0x1712, 0x1714);
    (0x1732, 0x1733); (0x1752, 0x1753); (0x1772, 0x1773); (0x17B4, 0x17B5); (0x17B7, 0x17BD); (0x17C6, 0x17C6);
    (0x17C9, 0x17D3); (0x17D7, 0x17D7); (0x17DD, 0x17DD); (0x180B, 0x180F); (0x1843, 0x1843); (0x1885, 0x1886);
    (0x18A9, 0x18A9); (0x1920, 0x1922); (0x1927, 0x1928); (0x1932, 0x1932); (0x1939, 0x193B); (0x1A17, 0x1A18);
    (0x1A1B, 0x1A1B); (0x1A56, 0x1A56); (0x1A58, 0x1A5E); (0x1A60, 0x1A60); (0x1A62, 0x1A62); (0x1A65, 0x1A6C);
    (0x1A73, 0x1A7C); (0x1A7F, 0x1A7F); (0x1AA7, 0x1AA7); (0x1AB0, 0x1ACE); (0x1B00, 0x1B03); (0x1B34, 0x1B34);
    (0x1B36, 0x1B3A); (0x1B3C, 0x1B3C); (0x1B42, 0x1B42); (0x1B6B, 0x1B73); (0x1B80, 0x1B81); (0x1BA2, 0x1BA5);
    (0x1BA8, 0x1BA9); (0x1BAB, 0x1BAD); (0x1BE6, 0x1BE6); (0x1BE8, 0x1BE9); (0x1BED, 0x1BED); (0x1BEF, 0x1BF1);
    (0x1C2C, 0x1C33); (0x1C36, 0x1C37); (0x1C78, 0x1C7D); (0x1CD0, 0x1CD2); (0x1CD4, 0x1CE0); (0x1CE2, 0x1CE8);
    (0x1CED, 0x1CED); (0x1CF4, 0x1CF4); (0x1CF8, 0x1CF9); (0x1D2C, 0x1D6A); (0x1D78, 0x1D78); (0x1D9B, 0x1DFF);
    (0x1FBD, 0x1FBD); (0x1FBF, 0x1FC1); (0x1FCD, 0x1FCF); (0x1FDD, 0x1FDF); (0x1FED, 0x1FEF); (0x1FFD, 0x1FFE);
    (0x200B, 0x200F); (0x2018, 0x2019); (0x2024, 0x2024); (0x2027, 0x2027); (0x202A, 0x202E); (0x2060, 0x2064);
    (0x2066, 0x206F); (0x2071, 0x2071); (0x207F, 0x207F); (0x2090, 0x209C); (0x20D0, 0x20F0); (0x2C7C, 0x2C7D);
    (0x2CEF, 0x2CF1); (0x2D6F, 0x2D6F); (0x2D7F, 0x2D7F); (0x2DE0, 0x2DFF); (0x2E2F, 0x2E2F); (0x3005, 0x3005);
    (0x302A, 0x302D); (0x3031, 0x3035); (0x303B, 0x303B); (0x3099, 0x309E); (0x30FC, 0x30FE); (0xA015, 0xA015);
    (0xA4F8, 0xA4FD); (0xA60C, 0xA60C); (0xA66F, 0xA672); (0xA674, 0xA67D); (0xA67F, 0xA67F); (0xA69C, 0xA69F);
    (0xA6F0, 0xA6F1); (0xA700, 0xA721); (0xA770, 0xA770); (0xA788, 0xA78A); (0xA7F2, 0xA7F4); (0xA7F8, 0xA7F9);
    (0xA802, 0xA802); (0xA806, 0xA806); (0xA80B, 0xA80B); (0xA825, 0xA826); (0xA82C, 0xA82C); (0xA8C4, 0xA8C5);
    (0xA8E0, 0xA8F1); (0xA8FF, 0xA8FF); (0xA926, 0xA92D); (0xA947, 0xA951); (0xA980, 0xA982); (0xA9B3, 0xA9B3);
    (0xA9B6, 0xA9B9); (0xA9BC, 0xA9BD); (0xA9CF, 0xA9CF); (0xA9E5, 0xA9E6); (0xAA29, 0xAA2E); (0xAA31, 0xAA32);
    (0xAA35, 0xAA36); (0xAA43, 0xAA43); (0xAA4C, 0xAA4C); (0xAA70, 0xAA70); (0xAA7C, 0xAA7C); (0xAAB0, 0xAAB0);
    (0xAAB2, 0xAAB4); (0xAAB7, 0xAAB8); (0xAABE, 0xAABF); (0xAAC1, 0xAAC1); (0xAADD, 0xAADD); (0xAAEC, 0xAAED);
    (0xAAF3, 0xAAF4); (0xAAF6, 0xAAF6); (0xAB5B, 0xAB5F); (0xAB69, 0xAB6B); (0xABE5, 0xABE5); (0xABE8, 0xABE8);
    (0xABED, 0xABED); (0xFB1E, 0xFB1E); (0xFBB2, 0xFBC2); (0xFE00, 0xFE0F); (0xFE13, 0xFE13); (0xFE20, 0xFE2F);
    (0xFE52, 0xFE52); (0xFE55, 0xFE55); (0xFEFF, 0xFEFF); (0xFF07, 0xFF07); (0xFF0E, 0xFF0E); (0xFF1A, 0xFF1A);
    (0xFF3E, 0xFF3E); (0xFF40, 0xFF40); (0xFF70, 0xFF70); (0xFF9E, 0xFF9F); (0xFFE3, 0xFFE3); (0xFFF9, 0xFFFB);
    (0x101FD, 0x101FD); (0x102E0, 0x102E0); (0x10376, 0x1037A); (0x10780, 0x10785); (0x10787, 0x107B0); (0x107B2, 0x107BA);
    (0x10A01, 0x10A03); (0x10A05, 0x10A06); (0x10A0C, 0x10A0F); (0x10A38, 0x10A3A); (0x10A3F, 0x10A3F); (0x10AE5, 0x10AE6);
    (0x10D24, 0x10D27); (0x10EAB, 0x10EAC); (0x10F46, 0x10F50); (0x10F82, 0x10F85); (0x11001, 0x11001); (0x11038, 0x11046);
    (0x11070, 0x11070); (0x11073, 0x11074); (0x1107F, 0x11081); (0x110B3, 0x110B6); (0x110B9, 0x110BA); (0x110BD, 0x110BD);
    (0x110C2, 0x110C2); (0x110CD, 0x110CD); (0x11100, 0x11102); (0x11127, 0x1112B); (0x1112D, 0x11134); (0x11173, 0x11173);
    (0x11180, 0x11181); (0x111B6, 0x111BE); (0x111C9, 0x111CC); (0x111CF, 0x111CF); (0x1122F, 0x11231); (0x11234, 0x11234);
    (0x11236, 0x11237); (0x1123E, 0x1123E); (0x112DF, 0x112DF); (0x112E3, 0x112EA); (0x11300, 0x11301); (0x1133B, 0x1133C);
    (0x11340, 0x11340); (0x11366, 0x1136C); (0x11370, 0x11374); (0x11438, 0x1143F); (0x11442, 0x11444); (0x11446, 0x11446);
    (0x1145E, 0x1145E); (0x114B3, 0x114B8); (0x114BA, 0x114BA); (0x114BF, 0x114C0); (0x114C2, 0x114C3); (0x115B2, 0x115B5);
    (0x115BC, 0x115BD); (0x115BF, 0x115C0); (0x115DC, 0x115DD); (0x11633, 0x1163A); (0x1163D, 0x1163D); (0x1163F, 0x11640);
    (0x116AB, 0x116AB); (0x116AD, 0x116AD); (0x116B0, 0x116B5); (0x116B7, 0x116B7); (0x1171D, 0x1171F); (0x11722, 0x11725);
    (0x11727, 0x1172B); (0x1182F, 0x11837); (0x11839, 0x1183A); (0x1193B, 0x1193C); (0x1193E, 0x1193E); (0x11943, 0x11943);
    (0x119D4, 0x119D7); (0x119DA, 0x119DB); (0x119E0, 0x119E0); (0x11A01, 0x11A0A); (0x11A33, 0x11A38); (0x11A3B, 0x11A3E);
    (0x11A47, 0x11A47); (0x11A51, 0x11A56); (0x11A59, 0x11A5B); (0x11A8A, 0x11A96); (0x11A98, 0x11A99); (0x11C30, 0x11C36);
    (0x11C38, 0x11C3D); (0x11C3F, 0x11C3F); (0x11C92, 0x11CA7); (0x11CAA, 0x11CB0); (0x11CB2, 0x11CB3); (0x11CB5, 0x11CB6);
    (0x11D31, 0x11D36); (0x11D3A, 0x11D3A); (0x11D3C, 0x11D3D); (0x11D3F, 0x11D45); (0x11D47, 0x11D47); (0x11D90, 0x11D91);
    (0x11D95, 0x11D95); (0x11D97, 0x11D97); (0x11EF3, 0x11EF4); (0x13430, 0x13438); (0x16AF0, 0x16AF4); (0x16B30, 0x16B36);
    (0x16B40, 0x16B43); (0x16F4F, 0x16F4F); (0x16F8F, 0x16F9F); (0x16FE0, 0x16FE1); (0x16FE3, 0x16FE4); (0x1AFF0, 0x1AFF3);
    (0x1AFF5, 0x1AFFB); (0x1AFFD, 0x1AFFE); (0x1BC9D, 0x1BC9E); (0x1BCA0, 0x1BCA3); (0x1CF00, 0x1CF2D); (0x1CF30, 0x1CF46);
    (0x1D167, 0x1D169); (0x1D173, 0x1D182); (0x1D185, 0x1D18B); (0x1D1AA, 0x1D1AD); (0x1D242, 0x1D244); (0x1DA00, 0x1DA36);
    (0x1DA3B, 0x1DA6C); (0x1DA75, 0x1DA75); (0x1DA84, 0x1DA84); (0x1DA9B, 0x1DA9F); (0x1DAA1, 0x1DAAF); (0x1E000, 0x1E006);
    (0x1E008, 0x1E018); (0x1E01B, 0x1E021); (0x1E023, 0x1E024); (0x1E026, 0x1E02A); (0x1E130, 0x1E13D); (0x1E2AE, 0x1E2AE);
    (0x1E2EC, 0x1E2EF); (0x1E8D0, 0x1E8D6); (0x1E944, 0x1E94B); (0x1F3FB, 0x1F3FF); (0xE0001, 0xE0001); (0xE0020, 0xE007F);
    (0xE0100, 0xE01EF)
  ]%N.

(** [_PyUnicode_ToLowerFull] and [_PyUnicode_ToUpperFull]: the full case
    mapping of one code point, one to three code points. *)
Definition ToLowerFull (c : N) : list N :=
  match lookup lower_table c with
  | Some mapped => mapped
  | None => [c]
  end.

Definition ToUpperFull (c : N) : list N :=
  match lookup upper_table c with
  | Some mapped => mapped
  | None => [c]
  end.

(** [_PyUnicode_IsCased] and [_PyUnicode_IsCaseIgnorable]. *)
Definition IsCased (c : N) : bool := in_ranges cased_ranges c.
Definition IsCaseIgnorable (c : N) : bool := in_ranges case_ignorable_ranges c.

End Unicode.

(** ** Python string operations used by the bot *)

Module PyStr.

(** [ascii_upper_or_lower] on one byte: [A]..[Z] move to [a]..[z]. *)
Definition lower_char (c : ascii) : ascii :=
  let n := nat_of_ascii c in
  if ((65 <=? n) && (n <=? 90))%nat then ascii_of_nat (n + 32) else c.

(** [ascii_upper_or_lower] on one byte: [a]..[z] move to [A]..[Z]. *)
Definition upper_char (c : ascii) : ascii :=
  let n := nat_of_ascii c in
  if ((97 <=? n) && (n <=? 122))%nat then ascii_of_nat (n - 32) else c.

Fixpoint map_chars (f : ascii -> ascii) (s : string) : string :=
  match s with
  | EmptyString => EmptyString
  | String c s' => String (f c) (map_chars f s')
  end.

(** [PyUnicode_IS_ASCII]. *)
Fixpoint is_ascii (s : string) : bool :=
  match s with
  | EmptyString => true
  | String c s' => (N_of_ascii c <? 0x80)%N && is_ascii s'
  end.

(** The first code point that is not case-ignorable, and what follows. *)
Fixpoint skip_case_ignorable (data : list N) : list N :=
  match data with
  | [] => []
  | c :: rest => if Unicode.IsCaseIgnorable c then skip_case_ignorable rest else data
  end.

(** [handle_capital_sigma]: U+03A3 becomes the final sigma U+03C2 when a
    cased letter precedes it, case-ignorable code points apart, and none
    follows it; otherwise U+03C3.  [before] lists the code points before
    the sigma, the nearest first. *)
Definition handle_capital_sigma (before after : list N) : N :=
  let final_sigma :=
    match skip_case_ignorable before with
    | c :: _ => Unicode.IsCased c
    | [] => false
    end in
  let final_sigma :=
    if final_sigma then
      match skip_case_ignorable after with
      | [] => true
      | c :: _ => negb (Unicode.IsCased c)
      end
    else false in
  if final_sigma then 0x3C2%N else 0x3C3%N.

(** [lower_ucs4]. *)
Definition lower_ucs4 (before : list N) (c : N) (after : list N) : list N :=
  if (c =? 0x3A3)%N then [handle_capital_sigma before after]
  else Unicode.ToLowerFull c.

(** [do_lower] and [do_upper]: the loops of [do_upper_or_lower]. *)
Fixpoint do_lower_from (before data : list N) : list N :=
  match data with
  | [] => []
  | c :: rest => lower_ucs4 before c rest ++ do_lower_from (c :: before) rest
  end.
Definition do_lower (data : list N) : list N := do_lower_from [] data.

Fixpoint do_upper (data : list N) : list N :=
  match data with
  | [] => []
  | c :: rest => Unicode.ToUpperFull c ++ do_upper rest
  end.

(** [case_operation]: the conversion applied to the code points.  A
    [string] that is the encoding of no [str] is left as it is. *)
Definition case_operation (perform : list N -> list N) (s : string) : string :=
  match Utf8.decode s with
  | Some data => Utf8.encode (perform data)
  | None => s
  end.

(** [s.lower()] and [s.upper()]: an ASCII string is converted byte by
    byte, any other through the Unicode database. *)
Definition lower (s : string) : string :=
  if is_ascii s then map_chars lower_char s else case_operation do_lower s.
Definition upper (s : string) : string :=
  if is_ascii s then map_chars upper_char s else case_operation do_upper s.

(** [s.startswith(p)]. *)
Fixpoint startswith (p s : string) : bool :=
  match p, s with
  | EmptyString, _ => true
  | String _ _, EmptyString => false
  | String a p', String b s' => Ascii.eqb a b && startswith p' s'
  end.

(** [sub in s]: substring containment. *)
Fixpoint str_in (sub s : string) : bool :=
  startswith sub s ||
  match s with
  | EmptyString => false
  | String _ s' => str_in sub s'
  end.

(** [s.split(sep)] for a one-character separator: never the empty list. *)
Fixpoint split (sep : ascii) (s : string) : list string :=
  match s with
  | EmptyString => [EmptyString]
  | String c s' =>
      if Ascii.eqb c sep then EmptyString :: split sep s'
      else match split sep s' with
           | [] => [String c EmptyString]
           | piece :: rest => String c piece :: rest
           end
  end.

(** [x or default] for an optional string: [None] and the empty string are falsy. *)
Definition or_default (x : option string) (default : string) : string :=
  match x with
  | None => default
  | Some EmptyString => default
  | Some s => s
  end.

(** [x in l] for a list of strings. *)
Definition in_list (x : string) (l : list string) : bool :=
  existsb (String.eqb x) l.

(** [s.rstrip(c)] for a one-character set: every trailing [c] is removed. *)
Fixpoint rstrip (c : ascii) (s : string) : string :=
  match s with
  | EmptyString => EmptyString
  | String a s' =>
      match rstrip c s' with
      | EmptyString => if Ascii.eqb a c then EmptyString else String a EmptyString
      | r => String a r
      end
  end.

(** [not s] for an optional string. *)
Definition falsy (x : option string) : bool :=
  match x with
  | None => true
  | Some EmptyString => true
  | Some _ => false
  end.

End PyStr.

(** ** The MIME classifier *)

Definition VIDEO_MIMES : list string :=
  [ "video/mp4"; "video/x-matroska"; "video/quicktime"; "video/mpeg";
    "video/webm"; "video/x-msvideo" ].
Definition DOCUMENT_MIMES : list string :=
  [ "application/pdf"; "application/zip"; "text/plain" ].
Definition IMAGE_MIMES : list string :=
  [ "image/jpeg"; "image/png"; "image/gif" ].

Definition get_file_type_hint (mime_type : string) : string :=
  if PyStr.in_list mime_type VIDEO_MIMES then "Video (MP4/MKV/Other)"
  else if PyStr.in_list mime_type DOCUMENT_MIMES then "Document (PDF/ZIP/Text)"
  else if PyStr.in_list mime_type IMAGE_MIMES then "Image"
  else if PyStr.str_in "/" mime_type
       then PyStr.upper (last (PyStr.split "/" mime_type) EmptyString)
       else "Other File".


(** ** The in-memory dictionary *)

Module PyDict.

Section Dict.
Variable V : Type.

(** A [dict] with string keys, as the sequence of its items in
    iteration order. *)
Definition t := list (string * V).

Definition empty : t := [].

(** [d[k] = v]: a key already present keeps its position. *)
Fixpoint set (d : t) (k : string) (v : V) : t :=
  match d with
  | [] => [(k, v)]
  | (k', v') :: rest =>
      if String.eqb k' k then (k', v) :: rest
      else (k', v') :: set rest k v
  end.

(** [d.get(k)]. *)
Fixpoint get (d : t) (k : string) : option V :=
  match d with
  | [] => None
  | (k', v') :: rest => if String.eqb k' k then Some v' else get rest k
  end.

(** [d.items()], [d.keys()] and [d.values()]. *)
Definition items (d : t) : list (string * V) := d.
Definition keys (d : t) : list string := map fst d.
Definition values (d : t) : list V := map snd d.

(** How many items are stored under [k]. *)
Definition count (d : t) (k : string) : nat :=
  List.length (filter (fun item => String.eqb (fst item) k) d).

(** A dictionary holds each key once. *)
Definition wf (d : t) : Prop := NoDup (keys d).
End Dict.

Arguments empty {V}.
Arguments set {V} d k v.
Arguments get {V} d k.
Arguments items {V} d.
Arguments keys {V} d.
Arguments values {V} d.
Arguments count {V} d k.
Arguments wf {V} d.

End PyDict.

(** ** Inbound events *)

Module Telegram.

(** The [document], [video] or [audio] object of a message. *)
Record Attachment : Type := mkAttachment {
  file_id : string;
  file_unique_id : string;
  file_name : option string;
  mime_type : option string
}.

(** The parts of [update.effective_message] that [handle_file] reads. *)
Record Message : Type := mkMessage {
  from_user_id : Z;
  document : option Attachment;
  video : option Attachment;
  audio : option Attachment
}.

End Telegram.

(** ** Stored records and replies *)

(** The value stored under a file id in [FILE_DATABASE]. *)
Record FileData : Type := mkFileData {
  file_name : string;
  mime_type : string;
  user_id : Z;
  type_hint : string;
  file_unique_id : string
}.

Definition Database := PyDict.t FileData.

(** [FILE_DATABASE = {}] at start-up. *)
Definition FILE_DATABASE : Database := PyDict.empty.

(** The messages the handlers send.  [reply_indexed] is the confirmation of
    [handle_file]; [reply_no_files] and [reply_found] are the two answers
    of [search_files]: [reply_found] carries [len(results)], the query, the
    numbered lines of [results[:5]] and the count of the "and N more"
    trailer when there is one. *)
Inductive Reply : Type :=
| reply_text (text : string)
| reply_indexed (name hint mime fid : string)
| reply_no_files (query : string)
| reply_found (total : nat) (query : string)
              (lines : list (nat * FileData)) (more : option nat).

Definition NO_FILE_TEXT : string :=
  "I received a message, but it didn't contain a file I know how to process.".
Definition NO_KEYWORD_TEXT : string :=
  "Please provide a search keyword after the command, e.g., /search movie.".

(** ** [handle_file] *)

(** The [if message.document: ... elif message.video: ... elif
    message.audio: ...] chain: the chosen [file_obj] with the [file_name]
    and [mime_type] bound in its branch. *)
Definition select_file (message : Telegram.Message)
  : option (Telegram.Attachment * string * string) :=
  match Telegram.document message with
  | Some file_obj =>
      Some (file_obj,
            PyStr.or_default (Telegram.file_name file_obj) "Unnamed Document",
            PyStr.or_default (Telegram.mime_type file_obj) "application/octet-stream")
  | None =>
  match Telegram.video message with
  | Some file_obj =>
      Some (file_obj,
            PyStr.or_default (Telegram.file_name file_obj) "Unnamed Video",
            PyStr.or_default (Telegram.mime_type file_obj) "video/mp4")
  | None =>
  match Telegram.audio message with
  | Some file_obj =>
      Some (file_obj,
            PyStr.or_default (Telegram.file_name file_obj) "Unnamed Audio",
            PyStr.or_default (Telegram.mime_type file_obj) "audio/mpeg")
  | None => None
  end end end.

Definition handle_file (message : Telegram.Message) (db : Database)
  : Reply * Database :=
  let user_id := Telegram.from_user_id message in
  match select_file message with
  | Some (file_obj, file_name, mime_type) =>
      let file_id := Telegram.file_id file_obj in
      let type_hint := get_file_type_hint mime_type in
      let db' :=
        PyDict.set db file_id
          {| file_name := file_name;
             mime_type := mime_type;
             user_id := user_id;
             type_hint := type_hint;
             file_unique_id := Telegram.file_unique_id file_obj |} in
      (reply_indexed file_name type_hint mime_type file_id, db')
  | None => (reply_text NO_FILE_TEXT, db)
  end.

(** ** [search_files] *)

(** [" ".join(context.args).lower()]. *)
Definition query_of_args (args : list string) : string :=
  PyStr.lower (String.concat " " args).

(** The test of the scanning loop on one stored value. *)
Definition matches (uid : Z) (query : string) (data : FileData) : bool :=
  Z.eqb (user_id data) uid && PyStr.str_in query (PyStr.lower (file_name data)).

(** The loop over [FILE_DATABASE.items()] that appends to [results]. *)
Definition scan (db : Database) (uid : Z) (query : string) : list FileData :=
  fold_left
    (fun results item =>
       let '(file_id, data) := item in
       if matches uid query data then results ++ [data] else results)
    (PyDict.items db) [].

(** [enumerate(l)]. *)
Fixpoint enumerate_from {A : Type} (start : nat) (l : list A) : list (nat * A) :=
  match l with
  | [] => []
  | x :: l' => (start, x) :: enumerate_from (S start) l'
  end.
Definition enumerate {A : Type} (l : list A) : list (nat * A) := enumerate_from 0 l.

Definition search_files (uid : Z) (args : list string) (db : Database)
  : Reply * Database :=
  match args with
  | [] => (reply_text NO_KEYWORD_TEXT, db)
  | _ :: _ =>
      let query := query_of_args args in
      let results := scan db uid query in
      match results with
      | [] => (reply_no_files query, db)
      | _ :: _ =>
          let lines :=
            map (fun '(i, data) => (i + 1, data)) (enumerate (firstn 5 results)) in
          let more :=
            if (5 <? List.length results)%nat then Some (List.length results - 5)
            else None in
          (reply_found (List.length results) query lines more, db)
      end
  end.

(** The records a reply lists, and the number of matches it reports. *)
Definition reply_records (r : Reply) : list FileData :=
  match r with
  | reply_found _ _ lines _ => map snd lines
  | _ => []
  end.

Definition reply_total (r : Reply) : option nat :=
  match r with
  | reply_found total _ _ _ => Some total
  | reply_no_files _ => Some 0
  | _ => None
  end.

(** ** Runs of the bot *)

Inductive Event : Type :=
| Upload (message : Telegram.Message)
| SearchCommand (uid : Z) (args : list string).

Definition step (db : Database) (e : Event) : Database :=
  match e with
  | Upload message => snd (handle_file message db)
  | SearchCommand uid args => snd (search_files uid args db)
  end.

Definition run (events : list Event) : Database :=
  fold_left step events FILE_DATABASE.

(** ** The classifier as the specification words it *)

Module ClassifySpec.

Definition video_set : list string := VIDEO_MIMES.
Definition document_set : list string := DOCUMENT_MIMES.
Definition image_set : list string := IMAGE_MIMES.

(** Whether [c] occurs in [s]. *)
Fixpoint contains_char (c : ascii) (s : string) : bool :=
  match s with
  | EmptyString => false
  | String a s' => Ascii.eqb a c || contains_char c s'
  end.

(** Position of the last occurrence of [c] in [s]. *)
Fixpoint last_index (c : ascii) (s : string) : option nat :=
  match s with
  | EmptyString => None
  | String a s' =>
      match last_index c s' with
      | Some i => Some (S i)
      | None => if Ascii.eqb a c then Some 0 else None
      end
  end.

(** The substring after the last occurrence of [c]. *)
Definition after_last (c : ascii) (s : string) : string :=
  match last_index c s with
  | Some i => substring (S i) (String.length s - S i) s
  | None => s
  end.

(** The text upper-cased: every character replaced by its upper-case
    mapping in the Unicode database. *)
Definition uppercase (s : string) : string :=
  match Utf8.decode s with
  | Some points => Utf8.encode (flat_map Unicode.ToUpperFull points)
  | None => s
  end.

Definition classify (m : string) : string :=
  if in_dec string_dec m video_set then "Video (MP4/MKV/Other)"
  else if in_dec string_dec m document_set then "Document (PDF/ZIP/Text)"
  else if in_dec string_dec m image_set then "Image"
  else if contains_char "/" m then uppercase (after_last "/" m)
  else "Other File".

End ClassifySpec.

(** ** [set_webhook] *)

(** The calls made on [application.bot]. *)
Inductive BotCall : Type :=
| bot_delete_webhook
| bot_set_webhook (url : string).

Definition NOT_SET_TEXT : string := "WEBHOOK_URL environment variable is not set.".
Definition FAILED_TEXT : string := "Failed to set webhook.".
Definition SET_PREFIX : string := "Webhook successfully set to: ".

(** [full_webhook_url = WEBHOOK_URL.rstrip('/') + "/" + TELEGRAM_TOKEN]. *)
Definition full_webhook_url (url token : string) : string :=
  let webhook_path := ("/" ++ token)%string in
  (PyStr.rstrip "/" url ++ webhook_path)%string.

(** The route handler: the two environment values, the answer the bot API
    gives to [set_webhook(url=...)]; the result is the response body with
    its status code, and the bot calls made, in order. *)
Definition set_webhook (WEBHOOK_URL : option string) (TELEGRAM_TOKEN : string)
           (bot_answer : string -> bool) : (string * nat) * list BotCall :=
  if PyStr.falsy WEBHOOK_URL then ((NOT_SET_TEXT, 500), [])
  else
    let url := match WEBHOOK_URL with Some u => u | None => EmptyString end in
    let full := full_webhook_url url TELEGRAM_TOKEN in
    let calls := [bot_delete_webhook; bot_set_webhook full] in
    if bot_answer full then ((SET_PREFIX ++ full)%string, 200, calls)
    else ((FAILED_TEXT, 500), calls).

(** ** Vocabulary of the statements *)

(** [n] slashes. *)
Fixpoint slashes (n : nat) : string :=
  match n with
  | O => EmptyString
  | S n' => String "/" (slashes n')
  end.

(** Whether [s] ends with the character [c]. *)
Fixpoint ends_with_char (c : ascii) (s : string) : bool :=
  match s with
  | EmptyString => false
  | String a EmptyString => Ascii.eqb a c
  | String _ s' => ends_with_char c s'
  end.


(** The uploads among the events of a run. *)
Definition is_upload (e : Event) : bool :=
  match e with
  | Upload _ => true
  | SearchCommand _ _ => false
  end.
Definition uploads (events : list Event) : nat :=
  List.length (filter is_upload events).

(** The count of the "and N more" trailer, [0] without one. *)
Definition more_count (more : option nat) : nat :=
  match more with
  | Some n => n
  | None => 0
  end.

(** [b] is the upper-case or the lower-case form of [a]: the one code
    point of its upper-case or of its lower-case mapping. *)
Definition case_form (a b : N) : bool :=
  match Unicode.ToUpperFull a with
  | [u] => N.eqb u b
  | _ => false
  end
  || match Unicode.ToLowerFull a with
     | [l] => N.eqb l b
     | _ => false
     end.

(** Two characters that are equal or of which one is the upper-case or
    lower-case form of the other. *)
Definition case_variant_char (a b : N) : bool :=
  N.eqb a b || case_form a b || case_form b a.

Fixpoint case_variant_points (q q' : list N) : bool :=
  match q, q' with
  | [], [] => true
  | a :: s, b :: s' => case_variant_char a b && case_variant_points s s'
  | _, _ => false
  end.

(** Two strings that differ only in letter case: the same number of
    characters, and position by position the same character up to case. *)
Definition case_variant (q q' : string) : bool :=
  match Utf8.decode q, Utf8.decode q' with
  | Some points, Some points' => case_variant_points points points'
  | _, _ => String.eqb q q'
  end.

(** The code points of an ASCII string. *)
Definition ascii_points (s : string) : list N :=
  map N_of_ascii (list_ascii_of_string s).

(** The character U+017F, the long s, whose upper-case form is [S]. *)
Definition LONG_S : string := Utf8.encode [0x17F%N].

(** U+00C9 and U+00E9, the capital and the small e with acute accent;
    U+00DF, the sharp s; the Greek word U+039F U+0394 U+039F U+03A3 in
    capitals, and in small letters with the final sigma U+03C2. *)
Definition E_ACUTE_CAPITAL : string := Utf8.encode [0xC9%N].
Definition E_ACUTE_SMALL : string := Utf8.encode [0xE9%N].
Definition SHARP_S : string := Utf8.encode [0xDF%N].
Definition ODOS_CAPITALS : string := Utf8.encode [0x39F; 0x394; 0x39F; 0x3A3]%N.
Definition ODOS_SMALL : string := Utf8.encode [0x3BF; 0x3B4; 0x3BF; 0x3C2]%N.

(** Every character, for checks by enumeration. *)
Definition all_chars : list ascii := map ascii_of_nat (seq 0 256).

(** The record [handle_file] builds for the chosen attachment. *)
Definition stored_record (uid : Z) (file_obj : Telegram.Attachment)
           (name mime : string) : FileData :=
  {| file_name := name;
     mime_type := mime;
     user_id := uid;
     type_hint := get_file_type_hint mime;
     file_unique_id := Telegram.file_unique_id file_obj |}.

(** [P] holds of every value stored in [db]. *)
Definition all_values (P : FileData -> Prop) (db : Database) : Prop :=
  Forall (fun item => P (snd item)) db.

(** What the stored record [rec] owes to the attachment [att]: absent
    metadata is filled with the variant's placeholder and default,
    declared non-empty metadata is kept. *)
Definition resolved (att : Telegram.Attachment) (placeholder default_mime : string)
           (rec : FileData) : Prop :=
  (Telegram.file_name att = None -> file_name rec = placeholder) /\
  (forall s, Telegram.file_name att = Some s -> s <> EmptyString ->
             file_name rec = s) /\
  (Telegram.mime_type att = None -> mime_type rec = default_mime) /\
  (forall s, Telegram.mime_type att = Some s -> s <> EmptyString ->
             mime_type rec = s) /\
  file_unique_id rec = Telegram.file_unique_id att.

(** The empty string counts as absent. *)
Definition empty_as_absent (att : Telegram.Attachment)
           (placeholder default_mime : string) (rec : FileData) : Prop :=
  (Telegram.file_name att = Some EmptyString -> file_name rec = placeholder) /\
  (Telegram.mime_type att = Some EmptyString -> mime_type rec = default_mime).

(** The index invariants on one stored value. *)
Definition hint_consistent (data : FileData) : Prop :=
  type_hint data = get_file_type_hint (mime_type data).
Definition named_and_typed (data : FileData) : Prop :=
  file_name data <> EmptyString /\ mime_type data <> EmptyString.

(** ** Sample data *)

Definition sample_file (name : string) (owner : Z) : FileData :=
  {| file_name := name; mime_type := "video/mp4"; user_id := owner;
     type_hint := "Video (MP4/MKV/Other)"; file_unique_id := "u" |}.

(** Seven records of owner [1] whose names contain [x], and one of owner [2]. *)
Definition seven_matches : Database :=
  [ ("f1", sample_file "x1.mp4" 1); ("f2", sample_file "aXb.mp4" 1);
    ("g1", sample_file "x-other.mp4" 2); ("f3", sample_file "x3.mp4" 1);
    ("f4", sample_file "x4.mp4" 1); ("f5", sample_file "x5.mp4" 1);
    ("f6", sample_file "x6.mp4" 1); ("f7", sample_file "x7.mp4" 1) ].

Definition report_pdf : Telegram.Attachment :=
  Telegram.mkAttachment "id1" "uq1" (Some "Report_2024.pdf") (Some "application/pdf").
Definition bare_file : Telegram.Attachment :=
  Telegram.mkAttachment "id2" "uq2" None None.
Definition empty_file : Telegram.Attachment :=
  Telegram.mkAttachment "id3" "uq3" (Some EmptyString) (Some EmptyString).

Definition report_again : Telegram.Attachment :=
  Telegram.mkAttachment "id1" "uq9" None (Some "video/webm").

Definition movie_index : Database :=
  [ ("m1", sample_file "My Movie.mkv" 1); ("m2", sample_file "notes.txt" 1);
    ("m3", sample_file "MOVIE night.mp4" 1); ("m4", sample_file "movie.mp4" 2) ].

(** An index with one file of owner [1] whose name starts with U+017F. *)
Definition long_s_index : Database :=
  [ ("f1", sample_file (LONG_S ++ "ample.txt")%string 1) ].

(** ** Worked examples *)

Example hint_custom : get_file_type_hint "application/x-custom" = "X-CUSTOM".
Proof. reflexivity. Qed.
Example hint_pdf : get_file_type_hint "application/pdf" = "Document (PDF/ZIP/Text)".
Proof. reflexivity. Qed.
Example hint_empty : get_file_type_hint EmptyString = "Other File".
Proof. reflexivity. Qed.
Example hint_accented_subtype :
  get_file_type_hint ("x/" ++ E_ACUTE_SMALL)%string = E_ACUTE_CAPITAL.
Proof. reflexivity. Qed.
Example upper_sharp_s :
  PyStr.upper ("stra" ++ SHARP_S ++ "e")%string = "STRASSE".
Proof. reflexivity. Qed.
Example lower_accented :
  PyStr.lower (E_ACUTE_CAPITAL ++ "COLE.pdf")%string
  = (E_ACUTE_SMALL ++ "cole.pdf")%string.
Proof. reflexivity. Qed.
Example lower_final_sigma : PyStr.lower ODOS_CAPITALS = ODOS_SMALL.
Proof. reflexivity. Qed.
Example hint_trailing_slash : get_file_type_hint "a/b/" = EmptyString.
Proof. reflexivity. Qed.

(** ** Facts about the string operations *)

Lemma in_list_In (x : string) (l : list string) :
  PyStr.in_list x l = true <-> In x l.
Proof.
  unfold PyStr.in_list. rewrite existsb_exists. split.
  - intros [y [Hy Heq]]. apply String.eqb_eq in Heq. now subst.
  - intros H. exists x. split; [assumption | apply String.eqb_refl].
Qed.

Lemma in_list_in_dec (x : string) (l : list string) :
  PyStr.in_list x l = if in_dec string_dec x l then true else false.
Proof.
  destruct (in_dec string_dec x l) as [H | H].
  - now apply in_list_In.
  - destruct (PyStr.in_list x l) eqn:E; [| reflexivity].
    apply in_list_In in E. contradiction.
Qed.

Lemma startswith_empty (s : string) : PyStr.startswith EmptyString s = true.
Proof. destruct s; reflexivity. Qed.

Lemma str_in_char (c : ascii) (s : string) :
  PyStr.str_in (String c EmptyString) s = ClassifySpec.contains_char c s.
Proof.
  induction s as [| a s IH]; [reflexivity |].
  change (PyStr.str_in (String c EmptyString) (String a s))
    with ((Ascii.eqb c a && PyStr.startswith EmptyString s)
          || PyStr.str_in (String c EmptyString) s).
  cbn [ClassifySpec.contains_char].
  rewrite startswith_empty, andb_true_r, IH, Ascii.eqb_sym. reflexivity.
Qed.

Lemma split_not_nil (c : ascii) (s : string) : PyStr.split c s <> [].
Proof.
  destruct s as [| a s]; cbn; [discriminate |].
  destruct (Ascii.eqb a c); [discriminate |].
  destruct (PyStr.split c s); discriminate.
Qed.

Lemma split_no_sep (c : ascii) (s : string) :
  ClassifySpec.last_index c s = None -> PyStr.split c s = [s].
Proof.
  induction s as [| a s IH]; cbn; [reflexivity |].
  destruct (ClassifySpec.last_index c s); [discriminate |].
  destruct (Ascii.eqb a c); [discriminate |].
  intros _. now rewrite IH.
Qed.

Lemma split_single (c : ascii) (s h : string) :
  PyStr.split c s = [h] -> ClassifySpec.last_index c s = None.
Proof.
  revert h. induction s as [| a s IH]; cbn; intros h H; [reflexivity |].
  destruct (Ascii.eqb a c) eqn:E.
  - injection H as _ Hnil. exfalso. exact (split_not_nil c s Hnil).
  - destruct (PyStr.split c s) as [| h' t'] eqn:Hs.
    + exfalso. exact (split_not_nil c s Hs).
    + injection H as _ Ht. subst t'. now rewrite (IH h' eq_refl).
Qed.

Lemma substring_all (s : string) : substring 0 (String.length s) s = s.
Proof. induction s as [| a s IH]; cbn; [reflexivity | now rewrite IH]. Qed.

Lemma last_cons_not_nil {A : Type} (x : A) (l : list A) (d : A) :
  l <> [] -> last (x :: l) d = last l d.
Proof. destruct l; [congruence | reflexivity]. Qed.

(** The last piece of [s.split(c)] is the text after the last [c]. *)
Lemma split_last (c : ascii) (s : string) :
  last (PyStr.split c s) EmptyString = ClassifySpec.after_last c s.
Proof.
  unfold ClassifySpec.after_last.
  induction s as [| a s IH]; [reflexivity |].
  cbn [PyStr.split ClassifySpec.last_index].
  destruct (ClassifySpec.last_index c s) as [i |] eqn:Hi.
  - cbn [String.length substring]. rewrite Nat.sub_succ, <- IH.
    destruct (Ascii.eqb a c).
    + apply last_cons_not_nil, split_not_nil.
    + pose proof (split_not_nil c s) as Hne.
      destruct (PyStr.split c s) as [| h t] eqn:Hs; [congruence |].
      destruct t as [| x t].
      * rewrite (split_single c s h Hs) in Hi. discriminate.
      * reflexivity.
  - rewrite (split_no_sep c s Hi).
    destruct (Ascii.eqb a c).
    + cbn. rewrite Nat.sub_0_r. symmetry. apply substring_all.
    + reflexivity.
Qed.

(** [after_last] returns the tail that follows the final separator. *)
Lemma after_last_app (c : ascii) (p t : string) :
  ClassifySpec.contains_char c t = false ->
  ClassifySpec.after_last c (p ++ String c t) = t.
Proof.
  intros Ht.
  assert (Hnone : ClassifySpec.last_index c t = None).
  { induction t as [| a t IH]; [reflexivity |]. cbn in *.
    apply orb_false_iff in Ht as [Ha Ht]. now rewrite (IH Ht), Ha. }
  assert (Hidx : ClassifySpec.last_index c (p ++ String c t)
                 = Some (String.length p)).
  { induction p as [| a p IH]; cbn.
    - now rewrite Hnone, Ascii.eqb_refl.
    - now rewrite IH. }
  unfold ClassifySpec.after_last. rewrite Hidx. clear Hidx Hnone Ht.
  induction p as [| a p IH]; cbn.
  - rewrite Nat.sub_0_r. apply substring_all.
  - exact IH.
Qed.

(** *** Letter case *)

Lemma in_all_chars (a : ascii) : In a all_chars.
Proof.
  unfold all_chars. rewrite <- (ascii_nat_embedding a).
  apply in_map, in_seq. pose proof (nat_ascii_bounded a). lia.
Qed.

(** Decoding and encoding of ASCII text. *)
Lemma decode_cons_ascii (b : ascii) (s : string) :
  (N_of_ascii b <? 0x80)%N = true ->
  Utf8.decode (String b s) = option_map (cons (N_of_ascii b)) (Utf8.decode s).
Proof. intros H. cbn [Utf8.decode]. now rewrite H. Qed.

Lemma decode_ascii (s : string) :
  PyStr.is_ascii s = true -> Utf8.decode s = Some (ascii_points s).
Proof.
  induction s as [| a s IH]; [reflexivity |].
  cbn [PyStr.is_ascii]. intros H. apply andb_true_iff in H as [Ha Hs].
  now rewrite (decode_cons_ascii a s Ha), (IH Hs).
Qed.

Lemma encode_char_ascii (a : ascii) :
  (N_of_ascii a <? 0x80)%N = true ->
  Utf8.encode_char (N_of_ascii a) = String a EmptyString.
Proof. intros H. unfold Utf8.encode_char. now rewrite H, ascii_N_embedding. Qed.

Lemma encode_char_not_empty (c : N) : Utf8.encode_char c <> EmptyString.
Proof.
  unfold Utf8.encode_char.
  destruct (c <? 0x80)%N; [discriminate |].
  destruct (c <? 0x800)%N; [discriminate |].
  destruct (c <? 0x10000)%N; discriminate.
Qed.

Lemma encode_empty (points : list N) :
  Utf8.encode points = EmptyString -> points = [].
Proof.
  destruct points as [| c points]; [reflexivity |]. cbn [Utf8.encode].
  pose proof (encode_char_not_empty c) as Hc.
  destruct (Utf8.encode_char c); [congruence | discriminate].
Qed.

Lemma decode_empty (s : string) : Utf8.decode s = Some [] -> s = EmptyString.
Proof.
  destruct s as [| b0 s1]; [reflexivity |]. cbn [Utf8.decode].
  repeat match goal with
         | |- context [if ?c then _ else _] => destruct c
         | |- context [match ?x with EmptyString => _ | String _ _ => _ end] =>
             destruct x
         | |- context [option_map _ ?o] => destruct o; cbn [option_map]
         end; discriminate.
Qed.

(** The tables. *)
Lemma lookup_In (table : list (N * list N)) (c : N) (mapped : list N) :
  Unicode.lookup table c = Some mapped -> In (c, mapped) table.
Proof.
  induction table as [| [k v] table IH]; cbn; [discriminate |].
  destruct (k =? c)%N eqn:E.
  - intros H. injection H as ->. apply N.eqb_eq in E. subst k. now left.
  - destruct (c <? k)%N; [discriminate |]. intros H. right. now apply IH.
Qed.

Lemma lower_table_not_empty :
  forallb (fun entry => match snd entry with [] => false | _ => true end)
          Unicode.lower_table = true.
Proof. vm_compute. reflexivity. Qed.

Lemma ToLowerFull_not_empty (c : N) : Unicode.ToLowerFull c <> [].
Proof.
  unfold Unicode.ToLowerFull.
  destruct (Unicode.lookup Unicode.lower_table c) as [mapped |] eqn:E;
    [| discriminate].
  apply lookup_In in E. pose proof lower_table_not_empty as H.
  rewrite forallb_forall in H. specialize (H _ E). cbn in H.
  destruct mapped; [discriminate H | discriminate].
Qed.

Lemma do_lower_from_empty (before data : list N) :
  PyStr.do_lower_from before data = [] -> data = [].
Proof.
  destruct data as [| c rest]; [reflexivity |]. cbn [PyStr.do_lower_from].
  intros H. apply app_eq_nil in H as [H _]. exfalso.
  unfold PyStr.lower_ucs4 in H. destruct (c =? 0x3A3)%N; [discriminate H |].
  exact (ToLowerFull_not_empty c H).
Qed.

(** On ASCII text the two conversions are the byte-wise ones. *)
Lemma lower_ascii (s : string) :
  PyStr.is_ascii s = true -> PyStr.lower s = PyStr.map_chars PyStr.lower_char s.
Proof. intros H. unfold PyStr.lower. now rewrite H. Qed.


Lemma lower_char_variant_all :
  forallb (fun a =>
    forallb (fun b =>
      implb ((N_of_ascii a <? 0x80)%N && (N_of_ascii b <? 0x80)%N
             && case_variant_char (N_of_ascii a) (N_of_ascii b))
            (Ascii.eqb (PyStr.lower_char a) (PyStr.lower_char b)))
      all_chars) all_chars = true.
Proof. vm_compute. reflexivity. Qed.

Lemma lower_char_variant (a b : ascii) :
  (N_of_ascii a <? 0x80)%N = true -> (N_of_ascii b <? 0x80)%N = true ->
  case_variant_char (N_of_ascii a) (N_of_ascii b) = true ->
  PyStr.lower_char a = PyStr.lower_char b.
Proof.
  intros Ha Hb H. pose proof lower_char_variant_all as Hall.
  rewrite forallb_forall in Hall. specialize (Hall a (in_all_chars a)).
  rewrite forallb_forall in Hall. specialize (Hall b (in_all_chars b)).
  rewrite Ha, Hb, H in Hall. now apply Ascii.eqb_eq.
Qed.

(** ASCII strings that differ only in letter case have one lower-cased
    form. *)
Lemma lower_case_variant (q q' : string) :
  PyStr.is_ascii q = true -> PyStr.is_ascii q' = true ->
  case_variant q q' = true -> PyStr.lower q = PyStr.lower q'.
Proof.
  intros Hq Hq'. unfold case_variant.
  rewrite (decode_ascii q Hq), (decode_ascii q' Hq').
  rewrite (lower_ascii q Hq), (lower_ascii q' Hq').
  revert q' Hq Hq'. induction q as [| a s IH]; intros [| b s'];
    cbn [PyStr.is_ascii ascii_points list_ascii_of_string map
         case_variant_points PyStr.map_chars];
    try discriminate; [reflexivity |].
  intros Ha Hb H.
  apply andb_true_iff in Ha as [Ha Hs]. apply andb_true_iff in Hb as [Hb Hs'].
  apply andb_true_iff in H as [Hc Hv].
  rewrite (lower_char_variant a b Ha Hb Hc). f_equal.
  exact (IH s' Hs Hs' Hv).
Qed.

Lemma lower_empty (s : string) : PyStr.lower s = EmptyString -> s = EmptyString.
Proof.
  unfold PyStr.lower. destruct (PyStr.is_ascii s).
  - destruct s; [reflexivity | discriminate].
  - unfold PyStr.case_operation.
    destruct (Utf8.decode s) as [data |] eqn:E; [| exact (fun H => H)].
    intros H. apply encode_empty in H. unfold PyStr.do_lower in H.
    apply do_lower_from_empty in H. subst data. exact (decode_empty s E).
Qed.

(** [str.upper] is the upper-casing of the Unicode database. *)
Lemma do_upper_flat_map (data : list N) :
  PyStr.do_upper data = flat_map Unicode.ToUpperFull data.
Proof. induction data as [| c rest IH]; cbn; [reflexivity | now rewrite IH]. Qed.

Lemma upper_ascii_all :
  forallb (fun a =>
    implb (N_of_ascii a <? 0x80)%N
          (match Unicode.ToUpperFull (N_of_ascii a) with
           | [u] => N.eqb u (N_of_ascii (PyStr.upper_char a))
           | _ => false
           end
           && (N_of_ascii (PyStr.upper_char a) <? 0x80)%N))
    all_chars = true.
Proof. vm_compute. reflexivity. Qed.

Lemma ToUpperFull_ascii (a : ascii) :
  (N_of_ascii a <? 0x80)%N = true ->
  Unicode.ToUpperFull (N_of_ascii a) = [N_of_ascii (PyStr.upper_char a)] /\
  (N_of_ascii (PyStr.upper_char a) <? 0x80)%N = true.
Proof.
  intros Ha. pose proof upper_ascii_all as Hall.
  rewrite forallb_forall in Hall. specialize (Hall a (in_all_chars a)).
  rewrite Ha in Hall. cbn [implb] in Hall.
  apply andb_true_iff in Hall as [H1 H2]. split; [| exact H2].
  destruct (Unicode.ToUpperFull (N_of_ascii a)) as [| u [| ? ?]];
    try discriminate H1.
  apply N.eqb_eq in H1. now subst u.
Qed.

Lemma upper_refines_uppercase (s : string) :
  PyStr.upper s = ClassifySpec.uppercase s.
Proof.
  unfold PyStr.upper, ClassifySpec.uppercase.
  destruct (PyStr.is_ascii s) eqn:E.
  - rewrite (decode_ascii s E). induction s as [| a s IH]; [reflexivity |].
    cbn [PyStr.is_ascii] in E. apply andb_true_iff in E as [Ha Hs].
    destruct (ToUpperFull_ascii a Ha) as [Hup Hlt].
    cbn [ascii_points list_ascii_of_string map flat_map PyStr.map_chars].
    rewrite Hup. cbn [app Utf8.encode].
    rewrite (encode_char_ascii _ Hlt). cbn [String.append].
    f_equal. exact (IH Hs).
  - unfold PyStr.case_operation.
    destruct (Utf8.decode s); [now rewrite do_upper_flat_map | reflexivity].
Qed.

Lemma or_default_not_empty (x : option string) (d : string) :
  d <> EmptyString -> PyStr.or_default x d <> EmptyString.
Proof. intros Hd. destruct x as [[| a s] |]; cbn; [assumption | discriminate | assumption]. Qed.

(** ** Facts about the dictionary *)

Section DictFacts.
Context {V : Type}.
Implicit Types (d : PyDict.t V) (k : string) (v : V).

Lemma get_set_same d k v : PyDict.get (PyDict.set d k v) k = Some v.
Proof.
  induction d as [| [k' v'] rest IH]; cbn.
  - now rewrite String.eqb_refl.
  - destruct (String.eqb k' k) eqn:E; cbn; rewrite E; [reflexivity | exact IH].
Qed.

Lemma get_set_other d k k0 v :
  k0 <> k -> PyDict.get (PyDict.set d k v) k0 = PyDict.get d k0.
Proof.
  intros Hne. induction d as [| [k' v'] rest IH]; cbn.
  - apply String.eqb_neq in Hne. rewrite String.eqb_sym. now rewrite Hne.
  - destruct (String.eqb k' k) eqn:E; cbn; [| now rewrite IH].
    apply String.eqb_eq in E. subst k'.
    assert (String.eqb k k0 = false) as -> by (apply String.eqb_neq; congruence).
    reflexivity.
Qed.

(** Assignment keeps the iteration order of the keys already present and
    puts a new key last. *)
Lemma keys_set d k v :
  PyDict.keys (PyDict.set d k v) =
  if PyStr.in_list k (PyDict.keys d) then PyDict.keys d
  else PyDict.keys d ++ [k].
Proof.
  induction d as [| [k' v'] rest IH]; cbn; [reflexivity |].
  rewrite (String.eqb_sym k k').
  destruct (String.eqb k' k) eqn:E; cbn; [reflexivity |].
  unfold PyDict.keys, PyStr.in_list in IH. rewrite IH.
  destruct (existsb (String.eqb k) (map fst rest)); reflexivity.
Qed.

Lemma set_wf d k v : PyDict.wf d -> PyDict.wf (PyDict.set d k v).
Proof.
  unfold PyDict.wf. intros Hd. rewrite keys_set.
  destruct (PyStr.in_list k (PyDict.keys d)) eqn:E; [assumption |].
  apply NoDup_app; [assumption | repeat constructor; intros [] | ].
  intros x Hx [Hk | []]. subst x.
  apply in_list_In in Hx. congruence.
Qed.

Lemma count_not_in d k : ~ In k (PyDict.keys d) -> PyDict.count d k = 0.
Proof.
  unfold PyDict.count. induction d as [| [k' v'] rest IH]; cbn; [reflexivity |].
  intros Hn. destruct (String.eqb k' k) eqn:E.
  - apply String.eqb_eq in E. tauto.
  - apply IH. tauto.
Qed.

Lemma count_set d k v : PyDict.wf d -> PyDict.count (PyDict.set d k v) k = 1.
Proof.
  unfold PyDict.wf. induction d as [| [k' v'] rest IH]; cbn; intros Hd.
  - unfold PyDict.count. cbn. now rewrite String.eqb_refl.
  - inversion Hd as [| ? ? Hnotin Hrest]; subst.
    destruct (String.eqb k' k) eqn:E.
    + unfold PyDict.count. cbn. rewrite E. cbn. f_equal.
      apply String.eqb_eq in E. subst k'.
      now apply (count_not_in rest k).
    + unfold PyDict.count in *. cbn. rewrite E. now apply IH.
Qed.

Lemma In_set d k v item :
  In item (PyDict.set d k v) -> In item d \/ snd item = v.
Proof.
  induction d as [| [k' v'] rest IH]; cbn.
  - intros [<- | []]. now right.
  - destruct (String.eqb k' k); cbn.
    + intros [<- | H]; [now right | left; now right].
    + intros [<- | H]; [left; now left |].
      destruct (IH H); [left; now right | now right].
Qed.
End DictFacts.

(** ** Facts about the scanning loop *)

Lemma scan_loop_filter (uid : Z) (query : string)
      (l : list (string * FileData)) (acc : list FileData) :
  fold_left
    (fun results item =>
       let '(file_id, data) := item in
       if matches uid query data then results ++ [data] else results)
    l acc
  = acc ++ filter (matches uid query) (map snd l).
Proof.
  revert acc. induction l as [| [file_id data] l IH]; intros acc; cbn.
  - now rewrite app_nil_r.
  - rewrite IH. destruct (matches uid query data); [| reflexivity].
    now rewrite <- app_assoc.
Qed.

(** The loop collects, in iteration order, the stored values that pass the
    test. *)
Lemma scan_filter (db : Database) (uid : Z) (query : string) :
  scan db uid query = filter (matches uid query) (PyDict.values db).
Proof. unfold scan, PyDict.items. now rewrite scan_loop_filter. Qed.

Lemma firstn_In {A : Type} (n : nat) (l : list A) (x : A) :
  In x (firstn n l) -> In x l.
Proof.
  intros H. rewrite <- (firstn_skipn n l). apply in_or_app. now left.
Qed.

Lemma numbered_records {A : Type} (l : list A) (start : nat) :
  map snd (map (fun '(i, data) => (i + 1, data)) (enumerate_from start l)) = l.
Proof.
  revert start. induction l as [| x l IH]; intros start; cbn; [reflexivity |].
  now rewrite IH.
Qed.

Lemma numbered_numbers {A : Type} (l : list A) (start : nat) :
  map fst (map (fun '(i, data) => (i + 1, data)) (enumerate_from start l))
  = seq (S start) (List.length l).
Proof.
  revert start. induction l as [| x l IH]; intros start; cbn; [reflexivity |].
  rewrite IH. f_equal. lia.
Qed.

(** ** Facts about the handlers *)

Lemma handle_file_selected (m : Telegram.Message) (db : Database)
      (file_obj : Telegram.Attachment) (name mime : string) :
  select_file m = Some (file_obj, name, mime) ->
  handle_file m db =
  (reply_indexed name (get_file_type_hint mime) mime (Telegram.file_id file_obj),
   PyDict.set db (Telegram.file_id file_obj)
              (stored_record (Telegram.from_user_id m) file_obj name mime)).
Proof. intros H. unfold handle_file. now rewrite H. Qed.

Lemma handle_file_none (m : Telegram.Message) (db : Database) :
  select_file m = None -> handle_file m db = (reply_text NO_FILE_TEXT, db).
Proof. intros H. unfold handle_file. now rewrite H. Qed.

Lemma search_files_db (uid : Z) (args : list string) (db : Database) :
  snd (search_files uid args db) = db.
Proof.
  unfold search_files. destruct args; [reflexivity |].
  destruct (scan db uid (query_of_args (s :: args))); reflexivity.
Qed.

(** A property of stored values that every record built by [handle_file]
    has holds in every dictionary the bot can reach. *)
Section Invariants.
Variable P : FileData -> Prop.
Hypothesis P_stored :
  forall m file_obj name mime,
    select_file m = Some (file_obj, name, mime) ->
    P (stored_record (Telegram.from_user_id m) file_obj name mime).

Lemma step_all_values (db : Database) (e : Event) :
  all_values P db -> all_values P (step db e).
Proof.
  intros Hdb. destruct e as [m | uid args]; cbn [step].
  - destruct (select_file m) as [[[file_obj name] mime] |] eqn:Hsel.
    + rewrite (handle_file_selected m db _ _ _ Hsel). cbn [snd].
      apply Forall_forall. intros item Hin.
      destruct (In_set _ _ _ _ Hin) as [Hold | Hnew].
      * unfold all_values in Hdb. rewrite Forall_forall in Hdb. now apply Hdb.
      * rewrite Hnew. now apply P_stored.
    + now rewrite (handle_file_none m db Hsel).
  - now rewrite search_files_db.
Qed.

Lemma run_all_values (events : list Event) : all_values P (run events).
Proof.
  unfold run.
  assert (H : forall db, all_values P db -> all_values P (fold_left step events db)).
  { induction events as [| e events IH]; intros db Hdb; cbn; [assumption |].
    apply IH. now apply step_all_values. }
  apply H. constructor.
Qed.
End Invariants.

Lemma step_wf (db : Database) (e : Event) : PyDict.wf db -> PyDict.wf (step db e).
Proof.
  intros Hdb. destruct e as [m | uid args]; cbn [step].
  - destruct (select_file m) as [[[file_obj name] mime] |] eqn:Hsel.
    + rewrite (handle_file_selected m db _ _ _ Hsel). now apply set_wf.
    + now rewrite (handle_file_none m db Hsel).
  - now rewrite search_files_db.
Qed.

(** Every dictionary the bot can reach holds each file id once. *)
Lemma run_wf (events : list Event) : PyDict.wf (run events).
Proof.
  unfold run.
  assert (H : forall db, PyDict.wf db -> PyDict.wf (fold_left step events db)).
  { induction events as [| e events IH]; intros db Hdb; cbn; [assumption |].
    apply IH. now apply step_wf. }
  apply H. constructor.
Qed.

Example search_seven :
  fst (search_files 1 ["x"] seven_matches) =
  reply_found 7 "x"
    [ (1, sample_file "x1.mp4" 1); (2, sample_file "aXb.mp4" 1);
      (3, sample_file "x3.mp4" 1); (4, sample_file "x4.mp4" 1);
      (5, sample_file "x5.mp4" 1) ] (Some 2).
Proof. reflexivity. Qed.

Example ingest_report :
  PyDict.get (snd (handle_file (Telegram.mkMessage 42 (Some report_pdf) None None)
                               FILE_DATABASE)) "id1"
  = Some {| file_name := "Report_2024.pdf"; mime_type := "application/pdf";
            user_id := 42; type_hint := "Document (PDF/ZIP/Text)";
            file_unique_id := "uq1" |}.
Proof. reflexivity. Qed.

Example ingest_bare_file :
  PyDict.get (snd (handle_file (Telegram.mkMessage 7 None (Some bare_file) None)
                               FILE_DATABASE)) "id2"
  = Some {| file_name := "Unnamed Video"; mime_type := "video/mp4";
            user_id := 7; type_hint := "Video (MP4/MKV/Other)";
            file_unique_id := "uq2" |}.
Proof. reflexivity. Qed.

(** ** The claims *)

(** C1. Whatever the index holds and whatever the query, every record that
    [search_files] collects for user [U], and every record listed in its
    reply, has [user_id] equal to [U]. *)
Theorem search_only_own_records (db : Database) (U : Z) (args : list string) :
  Forall (fun data => user_id data = U) (scan db U (query_of_args args)) /\
  Forall (fun data => user_id data = U)
         (reply_records (fst (search_files U args db))).
Proof.
  assert (Hscan : forall q, Forall (fun data => user_id data = U) (scan db U q)).
  { intros q. rewrite scan_filter. apply Forall_forall. intros data Hin.
    apply filter_In in Hin as [_ Hm]. unfold matches in Hm.
    apply andb_true_iff in Hm as [Hu _]. now apply Z.eqb_eq. }
  split; [apply Hscan |].
  unfold search_files. destruct args as [| a args]; [constructor |].
  destruct (scan db U (query_of_args (a :: args))) as [| r rs] eqn:Hs;
    [constructor |].
  cbn [fst reply_records]. unfold enumerate. rewrite numbered_records.
  rewrite <- Hs. apply Forall_forall. intros data Hin.
  specialize (Hscan (query_of_args (a :: args))).
  rewrite Forall_forall in Hscan. apply Hscan.
  now apply (firstn_In 5).
Qed.

(** C2. [get_file_type_hint] equals the reference classifier on every
    string: the video, document and image sets in that order, then the
    text after the last slash upper-cased, character by character, by the
    upper-case mappings of the Unicode database, then ["Other File"] for a
    string without a slash, the empty string included. *)
Theorem get_file_type_hint_refines_classify (m : string) :
  get_file_type_hint m = ClassifySpec.classify m.
Proof.
  unfold get_file_type_hint, ClassifySpec.classify.
  rewrite !in_list_in_dec.
  unfold ClassifySpec.video_set, ClassifySpec.document_set, ClassifySpec.image_set.
  destruct (in_dec string_dec m VIDEO_MIMES); [reflexivity |].
  destruct (in_dec string_dec m DOCUMENT_MIMES); [reflexivity |].
  destruct (in_dec string_dec m IMAGE_MIMES); [reflexivity |].
  rewrite str_in_char, split_last, upper_refines_uppercase. reflexivity.
Qed.

(** C3. For a search with query text, the reply lists the first five
    matching records in iteration order of the index, so [min 5 n] of
    them, and reports the true number [n] of matching records; beyond five
    the trailer counts the [n - 5] others. *)
Theorem search_top_five_and_total (db : Database) (U : Z) (args : list string) :
  args <> [] ->
  let found := filter (matches U (query_of_args args)) (PyDict.values db) in
  let r := fst (search_files U args db) in
  reply_records r = firstn 5 found /\
  List.length (reply_records r) = Nat.min 5 (List.length found) /\
  reply_total r = Some (List.length found) /\
  (5 < List.length found ->
   exists lines,
     r = reply_found (List.length found) (query_of_args args) lines
                     (Some (List.length found - 5))).
Proof.
  intros Hne found r.
  assert (Hrec : reply_records r = firstn 5 found
                 /\ reply_total r = Some (List.length found)
                 /\ (5 < List.length found ->
                     exists lines,
                       r = reply_found (List.length found) (query_of_args args)
                                       lines (Some (List.length found - 5)))).
  { subst r found. unfold search_files.
    destruct args as [| a args]; [congruence |].
    rewrite <- scan_filter.
    destruct (scan db U (query_of_args (a :: args))) as [| d ds] eqn:Hs.
    - cbn. repeat split. intros H. inversion H.
    - cbn [fst reply_records reply_total]. unfold enumerate.
      rewrite numbered_records. repeat split.
      intros H. apply Nat.ltb_lt in H. rewrite H. eauto. }
  destruct Hrec as (Hr & Ht & Hm). repeat split; try assumption.
  rewrite Hr, length_firstn. reflexivity.
Qed.

Lemma search_top_five_and_total_witness :
  reply_records (fst (search_files 1 ["x"] seven_matches))
  = firstn 5 (filter (matches 1 (query_of_args ["x"])) (PyDict.values seven_matches))
  /\ List.length (reply_records (fst (search_files 1 ["x"] seven_matches))) = 5
  /\ reply_total (fst (search_files 1 ["x"] seven_matches)) = Some 7.
Proof.
  destruct (search_top_five_and_total seven_matches 1 ["x"]) as (H1 & H2 & H3 & _).
  - discriminate.
  - exact (conj H1 (conj H2 H3)).
Defined.

(** C4. After two uploads with the same file id into a dictionary, the
    id holds exactly one record, and it is the record of the second upload
    alone: name, MIME type, owner, type hint and unique id all come from
    the second message. *)
Theorem reingest_last_write_wins
        (db : Database) (m1 m2 : Telegram.Message)
        (a1 a2 : Telegram.Attachment) (n1 t1 n2 t2 : string) :
  PyDict.wf db ->
  select_file m1 = Some (a1, n1, t1) ->
  select_file m2 = Some (a2, n2, t2) ->
  Telegram.file_id a1 = Telegram.file_id a2 ->
  let db2 := snd (handle_file m2 (snd (handle_file m1 db))) in
  PyDict.count db2 (Telegram.file_id a2) = 1 /\
  PyDict.get db2 (Telegram.file_id a2)
  = Some {| file_name := n2;
            mime_type := t2;
            user_id := Telegram.from_user_id m2;
            type_hint := get_file_type_hint t2;
            file_unique_id := Telegram.file_unique_id a2 |}.
Proof.
  intros Hwf H1 H2 Hid db2. subst db2.
  rewrite (handle_file_selected m1 db _ _ _ H1). cbn [snd].
  rewrite (handle_file_selected m2 _ _ _ _ H2). cbn [snd].
  split.
  - apply count_set, set_wf, Hwf.
  - apply get_set_same.
Qed.

Lemma reingest_last_write_wins_witness :
  let db2 :=
    snd (handle_file (Telegram.mkMessage 43 None (Some report_again) None)
           (snd (handle_file (Telegram.mkMessage 42 (Some report_pdf) None None)
                             FILE_DATABASE))) in
  PyDict.count db2 "id1" = 1 /\
  PyDict.get db2 "id1"
  = Some {| file_name := "Unnamed Video"; mime_type := "video/webm";
            user_id := 43; type_hint := "Video (MP4/MKV/Other)";
            file_unique_id := "uq9" |}.
Proof.
  apply (reingest_last_write_wins FILE_DATABASE
           (Telegram.mkMessage 42 (Some report_pdf) None None)
           (Telegram.mkMessage 43 None (Some report_again) None)
           report_pdf report_again
           "Report_2024.pdf" "application/pdf" "Unnamed Video" "video/webm").
  - constructor.
  - reflexivity.
  - reflexivity.
  - reflexivity.
Defined.

(** C5, as stated, fails: the long s (U+017F) and [S] differ only in
    letter case, [S] being the long s upper-cased, yet a file
    whose name has a long s is found by the query with the long s and not
    by the query [S], which is lower-cased to [s]. *)
Lemma search_case_variant_differs :
  PyStr.upper LONG_S = "S" /\
  case_variant LONG_S "S" = true /\
  fst (search_files 1 [LONG_S] long_s_index)
  = reply_found 1 LONG_S [(1, sample_file (LONG_S ++ "ample.txt")%string 1)] None /\
  fst (search_files 1 ["S"] long_s_index) = reply_no_files "s" /\
  ~ (forall (db : Database) (U : Z) (args args' : list string),
       args <> [] -> args' <> [] ->
       case_variant (String.concat " " args) (String.concat " " args') = true ->
       search_files U args db = search_files U args' db).
Proof.
  split; [vm_compute; reflexivity |].
  split; [vm_compute; reflexivity |].
  split; [vm_compute; reflexivity |].
  split; [vm_compute; reflexivity |].
  intros H.
  specialize (H long_s_index 1%Z [LONG_S] ["S"]).
  assert (Heq : search_files 1 [LONG_S] long_s_index
                = search_files 1 ["S"] long_s_index).
  { apply H; [discriminate | discriminate | vm_compute; reflexivity]. }
  vm_compute in Heq. discriminate Heq.
Qed.

(** C5, amended. Both the query and the file names are lower-cased with
    [str.lower] and compared by containment, so two searches by the same
    user get the same reply (the same listed records, the same total, the
    same lower-cased query) whenever the two query texts have the same
    lower-cased form; in particular whenever they are ASCII texts that
    differ only in letter case. *)
Theorem search_case_insensitive
        (db : Database) (U : Z) (args args' : list string) :
  args <> [] -> args' <> [] ->
  (PyStr.lower (String.concat " " args) = PyStr.lower (String.concat " " args') ->
   search_files U args db = search_files U args' db) /\
  (PyStr.is_ascii (String.concat " " args) = true ->
   PyStr.is_ascii (String.concat " " args') = true ->
   case_variant (String.concat " " args) (String.concat " " args') = true ->
   search_files U args db = search_files U args' db).
Proof.
  intros Hne Hne'.
  assert (Hsame : PyStr.lower (String.concat " " args)
                  = PyStr.lower (String.concat " " args') ->
                  search_files U args db = search_files U args' db).
  { intros Hq. unfold search_files.
    destruct args as [| a args]; [congruence |].
    destruct args' as [| a' args']; [congruence |].
    unfold query_of_args. rewrite Hq. reflexivity. }
  split; [exact Hsame |].
  intros Ha Ha' Hcase. apply Hsame. now apply lower_case_variant.
Qed.

Lemma search_case_insensitive_witness :
  search_files 1 ["movie"] movie_index = search_files 1 ["MOVIE"] movie_index.
Proof.
  destruct (search_case_insensitive movie_index 1 ["movie"] ["MOVIE"]) as [_ H].
  - discriminate.
  - discriminate.
  - apply H; reflexivity.
Defined.

(** C6. A message with a document is stored from its document whatever
    else it carries; without a document, from its video; with neither,
    from its audio.  Exactly one record is written, under the file id of
    that attachment, and it is the one the reply confirms; the other
    attachment kinds of the message leave no trace in the index.  An
    absent file name is stored as ["Unnamed Document"], ["Unnamed Video"]
    or ["Unnamed Audio"], an absent MIME type as
    ["application/octet-stream"], ["video/mp4"] or ["audio/mpeg"]; a
    declared non-empty one is stored as declared. *)
Theorem handle_file_precedence_and_defaults (m : Telegram.Message) (db : Database) :
  (forall d, Telegram.document m = Some d ->
     exists rec,
       handle_file m db
       = (reply_indexed (file_name rec) (type_hint rec) (mime_type rec)
                        (Telegram.file_id d),
          PyDict.set db (Telegram.file_id d) rec) /\
       PyDict.get (snd (handle_file m db)) (Telegram.file_id d) = Some rec /\
       resolved d "Unnamed Document" "application/octet-stream" rec /\
       user_id rec = Telegram.from_user_id m) /\
  (forall v, Telegram.document m = None -> Telegram.video m = Some v ->
     exists rec,
       handle_file m db
       = (reply_indexed (file_name rec) (type_hint rec) (mime_type rec)
                        (Telegram.file_id v),
          PyDict.set db (Telegram.file_id v) rec) /\
       PyDict.get (snd (handle_file m db)) (Telegram.file_id v) = Some rec /\
       resolved v "Unnamed Video" "video/mp4" rec /\
       user_id rec = Telegram.from_user_id m) /\
  (forall a, Telegram.document m = None -> Telegram.video m = None ->
     Telegram.audio m = Some a ->
     exists rec,
       handle_file m db
       = (reply_indexed (file_name rec) (type_hint rec) (mime_type rec)
                        (Telegram.file_id a),
          PyDict.set db (Telegram.file_id a) rec) /\
       PyDict.get (snd (handle_file m db)) (Telegram.file_id a) = Some rec /\
       resolved a "Unnamed Audio" "audio/mpeg" rec /\
       user_id rec = Telegram.from_user_id m).
Proof.
  assert (Hres : forall att placeholder default_mime uid,
             resolved att placeholder default_mime
               (stored_record uid att
                  (PyStr.or_default (Telegram.file_name att) placeholder)
                  (PyStr.or_default (Telegram.mime_type att) default_mime))).
  { intros att placeholder default_mime uid. unfold resolved. cbn.
    repeat split.
    - now intros ->.
    - intros s -> Hs. destruct s; [congruence | reflexivity].
    - now intros ->.
    - intros s -> Hs. destruct s; [congruence | reflexivity]. }
  assert (Hsel : forall att name mime,
             select_file m = Some (att, name, mime) ->
             let rec := stored_record (Telegram.from_user_id m) att name mime in
             handle_file m db
             = (reply_indexed (file_name rec) (type_hint rec) (mime_type rec)
                              (Telegram.file_id att),
                PyDict.set db (Telegram.file_id att) rec) /\
             PyDict.get (snd (handle_file m db)) (Telegram.file_id att) = Some rec /\
             user_id rec = Telegram.from_user_id m).
  { intros att name mime H rec.
    rewrite (handle_file_selected m db _ _ _ H). cbn [snd].
    split; [reflexivity |]. split; [apply get_set_same | reflexivity]. }
  split; [| split].
  - intros d Hd.
    assert (H : select_file m
                = Some (d, PyStr.or_default (Telegram.file_name d) "Unnamed Document",
                        PyStr.or_default (Telegram.mime_type d)
                                         "application/octet-stream"))
      by (unfold select_file; now rewrite Hd).
    destruct (Hsel _ _ _ H) as (H1 & H2 & H3).
    eexists. split; [exact H1 |]. split; [exact H2 |]. split; [apply Hres | exact H3].
  - intros v Hd Hv.
    assert (H : select_file m
                = Some (v, PyStr.or_default (Telegram.file_name v) "Unnamed Video",
                        PyStr.or_default (Telegram.mime_type v) "video/mp4"))
      by (unfold select_file; now rewrite Hd, Hv).
    destruct (Hsel _ _ _ H) as (H1 & H2 & H3).
    eexists. split; [exact H1 |]. split; [exact H2 |]. split; [apply Hres | exact H3].
  - intros a Hd Hv Ha.
    assert (H : select_file m
                = Some (a, PyStr.or_default (Telegram.file_name a) "Unnamed Audio",
                        PyStr.or_default (Telegram.mime_type a) "audio/mpeg"))
      by (unfold select_file; now rewrite Hd, Hv, Ha).
    destruct (Hsel _ _ _ H) as (H1 & H2 & H3).
    eexists. split; [exact H1 |]. split; [exact H2 |]. split; [apply Hres | exact H3].
Qed.

Lemma handle_file_precedence_and_defaults_witness :
  exists rec,
    snd (handle_file
           (Telegram.mkMessage 7 (Some bare_file) (Some report_pdf)
                               (Some empty_file))
           FILE_DATABASE) = [("id2", rec)] /\
    file_name rec = "Unnamed Document" /\
    mime_type rec = "application/octet-stream".
Proof.
  destruct (handle_file_precedence_and_defaults
              (Telegram.mkMessage 7 (Some bare_file) (Some report_pdf)
                                  (Some empty_file))
              FILE_DATABASE) as (Hdoc & _ & _).
  destruct (Hdoc bare_file eq_refl) as (rec & Hrun & _ & (Hname & _ & Hmime & _) & _).
  exists rec. split; [now rewrite Hrun |]. split.
  - apply Hname. reflexivity.
  - apply Hmime. reflexivity.
Defined.

(** C7. A search command without query text is answered with the keyword
    prompt, whatever the index holds, and leaves the index as it was; no
    scan takes place.  The words of a command are never empty, so the only
    command whose query is the empty string is the one without words, and
    it gets the prompt. *)
Theorem search_without_query_rejected (U : Z) (db : Database) :
  search_files U [] db = (reply_text NO_KEYWORD_TEXT, db) /\
  (forall db', fst (search_files U [] db) = fst (search_files U [] db')) /\
  (forall args,
     Forall (fun word => word <> EmptyString) args ->
     query_of_args args = EmptyString ->
     search_files U args db = (reply_text NO_KEYWORD_TEXT, db)).
Proof.
  repeat split.
  intros args Hwords Hq. destruct args as [| a args]; [reflexivity |].
  exfalso. apply lower_empty in Hq.
  inversion Hwords as [| ? ? Ha _]; subst.
  destruct a as [| c a]; [congruence |].
  cbn in Hq. destruct args; discriminate Hq.
Qed.

Lemma search_without_query_rejected_witness :
  search_files 1 [] seven_matches = (reply_text NO_KEYWORD_TEXT, seven_matches).
Proof.
  destruct (search_without_query_rejected 1 seven_matches) as (_ & _ & H).
  apply (H []).
  - constructor.
  - reflexivity.
Defined.

(** C8. A message with no document, no video and no audio leaves the
    index exactly as it was and is answered with the notice that it held
    no file the bot can process. *)
Theorem handle_file_without_attachment (m : Telegram.Message) (db : Database) :
  Telegram.document m = None ->
  Telegram.video m = None ->
  Telegram.audio m = None ->
  handle_file m db = (reply_text NO_FILE_TEXT, db).
Proof.
  intros Hd Hv Ha. apply handle_file_none.
  unfold select_file. now rewrite Hd, Hv, Ha.
Qed.

Lemma handle_file_without_attachment_witness :
  handle_file (Telegram.mkMessage 5 None None None) seven_matches
  = (reply_text NO_FILE_TEXT, seven_matches).
Proof.
  apply handle_file_without_attachment; reflexivity.
Defined.

(** C9. Every record in the index has the type hint that
    [get_file_type_hint] gives for its own stored MIME type: an upload
    stores such a record, every operation (upload or search) keeps the
    property, a search leaves the index untouched, and so the property
    holds in every index the bot reaches from the empty one. *)
Theorem type_hint_invariant :
  (forall m db att name mime,
     select_file m = Some (att, name, mime) ->
     exists rec,
       PyDict.get (snd (handle_file m db)) (Telegram.file_id att) = Some rec /\
       hint_consistent rec) /\
  (forall db e, all_values hint_consistent db ->
                all_values hint_consistent (step db e)) /\
  (forall uid args db, snd (search_files uid args db) = db) /\
  (forall events, all_values hint_consistent (run events)).
Proof.
  assert (Hstored : forall m file_obj name mime,
             select_file m = Some (file_obj, name, mime) ->
             hint_consistent
               (stored_record (Telegram.from_user_id m) file_obj name mime)).
  { intros. reflexivity. }
  split; [| split; [| split]].
  - intros m db att name mime Hsel. eexists. split.
    + rewrite (handle_file_selected m db _ _ _ Hsel). apply get_set_same.
    + reflexivity.
  - intros db e. now apply step_all_values.
  - exact search_files_db.
  - intros events. now apply run_all_values.
Qed.

Lemma type_hint_invariant_witness :
  all_values hint_consistent
    (step seven_matches
          (Upload (Telegram.mkMessage 42 (Some report_pdf) None None))).
Proof.
  destruct type_hint_invariant as (_ & Hstep & _ & _).
  apply Hstep. repeat constructor.
Defined.

(** C10. An attachment whose declared file name is the empty string is
    stored under its variant's placeholder, and one whose declared MIME
    type is the empty string under its variant's default, exactly as when
    they are absent; so no record of a reachable index has an empty
    [file_name] or an empty [mime_type]. *)
Theorem empty_metadata_as_absent :
  (forall m db d, Telegram.document m = Some d ->
     exists rec,
       PyDict.get (snd (handle_file m db)) (Telegram.file_id d) = Some rec /\
       empty_as_absent d "Unnamed Document" "application/octet-stream" rec) /\
  (forall m db v, Telegram.document m = None -> Telegram.video m = Some v ->
     exists rec,
       PyDict.get (snd (handle_file m db)) (Telegram.file_id v) = Some rec /\
       empty_as_absent v "Unnamed Video" "video/mp4" rec) /\
  (forall m db a, Telegram.document m = None -> Telegram.video m = None ->
     Telegram.audio m = Some a ->
     exists rec,
       PyDict.get (snd (handle_file m db)) (Telegram.file_id a) = Some rec /\
       empty_as_absent a "Unnamed Audio" "audio/mpeg" rec) /\
  (forall events, all_values named_and_typed (run events)).
Proof.
  assert (Hres : forall att placeholder default_mime uid,
             empty_as_absent att placeholder default_mime
               (stored_record uid att
                  (PyStr.or_default (Telegram.file_name att) placeholder)
                  (PyStr.or_default (Telegram.mime_type att) default_mime))).
  { intros att placeholder default_mime uid. unfold empty_as_absent. cbn.
    split; now intros ->. }
  split; [| split; [| split]].
  - intros m db d Hd. eexists. split; [| apply Hres].
    erewrite handle_file_selected by (unfold select_file; rewrite Hd; reflexivity).
    apply get_set_same.
  - intros m db v Hd Hv. eexists. split; [| apply Hres].
    erewrite handle_file_selected
      by (unfold select_file; rewrite Hd, Hv; reflexivity).
    apply get_set_same.
  - intros m db a Hd Hv Ha. eexists. split; [| apply Hres].
    erewrite handle_file_selected
      by (unfold select_file; rewrite Hd, Hv, Ha; reflexivity).
    apply get_set_same.
  - apply run_all_values.
    intros m file_obj name mime Hsel. unfold named_and_typed, select_file in *.
    cbn [stored_record file_name mime_type].
    destruct (Telegram.document m); [| destruct (Telegram.video m);
                                       [| destruct (Telegram.audio m)]];
      inversion Hsel; subst; split; apply or_default_not_empty; discriminate.
Qed.

Lemma empty_metadata_as_absent_witness :
  exists rec,
    PyDict.get (snd (handle_file (Telegram.mkMessage 9 None None (Some empty_file))
                                 FILE_DATABASE)) "id3" = Some rec /\
    file_name rec = "Unnamed Audio" /\ mime_type rec = "audio/mpeg".
Proof.
  destruct empty_metadata_as_absent as (_ & _ & Haudio & _).
  destruct (Haudio (Telegram.mkMessage 9 None None (Some empty_file))
                   FILE_DATABASE empty_file eq_refl eq_refl eq_refl)
    as (rec & Hget & Hname & Hmime).
  exists rec. split; [exact Hget |]. split.
  - apply Hname. reflexivity.
  - apply Hmime. reflexivity.
Defined.

(** ** Further properties of the search *)

Lemma startswith_prefix (p s : string) :
  PyStr.startswith p s = true <-> exists post, s = (p ++ post)%string.
Proof.
  revert s. induction p as [| a p IH]; intros s.
  - rewrite startswith_empty. split; [intros _; now exists s | reflexivity].
  - destruct s as [| b s]; cbn.
    + split; [discriminate | intros [post H]; discriminate H].
    + rewrite andb_true_iff, Ascii.eqb_eq, IH. split.
      * intros [-> [post ->]]. now exists post.
      * intros [post H]. injection H as -> ->. split; [reflexivity | now exists post].
Qed.

(** [sub in s] holds exactly when [s] is some text, then [sub], then some
    text. *)
Lemma str_in_substring (q s : string) :
  PyStr.str_in q s = true <-> exists pre post, s = (pre ++ q ++ post)%string.
Proof.
  induction s as [| a s IH].
  - cbn [PyStr.str_in]. rewrite orb_false_r, startswith_prefix. split.
    + intros [post H]. now exists EmptyString, post.
    + intros [pre [post H]]. destruct pre; [now exists post | discriminate H].
  - cbn [PyStr.str_in]. rewrite orb_true_iff, startswith_prefix, IH. split.
    + intros [[post H] | [pre [post H]]].
      * now exists EmptyString, post.
      * exists (String a pre), post. cbn. now rewrite H.
    + intros [pre [post H]]. destruct pre as [| b pre].
      * left. now exists post.
      * right. injection H as _ H. now exists pre, post.
Qed.

(** X1. The test of the scanning loop accepts a stored record exactly when
    it belongs to the searching user and its lower-cased file name is some
    text, then the query, then some text. *)
Theorem matches_owner_and_substring (U : Z) (query : string) (data : FileData) :
  matches U query data = true <->
  user_id data = U /\
  exists pre post, PyStr.lower (file_name data) = (pre ++ query ++ post)%string.
Proof.
  unfold matches. now rewrite andb_true_iff, Z.eqb_eq, str_in_substring.
Qed.

(** X2. The scanning loop collects a record exactly when the record is a
    value of the index and passes the test: nothing is invented and no
    matching record is skipped. *)
Theorem scan_sound_and_complete
        (db : Database) (U : Z) (query : string) (data : FileData) :
  In data (scan db U query) <->
  In data (PyDict.values db) /\ matches U query data = true.
Proof. rewrite scan_filter. apply filter_In. Qed.

Lemma search_files_reply (U : Z) (args : list string) (db : Database) :
  args <> [] ->
  let results := scan db U (query_of_args args) in
  fst (search_files U args db) =
  match results with
  | [] => reply_no_files (query_of_args args)
  | _ :: _ =>
      reply_found (List.length results) (query_of_args args)
        (map (fun '(i, data) => (i + 1, data)) (enumerate (firstn 5 results)))
        (if (5 <? List.length results)%nat then Some (List.length results - 5)
         else None)
  end.
Proof.
  intros Hne results. subst results. unfold search_files.
  destruct args as [| a args]; [congruence |].
  destruct (scan db U (query_of_args (a :: args))); reflexivity.
Qed.

(** X3. Whenever [search_files] answers with a result list, the total is
    at least one, the list has [min 5 total] lines numbered 1, 2, ... in
    order, the lines shown plus the count of the "more" trailer make the
    total, and the trailer is there exactly when the total exceeds five. *)
Theorem search_reply_counts
        (U : Z) (args : list string) (db : Database)
        (total : nat) (query : string)
        (lines : list (nat * FileData)) (more : option nat) :
  fst (search_files U args db) = reply_found total query lines more ->
  1 <= total /\
  List.length lines = Nat.min 5 total /\
  map fst lines = seq 1 (List.length lines) /\
  List.length lines + more_count more = total /\
  (more = None <-> total <= 5) /\
  query = query_of_args args.
Proof.
  intros H. destruct args as [| a args]; [discriminate H |].
  rewrite search_files_reply in H by discriminate.
  remember (scan db U (query_of_args (a :: args))) as results eqn:Hs.
  assert (Hpos : results <> [] -> 1 <= List.length results)
    by (destruct results; [congruence | cbn; lia]).
  destruct results as [| d ds]; [discriminate H |].
  specialize (Hpos ltac:(discriminate)).
  remember (d :: ds) as results eqn:Hr. clear Hr Hs d ds.
  remember (firstn 5 results) as shown eqn:Hshown.
  injection H as <- <- <- <-. subst shown.
  assert (Hlen : List.length
                   (map (fun '(i, data) => (i + 1, data))
                        (enumerate (firstn 5 results)))
                 = Nat.min 5 (List.length results)).
  { rewrite <- (length_map snd). unfold enumerate.
    rewrite numbered_records. apply length_firstn. }
  split; [exact Hpos |]. split; [exact Hlen |]. split.
  { rewrite Hlen. unfold enumerate. rewrite numbered_numbers.
    now rewrite length_firstn. }
  split.
  { rewrite Hlen. destruct (5 <? List.length results)%nat eqn:E; cbn [more_count].
    - apply Nat.ltb_lt in E. lia.
    - apply Nat.ltb_ge in E. lia. }
  split; [| reflexivity].
  destruct (5 <? List.length results)%nat eqn:E.
  - apply Nat.ltb_lt in E. split; [discriminate | lia].
  - apply Nat.ltb_ge in E. split; [intros _; exact E | reflexivity].
Qed.

Lemma search_reply_counts_witness :
  1 <= 7 /\
  List.length
    [ (1, sample_file "x1.mp4" 1); (2, sample_file "aXb.mp4" 1);
      (3, sample_file "x3.mp4" 1); (4, sample_file "x4.mp4" 1);
      (5, sample_file "x5.mp4" 1) ] = Nat.min 5 7 /\
  more_count (Some 2) = 2.
Proof.
  destruct (search_reply_counts 1 ["x"] seven_matches 7 "x"
              [ (1, sample_file "x1.mp4" 1); (2, sample_file "aXb.mp4" 1);
                (3, sample_file "x3.mp4" 1); (4, sample_file "x4.mp4" 1);
                (5, sample_file "x5.mp4" 1) ] (Some 2) eq_refl)
    as (H1 & H2 & _).
  exact (conj H1 (conj H2 eq_refl)).
Defined.

(** X4. A search with query text answers "no files" exactly when no value
    of the index passes the test for this user and query; the answer then
    names the lower-cased query. *)
Theorem search_no_files_iff (U : Z) (args : list string) (db : Database) :
  args <> [] ->
  (fst (search_files U args db) = reply_no_files (query_of_args args) <->
   forall data, In data (PyDict.values db) ->
                matches U (query_of_args args) data = false).
Proof.
  intros Hne. rewrite search_files_reply by assumption. rewrite scan_filter.
  split.
  - intros H data Hin.
    destruct (matches U (query_of_args args) data) eqn:E; [| reflexivity].
    assert (Hf : In data (filter (matches U (query_of_args args)) (PyDict.values db)))
      by (apply filter_In; now split).
    destruct (filter (matches U (query_of_args args)) (PyDict.values db));
      [contradiction | discriminate H].
  - intros H.
    destruct (filter (matches U (query_of_args args)) (PyDict.values db))
      as [| d ds] eqn:E; [reflexivity |].
    assert (Hd : In d (d :: ds)) by now left.
    rewrite <- E in Hd. apply filter_In in Hd as [Hin Hm].
    rewrite (H d Hin) in Hm. discriminate Hm.
Qed.

Lemma search_no_files_iff_witness :
  fst (search_files 3 ["x"] seven_matches) = reply_no_files "x".
Proof.
  apply (search_no_files_iff 3 ["x"] seven_matches).
  - discriminate.
  - intros data Hin. cbn in Hin.
    repeat (destruct Hin as [<- | Hin]; [reflexivity |]). contradiction.
Defined.

(** ** Further properties of the upload handler *)

Section MoreDictFacts.
Context {V : Type}.
Implicit Types (d : PyDict.t V) (k : string) (v : V).

Lemma get_set d k k0 v :
  PyDict.get (PyDict.set d k v) k0
  = if String.eqb k k0 then Some v else PyDict.get d k0.
Proof.
  destruct (String.eqb k k0) eqn:E.
  - apply String.eqb_eq in E. subst k0. apply get_set_same.
  - apply get_set_other. apply String.eqb_neq in E. congruence.
Qed.

Lemma set_set d k v v' :
  PyDict.set (PyDict.set d k v) k v' = PyDict.set d k v'.
Proof.
  induction d as [| [k' w] rest IH]; cbn.
  - now rewrite String.eqb_refl.
  - destruct (String.eqb k' k) eqn:E; cbn; rewrite E; [reflexivity | now rewrite IH].
Qed.

Lemma In_values_set d k v : In v (PyDict.values (PyDict.set d k v)).
Proof.
  induction d as [| [k' w] rest IH]; cbn; [now left |].
  destruct (String.eqb k' k); cbn; [now left | now right].
Qed.

Lemma In_values_set_inv d k v x :
  In x (PyDict.values (PyDict.set d k v)) -> In x (PyDict.values d) \/ x = v.
Proof.
  unfold PyDict.values. rewrite !in_map_iff. intros [item [Hx Hin]].
  destruct (In_set _ _ _ _ Hin) as [Hold | Hnew].
  - left. now exists item.
  - right. congruence.
Qed.

Lemma length_set d k v :
  List.length (PyDict.set d k v)
  = if PyStr.in_list k (PyDict.keys d) then List.length d else S (List.length d).
Proof.
  rewrite <- (length_map fst (PyDict.set d k v)).
  change (map fst (PyDict.set d k v)) with (PyDict.keys (PyDict.set d k v)).
  rewrite keys_set. unfold PyDict.keys.
  destruct (PyStr.in_list k (map fst d)).
  - apply length_map.
  - rewrite length_app, length_map. cbn. lia.
Qed.

Lemma filter_set_length (f : V -> bool) d k v :
  List.length (filter f (PyDict.values (PyDict.set d k v)))
  <= S (List.length (filter f (PyDict.values d))) /\
  (f v = false ->
   List.length (filter f (PyDict.values (PyDict.set d k v)))
   <= List.length (filter f (PyDict.values d))).
Proof.
  unfold PyDict.values.
  induction d as [| [k' w] rest [IH1 IH2]]; cbn.
  - destruct (f v) eqn:E; cbn; split; try lia; try discriminate.
  - destruct (String.eqb k' k); cbn.
    + destruct (f v) eqn:Ev, (f w); cbn; split; try lia; try discriminate.
    + destruct (f w); cbn; (split; [lia | intros Hv; specialize (IH2 Hv); lia]).
Qed.
End MoreDictFacts.

(** X5. A file that has just been uploaded is found by its uploader: every
    query contained in the lower-cased stored name makes the scan collect
    the new record, and a search command with such a query is answered with
    a result list, never with "no files". *)
Theorem upload_then_search_finds
        (m : Telegram.Message) (db : Database)
        (att : Telegram.Attachment) (name mime : string) (args : list string) :
  select_file m = Some (att, name, mime) ->
  args <> [] ->
  PyStr.str_in (query_of_args args) (PyStr.lower name) = true ->
  let db' := snd (handle_file m db) in
  let uid := Telegram.from_user_id m in
  In (stored_record uid att name mime) (scan db' uid (query_of_args args)) /\
  exists total lines more,
    fst (search_files uid args db')
    = reply_found total (query_of_args args) lines more.
Proof.
  intros Hsel Hne Hq db' uid.
  assert (Hin : In (stored_record uid att name mime)
                   (scan db' uid (query_of_args args))).
  { apply scan_sound_and_complete. split.
    - subst db'. rewrite (handle_file_selected m db _ _ _ Hsel). cbn [snd].
      apply In_values_set.
    - unfold matches. cbn [stored_record user_id file_name].
      now rewrite Z.eqb_refl, Hq. }
  split; [exact Hin |].
  rewrite search_files_reply by assumption.
  destruct (scan db' uid (query_of_args args)); [contradiction |].
  eauto.
Qed.

Lemma upload_then_search_finds_witness :
  In (stored_record 42 report_pdf "Report_2024.pdf" "application/pdf")
     (scan (snd (handle_file (Telegram.mkMessage 42 (Some report_pdf) None None)
                             seven_matches))
           42 (query_of_args ["REPORT"])).
Proof.
  apply (upload_then_search_finds
           (Telegram.mkMessage 42 (Some report_pdf) None None) seven_matches
           report_pdf "Report_2024.pdf" "application/pdf" ["REPORT"]).
  - reflexivity.
  - discriminate.
  - reflexivity.
Defined.

(** X6. An upload adds at most one record to the results of any search,
    and to the results of a user other than the uploader it adds nothing:
    what that user finds afterwards was found before. *)
Theorem upload_isolation
        (m : Telegram.Message) (db : Database) (U : Z) (query : string) :
  let db' := snd (handle_file m db) in
  List.length (scan db' U query) <= S (List.length (scan db U query)) /\
  (U <> Telegram.from_user_id m ->
   incl (scan db' U query) (scan db U query) /\
   List.length (scan db' U query) <= List.length (scan db U query)).
Proof.
  intros db'. subst db'.
  destruct (select_file m) as [[[att name] mime] |] eqn:Hsel.
  - rewrite (handle_file_selected m db _ _ _ Hsel). cbn [snd].
    rewrite !scan_filter.
    set (rec := stored_record (Telegram.from_user_id m) att name mime).
    destruct (filter_set_length (matches U query) db (Telegram.file_id att) rec)
      as [Hle Hother].
    split; [exact Hle |]. intros HU.
    assert (Hrec : matches U query rec = false).
    { unfold matches, rec. cbn [stored_record user_id].
      assert (Z.eqb (Telegram.from_user_id m) U = false) as ->
        by (apply Z.eqb_neq; congruence).
      reflexivity. }
    split; [| now apply Hother].
    intros x Hx. apply filter_In in Hx as [Hin Hm]. apply filter_In.
    split; [| assumption].
    destruct (In_values_set_inv _ _ _ _ Hin) as [Hold | ->]; [assumption |].
    congruence.
  - rewrite (handle_file_none m db Hsel). cbn [snd].
    split; [lia |]. intros _. split; [apply incl_refl | lia].
Qed.

Lemma upload_isolation_witness :
  List.length
    (scan (snd (handle_file (Telegram.mkMessage 1 (Some report_pdf) None None)
                            seven_matches)) 2 "x")
  <= List.length (scan seven_matches 2 "x").
Proof.
  destruct (upload_isolation (Telegram.mkMessage 1 (Some report_pdf) None None)
                             seven_matches 2 "x") as [_ H].
  apply H. discriminate.
Defined.

(** X7. An upload touches only its own file id: the record under every
    other id is what it was, the ids keep their iteration order, an id
    already present keeps its position and a new id goes last. *)
Theorem upload_touches_only_its_id
        (m : Telegram.Message) (db : Database)
        (att : Telegram.Attachment) (name mime : string) :
  select_file m = Some (att, name, mime) ->
  let db' := snd (handle_file m db) in
  (forall k, k <> Telegram.file_id att -> PyDict.get db' k = PyDict.get db k) /\
  PyDict.keys db'
  = (if PyStr.in_list (Telegram.file_id att) (PyDict.keys db) then PyDict.keys db
     else PyDict.keys db ++ [Telegram.file_id att]).
Proof.
  intros Hsel db'. subst db'.
  rewrite (handle_file_selected m db _ _ _ Hsel). cbn [snd]. split.
  - intros k Hk. now apply get_set_other.
  - apply keys_set.
Qed.

Lemma upload_touches_only_its_id_witness :
  PyDict.keys (snd (handle_file (Telegram.mkMessage 9 (Some report_again) None None)
                     (snd (handle_file
                             (Telegram.mkMessage 42 (Some report_pdf) None None)
                             seven_matches))))
  = PyDict.keys seven_matches ++ ["id1"].
Proof.
  destruct (upload_touches_only_its_id
              (Telegram.mkMessage 9 (Some report_again) None None)
              (snd (handle_file (Telegram.mkMessage 42 (Some report_pdf) None None)
                                seven_matches))
              report_again "Unnamed Document" "video/webm" eq_refl) as [_ H].
  exact H.
Defined.

Lemma step_keys (db : Database) (e : Event) (k : string) :
  In k (PyDict.keys db) -> In k (PyDict.keys (step db e)).
Proof.
  intros Hk. destruct e as [m | uid args]; cbn [step].
  - destruct (select_file m) as [[[att name] mime] |] eqn:Hsel.
    + rewrite (handle_file_selected m db _ _ _ Hsel). cbn [snd].
      rewrite keys_set. destruct (PyStr.in_list _ _); [assumption |].
      apply in_or_app. now left.
    + now rewrite (handle_file_none m db Hsel).
  - now rewrite search_files_db.
Qed.

Lemma step_length (db : Database) (e : Event) :
  List.length db <= List.length (step db e)
  <= List.length db + (if is_upload e then 1 else 0).
Proof.
  destruct e as [m | uid args]; cbn [step is_upload].
  - destruct (select_file m) as [[[att name] mime] |] eqn:Hsel.
    + rewrite (handle_file_selected m db _ _ _ Hsel). cbn [snd].
      rewrite length_set. destruct (PyStr.in_list _ _); lia.
    + rewrite (handle_file_none m db Hsel). cbn [snd]. lia.
  - rewrite search_files_db. lia.
Qed.

(** X8. Nothing is ever removed from the index: a file id present before
    an event is present after it, an event changes the number of records
    by at most one and only an upload can, and after any run from the
    empty index there are no more records than uploads received. *)
Theorem index_only_grows :
  (forall db e k, In k (PyDict.keys db) -> In k (PyDict.keys (step db e))) /\
  (forall db e,
     List.length db <= List.length (step db e)
     <= List.length db + (if is_upload e then 1 else 0)) /\
  (forall events, List.length (run events) <= uploads events).
Proof.
  split; [exact step_keys |]. split; [exact step_length |].
  intros events. unfold run, uploads.
  assert (H : forall db,
             List.length (fold_left step events db)
             <= List.length db + List.length (filter is_upload events)).
  { induction events as [| e events IH]; intros db; cbn [fold_left filter].
    - cbn. lia.
    - specialize (IH (step db e)). pose proof (step_length db e) as Hs.
      destruct (is_upload e); cbn [List.length]; lia. }
  apply (H FILE_DATABASE).
Qed.

Lemma index_only_grows_witness :
  In "f3" (PyDict.keys
             (step seven_matches
                   (Upload (Telegram.mkMessage 2 (Some report_pdf) None None)))).
Proof.
  destruct index_only_grows as (H & _ & _).
  apply H. cbn. tauto.
Defined.

(** X9. Of two uploads with the same file id the first leaves no trace:
    the second one gets the same reply and produces the same index,
    record for record and in the same order, as if the first had never
    happened.  In particular uploading the same message twice changes
    nothing the second time. *)
Theorem second_upload_overrides
        (db : Database) (m1 m2 : Telegram.Message)
        (a1 a2 : Telegram.Attachment) (n1 t1 n2 t2 : string) :
  select_file m1 = Some (a1, n1, t1) ->
  select_file m2 = Some (a2, n2, t2) ->
  Telegram.file_id a1 = Telegram.file_id a2 ->
  handle_file m2 (snd (handle_file m1 db)) = handle_file m2 db.
Proof.
  intros H1 H2 Hid.
  rewrite (handle_file_selected m1 db _ _ _ H1). cbn [snd].
  rewrite !(handle_file_selected m2 _ _ _ _ H2).
  rewrite Hid, set_set. reflexivity.
Qed.

Lemma second_upload_overrides_witness :
  handle_file (Telegram.mkMessage 43 None (Some report_again) None)
    (snd (handle_file (Telegram.mkMessage 42 (Some report_pdf) None None)
                      seven_matches))
  = handle_file (Telegram.mkMessage 43 None (Some report_again) None) seven_matches.
Proof.
  apply (second_upload_overrides seven_matches
           (Telegram.mkMessage 42 (Some report_pdf) None None)
           (Telegram.mkMessage 43 None (Some report_again) None)
           report_pdf report_again
           "Report_2024.pdf" "application/pdf" "Unnamed Video" "video/webm");
    reflexivity.
Defined.

(** X10. Uploads of files with different ids do not interfere: in either
    order every file id ends up with the same record. *)
Theorem uploads_commute_on_lookup
        (db : Database) (m1 m2 : Telegram.Message)
        (a1 a2 : Telegram.Attachment) (n1 t1 n2 t2 : string) (k : string) :
  select_file m1 = Some (a1, n1, t1) ->
  select_file m2 = Some (a2, n2, t2) ->
  Telegram.file_id a1 <> Telegram.file_id a2 ->
  PyDict.get (snd (handle_file m2 (snd (handle_file m1 db)))) k
  = PyDict.get (snd (handle_file m1 (snd (handle_file m2 db)))) k.
Proof.
  intros H1 H2 Hne.
  rewrite (handle_file_selected m1 db _ _ _ H1).
  rewrite (handle_file_selected m2 db _ _ _ H2). cbn [snd].
  rewrite (handle_file_selected m2 _ _ _ _ H2).
  rewrite (handle_file_selected m1 _ _ _ _ H1). cbn [snd].
  rewrite !get_set.
  destruct (String.eqb (Telegram.file_id a2) k) eqn:E2;
    destruct (String.eqb (Telegram.file_id a1) k) eqn:E1; try reflexivity.
  apply String.eqb_eq in E1, E2. congruence.
Qed.

Lemma uploads_commute_on_lookup_witness :
  PyDict.get
    (snd (handle_file (Telegram.mkMessage 7 None (Some bare_file) None)
            (snd (handle_file (Telegram.mkMessage 42 (Some report_pdf) None None)
                              seven_matches)))) "id1"
  = PyDict.get
      (snd (handle_file (Telegram.mkMessage 42 (Some report_pdf) None None)
              (snd (handle_file (Telegram.mkMessage 7 None (Some bare_file) None)
                                seven_matches)))) "id1".
Proof.
  apply (uploads_commute_on_lookup seven_matches
           (Telegram.mkMessage 42 (Some report_pdf) None None)
           (Telegram.mkMessage 7 None (Some bare_file) None)
           report_pdf bare_file
           "Report_2024.pdf" "application/pdf" "Unnamed Video" "video/mp4" "id1").
  - reflexivity.
  - reflexivity.
  - discriminate.
Defined.

(** X11. The confirmation sent after an upload describes the record that
    is now in the index: under the file id it names, the stored name, type
    hint and MIME type are the ones it shows, the hint is the one
    [get_file_type_hint] gives for that MIME type, and the owner is the
    sender. *)
Theorem confirmation_describes_record
        (m : Telegram.Message) (db : Database) (name hint mime fid : string) :
  fst (handle_file m db) = reply_indexed name hint mime fid ->
  exists rec,
    PyDict.get (snd (handle_file m db)) fid = Some rec /\
    file_name rec = name /\ type_hint rec = hint /\ mime_type rec = mime /\
    user_id rec = Telegram.from_user_id m /\
    hint = get_file_type_hint mime.
Proof.
  destruct (select_file m) as [[[att n] t] |] eqn:Hsel.
  - rewrite (handle_file_selected m db _ _ _ Hsel). cbn [fst snd].
    intros H. injection H as <- <- <- <-.
    eexists. split; [apply get_set_same |]. cbn. repeat split.
  - rewrite (handle_file_none m db Hsel). discriminate.
Qed.

Lemma confirmation_describes_record_witness :
  exists rec,
    PyDict.get (snd (handle_file (Telegram.mkMessage 42 (Some report_pdf) None None)
                                 seven_matches)) "id1" = Some rec /\
    file_name rec = "Report_2024.pdf".
Proof.
  destruct (confirmation_describes_record
              (Telegram.mkMessage 42 (Some report_pdf) None None) seven_matches
              "Report_2024.pdf" "Document (PDF/ZIP/Text)" "application/pdf" "id1"
              eq_refl) as (rec & Hget & Hname & _).
  exists rec. exact (conj Hget Hname).
Defined.

(** X12. [handle_file] answers with the "no file" notice exactly when the
    message has no document, no video and no audio; with any of them it
    answers with a confirmation and the index holds the file id. *)
Theorem handle_file_notice_iff (m : Telegram.Message) (db : Database) :
  (fst (handle_file m db) = reply_text NO_FILE_TEXT <->
   Telegram.document m = None /\ Telegram.video m = None /\
   Telegram.audio m = None) /\
  (Telegram.document m <> None \/ Telegram.video m <> None \/
   Telegram.audio m <> None ->
   exists name hint mime fid,
     fst (handle_file m db) = reply_indexed name hint mime fid /\
     In fid (PyDict.keys (snd (handle_file m db)))).
Proof.
  assert (Hnone : select_file m = None <->
                  Telegram.document m = None /\ Telegram.video m = None /\
                  Telegram.audio m = None).
  { unfold select_file.
    destruct (Telegram.document m), (Telegram.video m), (Telegram.audio m);
      split; try discriminate; try tauto; intros (H1 & H2 & H3); discriminate. }
  destruct (select_file m) as [[[att n] t] |] eqn:Hsel.
  - rewrite (handle_file_selected m db _ _ _ Hsel). cbn [fst snd]. split.
    + split; [discriminate |]. intros H. apply Hnone in H. discriminate H.
    + intros _. do 4 eexists. split; [reflexivity |].
      rewrite keys_set.
      destruct (PyStr.in_list _ _) eqn:E; [now apply in_list_In |].
      apply in_or_app. right. now left.
  - rewrite (handle_file_none m db Hsel). cbn [fst snd]. split.
    + split; [intros _; now apply Hnone | reflexivity].
    + intros H. exfalso. destruct Hnone as [Hn _].
      destruct (Hn eq_refl) as (H1 & H2 & H3). tauto.
Qed.

Lemma handle_file_notice_iff_witness :
  exists name hint mime fid,
    fst (handle_file (Telegram.mkMessage 9 None None (Some empty_file))
                     seven_matches) = reply_indexed name hint mime fid /\
    In fid (PyDict.keys
              (snd (handle_file (Telegram.mkMessage 9 None None (Some empty_file))
                                seven_matches))).
Proof.
  destruct (handle_file_notice_iff
              (Telegram.mkMessage 9 None None (Some empty_file)) seven_matches)
    as [_ H].
  apply H. right. right. discriminate.
Defined.

(** ** Further properties of the classifier *)








Lemma contains_char_app (c : ascii) (p t : string) :
  ClassifySpec.contains_char c (p ++ String c t)%string = true.
Proof.
  induction p as [| a p IH]; cbn.
  - now rewrite Ascii.eqb_refl.
  - rewrite IH. apply orb_true_r.
Qed.

Lemma not_listed (m : string) (l : list string) :
  ~ In m l -> PyStr.in_list m l = false.
Proof.
  intros H. destruct (PyStr.in_list m l) eqn:E; [| reflexivity].
  apply in_list_In in E. contradiction.
Qed.

(** X13. For a MIME type outside the three lists, the hint depends only
    on the text after the last slash and is that text upper-cased; a type
    that ends with a slash gets the empty hint. *)
Theorem hint_is_upper_subtype (p t : string) :
  let m := (p ++ String "/" t)%string in
  ~ In m VIDEO_MIMES -> ~ In m DOCUMENT_MIMES -> ~ In m IMAGE_MIMES ->
  ClassifySpec.contains_char "/" t = false ->
  get_file_type_hint m = PyStr.upper t /\
  (t = EmptyString -> get_file_type_hint m = EmptyString).
Proof.
  intros m Hv Hd Hi Ht.
  assert (H : get_file_type_hint m = PyStr.upper t).
  { unfold get_file_type_hint.
    rewrite (not_listed _ _ Hv), (not_listed _ _ Hd), (not_listed _ _ Hi).
    rewrite str_in_char. subst m. rewrite contains_char_app.
    rewrite split_last, after_last_app by assumption. reflexivity. }
  split; [exact H |]. intros ->. exact H.
Qed.

Lemma hint_is_upper_subtype_witness :
  get_file_type_hint "application/vnd.ms-excel" = "VND.MS-EXCEL".
Proof.
  destruct (hint_is_upper_subtype "application" "vnd.ms-excel") as [H _].
  - cbn. intuition discriminate.
  - cbn. intuition discriminate.
  - cbn. intuition discriminate.
  - reflexivity.
  - exact H.
Defined.








(** ** Properties of the webhook registration *)

Lemma rstrip_app_sep (c : ascii) (s : string) :
  PyStr.rstrip c (s ++ String c EmptyString)%string = PyStr.rstrip c s.
Proof.
  induction s as [| a s IH]; cbn.
  - now rewrite Ascii.eqb_refl.
  - now rewrite IH.
Qed.

Lemma app_slashes_S (s : string) (n : nat) :
  (s ++ slashes (S n))%string = ((s ++ String "/" EmptyString) ++ slashes n)%string.
Proof. induction s as [| a s IH]; cbn; [reflexivity | now rewrite <- IH]. Qed.

Lemma rstrip_app_slashes (s : string) (n : nat) :
  PyStr.rstrip "/" (s ++ slashes n)%string = PyStr.rstrip "/" s.
Proof.
  revert s. induction n as [| n IH]; intros s.
  - cbn. f_equal. induction s as [| a s IHs]; cbn; [reflexivity | now rewrite IHs].
  - now rewrite app_slashes_S, IH, rstrip_app_sep.
Qed.

Lemma rstrip_decompose (s : string) :
  exists n, s = (PyStr.rstrip "/" s ++ slashes n)%string.
Proof.
  induction s as [| a s [n IH]]; [now exists 0 |].
  cbn [PyStr.rstrip]. destruct (PyStr.rstrip "/" s) as [| b r] eqn:Hr.
  - destruct (Ascii.eqb a "/") eqn:Ea.
    + apply Ascii.eqb_eq in Ea. subst a. exists (S n). cbn in *. now rewrite <- IH.
    + exists n. cbn in *. now rewrite <- IH.
  - exists n. cbn in *. now rewrite <- IH.
Qed.

Lemma rstrip_no_trailing (s : string) :
  ends_with_char "/" (PyStr.rstrip "/" s) = false.
Proof.
  induction s as [| a s IH]; [reflexivity |].
  cbn [PyStr.rstrip]. destruct (PyStr.rstrip "/" s) as [| b r] eqn:Hr.
  - destruct (Ascii.eqb a "/") eqn:Ea; [reflexivity | exact Ea].
  - exact IH.
Qed.

(** X17. Trailing slashes of [WEBHOOK_URL] make no difference: with any
    number of slashes added to a non-empty URL, [set_webhook] makes the
    same bot calls and gives the same response. *)
Theorem set_webhook_ignores_trailing_slashes
        (url token : string) (n : nat) (bot_answer : string -> bool) :
  url <> EmptyString ->
  set_webhook (Some (url ++ slashes n)%string) token bot_answer
  = set_webhook (Some url) token bot_answer.
Proof.
  intros Hne. unfold set_webhook, full_webhook_url.
  destruct url as [| a url]; [congruence |].
  cbn [PyStr.falsy String.append]. rewrite <- (rstrip_app_slashes (String a url) n).
  reflexivity.
Qed.

Lemma set_webhook_ignores_trailing_slashes_witness :
  set_webhook (Some "https://bot.example.com//") "123:abc" (fun _ => true)
  = set_webhook (Some "https://bot.example.com") "123:abc" (fun _ => true).
Proof.
  apply (set_webhook_ignores_trailing_slashes "https://bot.example.com" "123:abc" 2).
  discriminate.
Defined.

(** X18. The URL that [set_webhook] registers is the configured URL
    without its trailing slashes, one slash, and the token: the configured
    URL is a stem that does not end with a slash followed by slashes only,
    and the registered URL is that stem followed by ["/"] and the token. *)
Theorem full_webhook_url_shape (url token : string) :
  exists stem n,
    url = (stem ++ slashes n)%string /\
    ends_with_char "/" stem = false /\
    full_webhook_url url token = (stem ++ String "/" token)%string.
Proof.
  destruct (rstrip_decompose url) as [n Hn].
  exists (PyStr.rstrip "/" url), n. split; [exact Hn |]. split.
  - apply rstrip_no_trailing.
  - reflexivity.
Qed.

(** X19. [set_webhook] calls the bot only when [WEBHOOK_URL] is set and
    non-empty, and then it deletes the old webhook before it registers
    the new URL, also when the registration then fails; it answers 200
    only when the bot accepted the URL that the response shows, and 500
    otherwise. *)
Theorem set_webhook_outcomes
        (WEBHOOK_URL : option string) (token : string)
        (bot_answer : string -> bool) :
  let '(body, status, calls) := set_webhook WEBHOOK_URL token bot_answer in
  (calls = [] <-> PyStr.falsy WEBHOOK_URL = true) /\
  (calls = [] -> body = NOT_SET_TEXT /\ status = 500) /\
  (calls <> [] ->
   exists url,
     WEBHOOK_URL = Some url /\
     calls = [bot_delete_webhook; bot_set_webhook (full_webhook_url url token)] /\
     (bot_answer (full_webhook_url url token) = true ->
      status = 200 /\ body = (SET_PREFIX ++ full_webhook_url url token)%string) /\
     (bot_answer (full_webhook_url url token) = false ->
      status = 500 /\ body = FAILED_TEXT)) /\
  (status = 200 \/ status = 500).
Proof.
  unfold set_webhook.
  destruct WEBHOOK_URL as [[| a url] |]; cbn [PyStr.falsy].
  - repeat split; try tauto; try congruence; now right.
  - destruct (bot_answer (full_webhook_url (String a url) token)) eqn:E.
    + split; [split; discriminate |]. split; [discriminate |].
      split; [| now left]. intros _. exists (String a url).
      rewrite E. repeat split; try discriminate.
    + split; [split; discriminate |]. split; [discriminate |].
      split; [| now right]. intros _. exists (String a url).
      rewrite E. repeat split; try discriminate.
  - repeat split; try tauto; try congruence; now right.
Qed.

Lemma set_webhook_outcomes_witness :
  set_webhook (Some "https://bot.example.com/") "123:abc" (fun _ => false)
  = (FAILED_TEXT, 500,
     [bot_delete_webhook; bot_set_webhook "https://bot.example.com/123:abc"]).
Proof.
  pose proof (set_webhook_outcomes (Some "https://bot.example.com/") "123:abc"
                                   (fun _ => false)) as H.
  destruct (set_webhook (Some "https://bot.example.com/") "123:abc" (fun _ => false))
    as [[body status] calls] eqn:E.
  destruct H as (_ & _ & H & _).
  assert (Hc : calls <> []) by (vm_compute in E; injection E as _ _ <-; discriminate).
  destruct (H Hc) as (url & Hurl & Hcalls & _ & Hfail).
  injection Hurl as <-.
  destruct (Hfail eq_refl) as [-> ->]. rewrite Hcalls. reflexivity.
Defined.
